(** * LegalGuardianGPT: the background request broker

    A shallow embedding of the extension's background script
    (the third script of [src/extension/popup.js], from
    [// Simplified background script for LegalGuardianGPT] on):
    [CONFIG], [cache], [CACHE_TTL], [fetchWithTimeout], [checkCUADHealth],
    [searchCUADSimple], [getFallbackClauses], [analyzeSimple] and the
    [chrome.runtime.onMessage] listener.

    Conventions of the embedding.
    - JavaScript strings are [string]s of ASCII characters; on those,
      [toLowerCase], [includes] and [substring] below are the JavaScript
      ones (UTF-16 code units and bytes coincide).
    - Instants, delays and result counts are integers ([Z]; milliseconds
      for the first two).
    - A request's [query], [documentText] and [question] are strings when
      present, its [nResults] an integer when present.
    - An [async] function is a computation in the monad [M]: it threads the
      broker's world (the shared [cache], the clock read by [Date.now()],
      the log of effects performed) and ends by returning, throwing, or
      staying pending for ever.
    - What the backend does with a call is an input, [Net]: when the
      response or the failure arrives, if ever; once the headers are there,
      reading the body ends with a value or an error after some time, or
      never ends.
    - [console.log], [console.warn] and [console.error] are left out.

    Around the broker, the development embeds what the other scripts
    compute: of the sidebar script (the second script of
    [src/extension/popup.js]) [checkConnections], [loadPageContent],
    [updateTextStats], [analyzeDocument], [displayAnalysisResults],
    [getModeTitle], [sendChatMessage], [addChatMessage],
    [updateCUADContext], [formatResponse] and the settings functions; of
    the popup script (the first one) [checkBackendStatus] and the click
    handler of [#analyzePage]; of the content script
    ([src/unnamed/part_000]) [extractTextSimple], [shouldAutoInject] and the
    message listener.
    - A page is what the functions read of it, and a function's result is
      what it writes: the texts and markup named in its model.  The
      elements the scripts look up by id are taken to exist; scrolling, the
      typing indicator, the injected frame and [alert] are left out.
    - [chrome.runtime.sendMessage(request)] is answered by the broker's
      listener, [chrome.tabs.sendMessage] by the tab's listener.
    - The two symbols the quick analysis puts in its markup are outside
      ASCII; they stand in the literals as their UTF-8 bytes, and nothing
      is computed on them. *)

From stdpp Require Import gmap strings list fin_maps pretty.
From Stdlib Require Import ZArith Ascii Lia.

Open Scope Z_scope.

(** ** JavaScript strings *)

Module JsString.

Definition lower_ascii (c : ascii) : ascii :=
  let n := N_of_ascii c in
  if ((65 <=? n) && (n <=? 90))%N then ascii_of_N (n + 32) else c.

(** [s.toLowerCase()] *)
Fixpoint toLowerCase (s : string) : string :=
  match s with
  | EmptyString => EmptyString
  | String c r => String (lower_ascii c) (toLowerCase r)
  end.

(** [s.includes(sub)] *)
Fixpoint includes (s sub : string) : bool :=
  String.prefix sub s ||
  match s with
  | EmptyString => false
  | String _ r => includes r sub
  end.

(** [s.substring(0, k)] for a literal [k >= 0] *)
Definition substring0 (k : nat) (s : string) : string := String.substring 0 k s.

(** [n] copies of the character [c] *)
Fixpoint replicate_char (n : nat) (c : ascii) : string :=
  match n with
  | O => EmptyString
  | S k => String c (replicate_char k c)
  end.

(** [s.padStart(w, "0")] *)
Definition pad0 (w : nat) (s : string) : string :=
  replicate_char (w - String.length s) "0"%char +:+ s.

End JsString.
Export JsString.

(** ** JavaScript values *)

(** A number is carried as a decimal [mant * 10^-scale]: the integers the
    script computes have [scale = 0], and the literals [0.85], [0.2] are
    [dec 85 2], [dec 2 1]. *)
Record Decimal := dec { mant : Z; scale : nat }.

#[warnings="-register-all"]
Inductive JsVal : Type :=
  | JUndefined
  | JNull
  | JBool (b : bool)
  | JNum (d : Decimal)
  | JStr (s : string)
  | JArr (items : list JsVal)
  | JObj (fields : list (string * JsVal)).

Definition JInt (z : Z) : JsVal := JNum (dec z 0).

(** Decimal rendering of [mant * 10^-scale] (the rendering of
    [Number.prototype.toString] for a decimal in lowest form outside the
    exponent ranges). *)
Definition num_to_string (d : Decimal) : string :=
  match scale d with
  | O => pretty (mant d)
  | _ =>
      let digits := pad0 (S (scale d)) (pretty (Z.abs (mant d))) in
      let k := (String.length digits - scale d)%nat in
      (if mant d <? 0 then "-" else "") +:+
      String.substring 0 k digits +:+ "." +:+ String.substring k (scale d) digits
  end.

(** [`${v}`]: the string a template literal makes of a value. *)
Fixpoint js_to_string (v : JsVal) : string :=
  match v with
  | JUndefined => "undefined"
  | JNull => "null"
  | JBool true => "true"
  | JBool false => "false"
  | JNum d => num_to_string d
  | JStr s => s
  | JArr items =>
      let elt x :=
        match x with
        | JUndefined | JNull => ""
        | _ => js_to_string x
        end in
      (fix join (l : list JsVal) : string :=
         match l with
         | [] => ""
         | [x] => elt x
         | x :: r => elt x +:+ "," +:+ join r
         end) items
  | JObj _ => "[object Object]"
  end.

(** Own property [name] of an object literal or of a parsed JSON object. *)
Fixpoint field (name : string) (fields : list (string * JsVal)) : JsVal :=
  match fields with
  | [] => JUndefined
  | (k, v) :: r => if String.eqb k name then v else field name r
  end.

(** [v.name], for a [name] that no prototype defines: it throws on
    [null] and [undefined] (the message is V8's) and is [undefined] on
    every value that is not an object with that key. *)
Definition get_prop (v : JsVal) (name : string) : string + JsVal :=
  match v with
  | JUndefined =>
      inl ("Cannot read properties of undefined (reading '" +:+ name +:+ "')")
  | JNull =>
      inl ("Cannot read properties of null (reading '" +:+ name +:+ "')")
  | JObj fields => inr (field name fields)
  | _ => inr JUndefined
  end.

(** [v || w] picks [w] when [v] is falsy; on an optional string, the falsy
    ones are [null]/[undefined] and the empty string. *)
Definition string_or (v : option string) (w : string) : string :=
  match v with
  | Some s => if String.eqb s "" then w else s
  | None => w
  end.

(** ** Dates *)

Module JsDate.

(** Civil date of a day count since 1970-01-01 (proleptic Gregorian). *)
Definition civil_from_days (days : Z) : Z * Z * Z :=
  let z := days + 719468 in
  let era := z / 146097 in
  let doe := z - era * 146097 in
  let yoe := (doe - doe / 1460 + doe / 36524 - doe / 146096) / 365 in
  let doy := doe - (365 * yoe + yoe / 4 - yoe / 100) in
  let mp := (5 * doy + 2) / 153 in
  let d := doy - (153 * mp + 2) / 5 + 1 in
  let m := if mp <? 10 then mp + 3 else mp - 9 in
  let y := yoe + era * 400 + (if m <=? 2 then 1 else 0) in
  (y, m, d).

Definition year_string (y : Z) : string :=
  if (0 <=? y) && (y <=? 9999) then pad0 4 (pretty y)
  else (if y <? 0 then "-" else "+") +:+ pad0 6 (pretty (Z.abs y)).

(** [new Date(t).toISOString()] for an instant [t] in milliseconds. *)
Definition toISOString (t : Z) : string :=
  let '(y, m, d) := civil_from_days (t / 86400000) in
  let ms := t mod 86400000 in
  year_string y +:+ "-" +:+ pad0 2 (pretty m) +:+ "-" +:+ pad0 2 (pretty d)
  +:+ "T" +:+ pad0 2 (pretty (ms / 3600000))
  +:+ ":" +:+ pad0 2 (pretty (ms / 60000 mod 60))
  +:+ ":" +:+ pad0 2 (pretty (ms / 1000 mod 60))
  +:+ "." +:+ pad0 3 (pretty (ms mod 1000)) +:+ "Z".

End JsDate.
Export JsDate.

(** ** The broker's world and the monad of [async] functions *)

(** [cache.set(key, { data, timestamp })] stores such an entry. *)
Record CacheEntry := { data : JsVal; timestamp : Z }.

(** What a run does to the outside, in the order it does it. *)
Inductive Effect :=
  | CacheGet (key : string)
  | CacheSet (key : string)
  | Fetch (method url : string) (payload : JsVal).

(** [cache] is the script's [const cache = new Map()], shared by every
    request; [clock] is what [Date.now()] reads. *)
Record World := {
  cache : gmap string CacheEntry;
  clock : Z;
  trace : list Effect
}.

(** How an [async] function ends; of an error the script only ever reads
    [error.message]. *)
Inductive Outcome (A : Type) :=
  | Returned (a : A)
  | Thrown (message : string)
  | Pending.
Arguments Returned {A} a.
Arguments Thrown {A} message.
Arguments Pending {A}.

Definition M (A : Type) : Type := World -> Outcome A * World.

#[global] Instance M_ret : MRet M := fun A a w => (Returned a, w).

#[global] Instance M_bind : MBind M := fun A B k m w =>
  match m w with
  | (Returned a, w') => k a w'
  | (Thrown e, w') => (Thrown e, w')
  | (Pending, w') => (Pending, w')
  end.

Definition throw {A} (message : string) : M A := fun w => (Thrown message, w).

(** [try { m } catch (error) { h error.message }] *)
Definition try_catch {A} (m : M A) (h : string -> M A) : M A :=
  fun w =>
    match m w with
    | (Thrown e, w') => h e w'
    | r => r
    end.

Definition emit (e : Effect) (w : World) : World :=
  {| cache := cache w; clock := clock w; trace := trace w ++ [e] |}.

Definition elapse (ms : Z) (w : World) : World :=
  {| cache := cache w; clock := clock w + ms; trace := trace w |}.

(** [Date.now()] *)
Definition Date_now : M Z := fun w => (Returned (clock w), w).

(** [cache.get(key)] *)
Definition cache_get (key : string) : M (option CacheEntry) :=
  fun w => (Returned (cache w !! key), emit (CacheGet key) w).

(** [cache.set(key, entry)] *)
Definition cache_set (key : string) (entry : CacheEntry) : M unit :=
  fun w =>
    (Returned tt,
     emit (CacheSet key)
       {| cache := <[key := entry]> (cache w); clock := clock w; trace := trace w |}).

(** ** Configuration *)

Record Config := { CUAD_API_URL : string; MAX_RETRIES : Z; TIMEOUT : Z }.

Definition CONFIG : Config :=
  {| CUAD_API_URL := "http://localhost:8000"; MAX_RETRIES := 3; TIMEOUT := 10000 |}.

Definition CACHE_TTL : Z := 60000.

(** ** The backend *)

Inductive Body :=
  | BodyJson (v : JsVal)              (* the body parses to [v] *)
  | BodyMalformed (message : string)  (* [response.json()] rejects *)
  | BodyStalls.                       (* the body never arrives in full *)

(** A response whose headers have arrived; reading and parsing a body
    that arrives takes [body_ms] more. *)
Record HttpResponse := { status : Z; body : Body; body_ms : Z }.

(** [response.ok] *)
Definition ok (r : HttpResponse) : bool := (200 <=? status r) && (status r <=? 299).

(** What the network does with one call: answer after [latency] ms, fail
    after [latency] ms, or never settle by itself. *)
Inductive Net :=
  | NetResponds (latency : Z) (r : HttpResponse)
  | NetFails (latency : Z) (message : string)
  | NetSilent.

(** [await response.json()].  No caller puts a deadline on it (the timer
    of [fetchWithTimeout] is cleared once the headers are there), so on a
    body that stalls the caller stays pending. *)
Definition json (r : HttpResponse) : M JsVal :=
  fun w =>
    match body r with
    | BodyJson v => (Returned v, elapse (body_ms r) w)
    | BodyMalformed e => (Thrown e, elapse (body_ms r) w)
    | BodyStalls => (Pending, w)
    end.

(** ** The bounded executor: [fetchWithTimeout]

    The function arms a timer whose callback aborts the fetch, awaits the
    fetch, and on either continuation clears the timer and completes.  The
    run time then delivers events; [exec_step] is what each of them does to
    one invocation. *)
Module Executor.

Inductive FetchError :=
  | AbortError                      (* the signal was aborted *)
  | NetworkError (message : string). (* the fetch itself failed *)

(** [error.message]; for the abort it is Chrome's text. *)
Definition error_message (e : FetchError) : string :=
  match e with
  | AbortError => "signal is aborted without reason"
  | NetworkError m => m
  end.

(** How one invocation completes. *)
Inductive Settlement :=
  | Resolved (r : HttpResponse)   (* [return response] *)
  | Rejected (e : FetchError).    (* [throw error] *)

Inductive Event :=
  | NetResolves (r : HttpResponse)
  | NetRejects (message : string)
  | TimerFires.

Record Exec := {
  aborted : bool;                       (* [controller.signal.aborted] *)
  timer_armed : bool;                   (* the timeout [id] is still set *)
  settled : option (Z * Settlement);    (* when and how the call completed *)
  settlements : nat                     (* how many times it completed *)
}.

(** After [new AbortController()] and [setTimeout(..., timeout)]. *)
Definition exec_init : Exec :=
  {| aborted := false; timer_armed := true; settled := None; settlements := 0 |}.

(** The continuation of the [await]: [clearTimeout(id)], then [return] or
    [throw]. *)
Definition settle (t : Z) (o : Settlement) (s : Exec) : Exec :=
  {| aborted := aborted s; timer_armed := false;
     settled := Some (t, o); settlements := S (settlements s) |}.

Definition exec_step (s : Exec) (e : Z * Event) : Exec :=
  let '(t, ev) := e in
  match ev with
  | TimerFires =>
      if timer_armed s then
        (* the callback runs [controller.abort()] ... *)
        let s' := {| aborted := true; timer_armed := false;
                     settled := settled s; settlements := settlements s |} in
        (* ... which rejects the fetch if it is still pending *)
        match settled s with
        | None => settle t (Rejected AbortError) s'
        | Some _ => s'
        end
      else s
  | NetResolves r =>
      match settled s with
      | None => if aborted s then s else settle t (Resolved r) s
      | Some _ => s
      end
  | NetRejects m =>
      match settled s with
      | None => if aborted s then s else settle t (Rejected (NetworkError m)) s
      | Some _ => s
      end
  end.

Definition exec_run (events : list (Z * Event)) : Exec :=
  fold_left exec_step events exec_init.

(** The events of one call in the order they happen: the timer is due
    [timeout] ms after the call (at once when [timeout <= 0]), the network
    event after its latency; on a tie the timer is served first. *)
Definition schedule (net : Net) (timeout : Z) : list (Z * Event) :=
  let due := Z.max 0 timeout in
  match net with
  | NetResponds d r =>
      if d <? due then [(d, NetResolves r); (due, TimerFires)]
      else [(due, TimerFires); (d, NetResolves r)]
  | NetFails d m =>
      if d <? due then [(d, NetRejects m); (due, TimerFires)]
      else [(due, TimerFires); (d, NetRejects m)]
  | NetSilent => [(due, TimerFires)]
  end.

End Executor.
Export Executor.

(** [fetchWithTimeout(url, options, timeout)]; [method] and [payload] are
    what [options] carries ([payload] is the value handed to
    [JSON.stringify]). *)
Definition fetchWithTimeout_at (method url : string) (payload : JsVal)
    (timeout : Z) (net : Net) : M HttpResponse :=
  fun w =>
    let w1 := emit (Fetch method url payload) w in
    match settled (exec_run (schedule net timeout)) with
    | Some (t, Resolved r) => (Returned r, elapse t w1)
    | Some (t, Rejected e) => (Thrown (error_message e), elapse t w1)
    | None => (Pending, w1)
    end.

(** The default parameter [timeout = CONFIG.TIMEOUT]; no caller passes
    another. *)
Definition fetchWithTimeout (method url : string) (payload : JsVal)
    (net : Net) : M HttpResponse :=
  fetchWithTimeout_at method url payload (TIMEOUT CONFIG) net.

(** ** The fallback provider: [getFallbackClauses] *)

Record Metadata := { source : string; document_title : string }.

Record Clause := {
  text : string;
  clause_type : string;
  similarity_score : Decimal;
  metadata : Metadata
}.

Definition sampleClauses : list Clause :=
  [ {| text := "Confidential Information means all information disclosed by one party to another that is marked confidential or should reasonably be considered confidential.";
       clause_type := "Confidentiality";
       similarity_score := dec 85 2;
       metadata := {| source := "fallback"; document_title := "Sample NDA" |} |};
    {| text := "This Agreement may be terminated by either party upon thirty (30) days written notice to the other party.";
       clause_type := "Termination";
       similarity_score := dec 72 2;
       metadata := {| source := "fallback"; document_title := "Sample Agreement" |} |};
    {| text := "Neither party shall be liable for any indirect, special, incidental, or consequential damages.";
       clause_type := "Liability";
       similarity_score := dec 65 2;
       metadata := {| source := "fallback"; document_title := "Sample Contract" |} |} ].

(** [l.slice(0, n)]: a negative [n] counts from the end. *)
Definition slice0 {A} (l : list A) (n : Z) : list A :=
  let len := Z.of_nat (length l) in
  let stop := if n <? 0 then Z.max (len + n) 0 else Z.min n len in
  take (Z.to_nat stop) l.

(** The predicate of the [filter]. *)
Definition clause_matches (queryLower : string) (clause : Clause) : bool :=
  includes (toLowerCase (text clause)) queryLower ||
  includes (toLowerCase (clause_type clause)) queryLower.

(** The body of [getFallbackClauses] over its local table. *)
Definition filterClauses (catalog : list Clause) (query : string) (nResults : Z)
    : list Clause :=
  let queryLower := toLowerCase query in
  let filtered := slice0 (List.filter (clause_matches queryLower) catalog) nResults in
  if (0 <? Z.of_nat (length filtered)) then filtered else slice0 catalog nResults.

Definition getFallbackClauses (query : string) (nResults : Z) : list Clause :=
  filterClauses sampleClauses query nResults.

(** A clause as the object literal the script writes. *)
Definition clause_obj (c : Clause) : JsVal :=
  JObj [ ("text", JStr (text c));
         ("clause_type", JStr (clause_type c));
         ("similarity_score", JNum (similarity_score c));
         ("metadata", JObj [ ("source", JStr (source (metadata c)));
                             ("document_title", JStr (document_title (metadata c))) ]) ].

(** ** The TTL cache as the three functions use it *)

(** [cached && (Date.now() - cached.timestamp) < CACHE_TTL], giving
    [cached.data] when the test holds. *)
Definition fresh (cached : option CacheEntry) (now : Z) : option JsVal :=
  match cached with
  | Some e => if now - timestamp e <? CACHE_TTL then Some (data e) else None
  | None => None
  end.

(** [const cached = cache.get(cacheKey)] followed by the test above: the
    opening lines of each of the three functions. *)
Definition lookup_fresh (cacheKey : string) : M (option JsVal) :=
  cached ← cache_get cacheKey;
  now ← Date_now;
  mret (fresh cached now).

(** [cache.set(cacheKey, { data: v, timestamp: Date.now() })] *)
Definition store (cacheKey : string) (v : JsVal) : M unit :=
  now ← Date_now;
  cache_set cacheKey {| data := v; timestamp := now |}.

(** ** [checkCUADHealth] *)

Definition health_url : string := CUAD_API_URL CONFIG +:+ "/health".

Definition healthy (data : JsVal) : JsVal :=
  JObj [("status", JStr "healthy"); ("data", data)].

Definition health_error (message : string) : JsVal :=
  JObj [("status", JStr "error"); ("error", JStr message); ("fallback", JBool true)].

Definition checkCUADHealth (net : Net) : M JsVal :=
  let cacheKey := "health_check" in
  hit ← lookup_fresh cacheKey;
  match hit with
  | Some v => mret v
  | None =>
      try_catch
        (response ← fetchWithTimeout "GET" health_url JUndefined net;
         data ← json response;
         store cacheKey (healthy data);;
         mret (healthy data))
        (fun message => mret (health_error message))
  end.

(** ** [searchCUADSimple] *)

(** [`${x}`] of an argument that may be missing. *)
Definition show_undefined (x : option string) : string :=
  match x with Some s => s | None => "undefined" end.

Definition show_null (x : option string) : string :=
  match x with Some s => s | None => "null" end.

Definition opt_str (absent : JsVal) (x : option string) : JsVal :=
  match x with Some s => JStr s | None => absent end.

Definition search_key (query : option string) (nResults : Z) : string :=
  "search_" +:+ show_undefined query +:+ "_" +:+ pretty nResults.

Definition search_url : string := CUAD_API_URL CONFIG +:+ "/search".

Definition search_payload (query : option string) (nResults : Z) : JsVal :=
  JObj [ ("query", opt_str JUndefined query);
         ("n_results", JInt nResults);
         ("min_similarity", JNum (dec 2 1)) ].

Definition api_error (r : HttpResponse) : string :=
  "API error: " +:+ pretty (status r).

(** [getFallbackClauses(query, nResults)] as called from the [catch]:
    [query.toLowerCase()] throws on a missing query. *)
Definition fallback_search (query : option string) (nResults : Z) : M JsVal :=
  match query with
  | Some q => mret (JArr (clause_obj <$> getFallbackClauses q nResults))
  | None => throw "Cannot read properties of undefined (reading 'toLowerCase')"
  end.

Definition searchCUADSimple (query : option string) (nResults : Z) (net : Net)
    : M JsVal :=
  let cacheKey := search_key query nResults in
  hit ← lookup_fresh cacheKey;
  match hit with
  | Some v => mret v
  | None =>
      try_catch
        (response ← fetchWithTimeout "POST" search_url
                      (search_payload query nResults) net;
         (if ok response then mret tt else throw (api_error response));;
         data ← json response;
         store cacheKey data;;
         mret data)
        (fun _ => fallback_search query nResults)
  end.

(** ** [analyzeSimple] *)

Definition analyze_key (documentText : string) (question : option string) : string :=
  "analyze_" +:+ substring0 50 documentText +:+ "_" +:+ show_null question.

Definition analyze_url : string := CUAD_API_URL CONFIG +:+ "/analyze".

Definition analyze_payload (documentText : string) (question : option string) : JsVal :=
  JObj [ ("document_text", JStr (substring0 2000 documentText));
         ("question", opt_str JNull question);
         ("n_references", JInt 2) ].

Definition analyze_fallback (documentText : string) (question : option string) : JsVal :=
  JObj [ ("status", JStr "fallback");
         ("document_preview", JStr (substring0 200 documentText));
         ("relevant_clauses_found", JInt 0);
         ("analysis_prompt",
            JStr (string_or question "Please analyze this legal document."));
         ("analysis_ready", JBool false) ].

(** [question] defaults to [null], so a missing and a null question are
    both [None]; a missing [documentText] makes the first line throw. *)
Definition analyzeSimple (documentText : option string) (question : option string)
    (net : Net) : M JsVal :=
  match documentText with
  | None => throw "Cannot read properties of undefined (reading 'substring')"
  | Some doc =>
      let cacheKey := analyze_key doc question in
      hit ← lookup_fresh cacheKey;
      match hit with
      | Some v => mret v
      | None =>
          try_catch
            (response ← fetchWithTimeout "POST" analyze_url
                          (analyze_payload doc question) net;
             (if ok response then mret tt else throw (api_error response));;
             data ← json response;
             store cacheKey data;;
             mret data)
            (fun _ => mret (analyze_fallback doc question))
      end
  end.

(** ** The message listener *)

Record Request := {
  action : string;
  query : option string;
  nResults : option Z;
  documentText : option string;
  question : option string
}.

(** [request.nResults || 3] *)
Definition nResults_or_3 (n : option Z) : Z :=
  match n with
  | Some k => if k =? 0 then 3 else k
  | None => 3
  end.

Definition newline : string := String (ascii_of_nat 10) EmptyString.

Definition gpt_content : string :=
  "Analysis based on CUAD references: This appears to be a legal document containing standard provisions. For detailed analysis, please configure OpenAI API key in settings.".

Definition lift_prop (r : string + JsVal) : M JsVal :=
  match r with
  | inl message => throw message
  | inr v => mret v
  end.

Definition enhanced_content (prompt found : JsVal) : string :=
  "Analysis based on document context: " +:+ js_to_string prompt +:+ newline
  +:+ newline +:+ "[Using CUAD RAG system - " +:+ js_to_string found
  +:+ " references found]".

(** The [switch] on [request.action]; each value is the argument of the
    [sendResponse] call of its case. *)
Definition dispatch (request : Request) (net : Net) : M JsVal :=
  if String.eqb (action request) "CHECK_CUAD_HEALTH" then
    checkCUADHealth net
  else if String.eqb (action request) "SEARCH_CUAD" then
    searchCUADSimple (query request) (nResults_or_3 (nResults request)) net
  else if String.eqb (action request) "ANALYZE_WITH_CUAD" then
    analyzeSimple (documentText request) (question request) net
  else if String.eqb (action request) "GET_GPT_RESPONSE" then
    now ← Date_now;
    mret (JObj [ ("fallback", JBool true);
                 ("content", JStr gpt_content);
                 ("timestamp", JStr (toISOString now)) ])
  else if String.eqb (action request) "GET_ENHANCED_RESPONSE" then
    analysis ← analyzeSimple (documentText request) (question request) net;
    prompt ← lift_prop (get_prop analysis "analysis_prompt");
    found ← lift_prop (get_prop analysis "relevant_clauses_found");
    now ← Date_now;
    mret (JObj [ ("fallback", JBool true);
                 ("content", JStr (enhanced_content prompt found));
                 ("analysis", analysis);
                 ("timestamp", JStr (toISOString now)) ])
  else if String.eqb (action request) "PING" then
    now ← Date_now;
    mret (JObj [ ("status", JStr "pong"); ("timestamp", JInt now) ])
  else
    mret (JObj [ ("error", JStr "Unknown action");
                 ("action", JStr (action request)) ]).

(** The [catch] of the listener. *)
Definition respond_error (message : string) : M JsVal :=
  now ← Date_now;
  mret (JObj [ ("error", JStr message);
               ("fallback", JBool true);
               ("timestamp", JStr (toISOString now)) ]).

(** The body of the listener's [async] arrow; its result is the argument
    of the one [sendResponse] call the run reaches. *)
Definition handle (request : Request) (net : Net) : M JsVal :=
  try_catch (dispatch request net) respond_error.

(** The actions the [switch] names. *)
Definition known_actions : list string :=
  [ "CHECK_CUAD_HEALTH"; "SEARCH_CUAD"; "ANALYZE_WITH_CUAD";
    "GET_GPT_RESPONSE"; "GET_ENHANCED_RESPONSE"; "PING" ].

(** ** The sidebar script: text statistics and formatting

    [updateTextStats] and [formatResponse] of the second script of
    [src/extension/popup.js] (from [// DOM Elements] on). *)
Module Sidebar.

(** The characters [\s] and [trim] take for white space, among ASCII: tab,
    line feed, vertical tab, form feed, carriage return and space. *)
Definition is_space (c : ascii) : bool :=
  let n := N_of_ascii c in
  (((9 <=? n) && (n <=? 13)) || (n =? 32))%N.

Fixpoint trimStart (s : string) : string :=
  match s with
  | EmptyString => EmptyString
  | String c r => if is_space c then trimStart r else s
  end.

Fixpoint trimEnd (s : string) : string :=
  match s with
  | EmptyString => EmptyString
  | String c r =>
      match trimEnd r with
      | EmptyString => if is_space c then EmptyString else String c EmptyString
      | r' => String c r'
      end
  end.

(** [s.trim()] *)
Definition trim (s : string) : string := trimEnd (trimStart s).

(** [s.split(/\s+/)]: the pieces between the runs of white space, the
    piece before a leading run and the piece after a trailing run being
    empty strings; [cur] is the piece being read and [gap] tells that the
    last character read was white space. *)
Fixpoint split_ws_go (s cur : string) (gap : bool) : list string :=
  match s with
  | EmptyString => [cur]
  | String c r =>
      if is_space c then
        if gap then split_ws_go r EmptyString true
        else cur :: split_ws_go r EmptyString true
      else split_ws_go r (cur +:+ String c EmptyString) false
  end.

Definition split_ws (s : string) : list string := split_ws_go s EmptyString false.

(** [text.trim().split(/\s+/).filter(word => word.length > 0).length] *)
Definition wordCount (text : string) : nat :=
  List.length
    (List.filter (fun word => (0 <? String.length word)%nat) (split_ws (trim text))).

(** [updateTextStats(text)]: the texts it writes into [#charCount] and
    [#wordCount]. *)
Definition updateTextStats (text : string) : string * string :=
  let charCount := String.length text in
  (pretty charCount +:+ " chars", pretty (wordCount text) +:+ " words").

(** [text.replace(/\n/g, '<br>')] *)
Fixpoint formatResponse (text : string) : string :=
  match text with
  | EmptyString => EmptyString
  | String c r =>
      if Ascii.eqb c (ascii_of_nat 10) then "<br>" +:+ formatResponse r
      else String c (formatResponse r)
  end.

End Sidebar.
Export Sidebar.

(** ** The content script: [src/unnamed/part_000] *)
Module ContentScript.

Definition double_quote : string := String (ascii_of_nat 34) EmptyString.

Definition mainSelectors : list string :=
  [ "main"; "article"; "[role=" +:+ double_quote +:+ "main" +:+ double_quote +:+ "]";
    ".content"; ".document"; "body" ].

(** [extractTextSimple()].  The page is given by [querySelector], the
    [textContent] of the first element a selector matches ([None] when it
    matches none), and by [bodyText], the [textContent] of [document.body]. *)
Definition extractTextSimple (querySelector : string -> option string)
    (bodyText : string) : string :=
  let fix scan (selectors : list string) : string :=
    match selectors with
    | [] => substring0 5000 bodyText
    | selector :: rest =>
        match querySelector selector with
        | Some textContent =>
            if negb (String.eqb textContent "")
               && (100 <? String.length (trim textContent))%nat
            then substring0 5000 textContent
            else scan rest
        | None => scan rest
        end
    end in
  scan mainSelectors.

Definition legalKeywords : list string :=
  [ "terms"; "privacy"; "contract"; "agreement"; "legal"; "policy" ].

(** [shouldAutoInject()] for [window.location.href = href] *)
Definition shouldAutoInject (href : string) : bool :=
  let url := toLowerCase href in
  existsb (fun keyword => includes url keyword) legalKeywords.

End ContentScript.
Export ContentScript.

(** ** The sidebar script: talking to the listener

    [checkConnections], [addChatMessage], [updateCUADContext] and
    [sendChatMessage] of the second script.  A
    [chrome.runtime.sendMessage(request)] is answered by the listener above,
    so awaiting it is running [handle request].  Of the page the functions
    write, the model keeps what they compute: the two status texts, the
    [chatHistory] array and the value of the chat input; the other writes to
    the page (typing indicator, message markup, scrolling) are left out, and
    the elements the script looks up by id are taken to exist. *)
Module SidebarChat.

(** Truthiness of a value, as [if], [&&] and [||] test it. *)
Definition truthy (v : JsVal) : bool :=
  match v with
  | JUndefined | JNull => false
  | JBool b => b
  | JNum d => negb (mant d =? 0)
  | JStr s => negb (String.eqb s "")
  | JArr _ | JObj _ => true
  end.

(** [v === s] for a string literal [s] *)
Definition is_string (s : string) (v : JsVal) : bool :=
  match v with
  | JStr s' => String.eqb s' s
  | _ => false
  end.

Definition no_request_fields (a : string) : Request :=
  {| action := a; query := None; nResults := None;
     documentText := None; question := None |}.

(** *** [checkConnections] *)

Definition dq : string := String (ascii_of_nat 34) EmptyString.

(** The markup the function writes into [#connectionStatus]. *)
Definition status_markup (dot text : string) : string :=
  "<span class=" +:+ dq +:+ "status-dot " +:+ dot +:+ dq +:+ "></span><span class="
  +:+ dq +:+ "status-text" +:+ dq +:+ ">" +:+ text +:+ "</span>".

(** [statusEl.innerHTML] and [apiStatusEl.textContent] *)
Record ConnectionView := { statusEl : string; apiStatusEl : string }.

Definition connected_view (count : JsVal) : ConnectionView :=
  {| statusEl := status_markup "connected" "CUAD RAG Connected";
     apiStatusEl := "CUAD: " +:+ js_to_string count +:+ " clauses" |}.

Definition disconnected_view : ConnectionView :=
  {| statusEl := status_markup "disconnected" "CUAD Disconnected";
     apiStatusEl := "CUAD: Offline" |}.

Definition error_view : ConnectionView :=
  {| statusEl := status_markup "error" "Connection Error";
     apiStatusEl := "CUAD: Error" |}.

(** The body of the [try]: what the two elements hold when it completes.
    When it throws, the [catch] overwrites both elements, so what the [try]
    had written by then is not kept. *)
Definition connection_attempt (response : JsVal) : M ConnectionView :=
  status ← lift_prop (get_prop response "status");
  if is_string "healthy" status then
    data ← lift_prop (get_prop response "data");
    collection_info ← lift_prop (get_prop data "collection_info");
    document_count ← lift_prop (get_prop collection_info "document_count");
    mret (connected_view document_count)
  else mret disconnected_view.

Definition checkConnections (net : Net) : M ConnectionView :=
  try_catch
    (response ← handle (no_request_fields "CHECK_CUAD_HEALTH") net;
     connection_attempt response)
    (fun _ => mret error_view).

(** *** The chat *)

(** An element of the [chatHistory] array. *)
Record ChatEntry := { role : string; content : string; timestamp : string }.

Record Sidebar := {
  currentDocumentText : string;
  chatHistory : list ChatEntry;
  chatInput : string            (* the value of [#chatInput] *)
}.

(** [addChatMessage(role, content)]: building the markup calls
    [formatResponse(content)], which throws unless [content] is a string;
    then the entry is pushed. *)
Definition addChatMessage (role : string) (content : JsVal) (now : Z)
    (ui : Sidebar) : string + Sidebar :=
  match content with
  | JStr s =>
      inr {| currentDocumentText := currentDocumentText ui;
             chatHistory := chatHistory ui
                            ++ [ {| role := role; content := s;
                                    timestamp := toISOString now |} ];
             chatInput := chatInput ui |}
  | JUndefined => inl "Cannot read properties of undefined (reading 'replace')"
  | JNull => inl "Cannot read properties of null (reading 'replace')"
  | _ => inl "text.replace is not a function"
  end.

Definition clear_input (ui : Sidebar) : Sidebar :=
  {| currentDocumentText := currentDocumentText ui;
     chatHistory := chatHistory ui; chatInput := "" |}.

(** [updateCUADContext(query)], which is not awaited: its request, run
    after the caller's own; what it draws from the response is left out,
    and it catches what it throws. *)
Definition updateCUADContext (query : string) (net : Net) (w : World) : World :=
  snd (handle {| action := "SEARCH_CUAD"; query := Some query; nResults := Some 3;
                 documentText := None; question := None |} net w).

(** The requests of the three branches of [sendChatMessage], giving the
    [response] the function goes on with. *)
Definition chat_response (useCUAD includeContext : bool) (message : string)
    (ui : Sidebar) (net : Net) : M JsVal :=
  if useCUAD && includeContext then
    handle {| action := "GET_ENHANCED_RESPONSE"; query := None; nResults := None;
              documentText := Some (currentDocumentText ui);
              question := Some message |} net
  else if useCUAD then
    cuadResponse ← handle {| action := "ANALYZE_WITH_CUAD"; query := None;
                             nResults := None; documentText := Some message;
                             question := Some message |} net;
    if truthy cuadResponse then
      analysis_prompt ← lift_prop (get_prop cuadResponse "analysis_prompt");
      if truthy analysis_prompt then
        handle (no_request_fields "GET_GPT_RESPONSE") net
      else mret JUndefined
    else mret JUndefined
  else handle (no_request_fields "GET_GPT_RESPONSE") net.

(** [sendChatMessage()], with the two check boxes and the backend's
    behaviour on the chat's call and on the context's call as inputs. *)
Definition sendChatMessage (useCUAD includeContext : bool)
    (net net_context : Net) (ui : Sidebar) (w : World)
    : Outcome unit * Sidebar * World :=
  let message := trim (chatInput ui) in
  if String.eqb message "" then (Returned tt, ui, w)
  else
    match addChatMessage "user" (JStr message) (clock w) ui with
    | inl e => (Thrown e, ui, w)
    | inr ui0 =>
        let ui1 := clear_input ui0 in
        let report (e : string) (w' : World) :=
          match addChatMessage "assistant" (JStr ("Error: " +:+ e)) (clock w') ui1 with
          | inl e' => (Thrown e', ui1, w')
          | inr ui2 => (Returned tt, ui2, w')
          end in
        match chat_response useCUAD includeContext message ui1 net w with
        | (Returned response, w1) =>
            match get_prop response "content" with
            | inl e => report e w1
            | inr c =>
                let reply := if truthy c then c else JStr "No response received." in
                match addChatMessage "assistant" reply (clock w1) ui1 with
                | inl e => report e w1
                | inr ui2 =>
                    (Returned tt, ui2,
                     if useCUAD then updateCUADContext message net_context w1
                     else w1)
                end
            end
        | (Thrown e, w1) => report e w1
        | (Pending, w1) => (Pending, ui1, w1)
        end
    end.

End SidebarChat.

(** ** The sidebar script: the quick analysis

    [analyzeDocument], [displayAnalysisResults] and [getModeTitle] of the
    second script.  The model keeps what the functions write into
    [#resultsContent] and the [display] of [#loading]. *)
Module SidebarAnalysis.
Import SidebarChat.

(** The [mode]s the three analysis buttons of [setupEventListeners] pass. *)
Inductive Mode := summarize | explain | simplify.

(** [prompts[mode]] *)
Definition prompts (mode : Mode) : string :=
  match mode with
  | summarize => "Please provide a concise summary of this legal document."
  | explain => "Explain the key legal provisions and implications of this document."
  | simplify => "Translate this legal document into plain, understandable English."
  end.

Definition titles (mode : Mode) : string :=
  match mode with
  | summarize => "Summary"
  | explain => "Explanation"
  | simplify => "Simplification"
  end.

(** [getModeTitle(mode)] *)
Definition getModeTitle (mode : Mode) : string :=
  string_or (Some (titles mode)) "Analysis".

(** The markup [analyzeDocument] writes when it catches an error. *)
Definition error_markup (message : string) : string :=
  newline +:+ "            <div class=" +:+ dq +:+ "error-message" +:+ dq +:+ ">"
  +:+ newline +:+ "                <p>❌ Error analyzing document:</p>" +:+ newline
  +:+ "                <p>" +:+ message +:+ "</p>" +:+ newline
  +:+ "            </div>" +:+ newline +:+ "        ".

(** The markup of the [if (response.fallback)] branch. *)
Definition warning_markup (content : JsVal) : string :=
  newline +:+ "            <div class=" +:+ dq +:+ "warning-message" +:+ dq +:+ ">"
  +:+ newline
  +:+ "                <p>⚠️ Using limited analysis (OpenAI not configured)</p>"
  +:+ newline +:+ "                <p>" +:+ js_to_string content +:+ "</p>"
  +:+ newline +:+ "            </div>" +:+ newline +:+ "        ".

(** The markup of the footer, written when [response.usage] is truthy. *)
Definition usage_markup (total prompt completion : JsVal) : string :=
  newline +:+ "                <div class=" +:+ dq +:+ "result-footer" +:+ dq +:+ ">"
  +:+ newline +:+ "                    <small>Tokens: " +:+ js_to_string total
  +:+ " (" +:+ js_to_string prompt +:+ " prompt + " +:+ js_to_string completion
  +:+ " completion)</small>" +:+ newline +:+ "                </div>" +:+ newline
  +:+ "                ".

(** The markup of the [else] branch. *)
Definition result_markup (title localeTime formatted footer : string) : string :=
  newline +:+ "            <div class=" +:+ dq +:+ "analysis-result" +:+ dq +:+ ">"
  +:+ newline +:+ "                <div class=" +:+ dq +:+ "result-header" +:+ dq
  +:+ ">" +:+ newline +:+ "                    <h4>" +:+ title +:+ " Analysis</h4>"
  +:+ newline +:+ "                    <span class=" +:+ dq +:+ "result-timestamp"
  +:+ dq +:+ ">" +:+ localeTime +:+ "</span>" +:+ newline +:+ "                </div>"
  +:+ newline +:+ "                <div class=" +:+ dq +:+ "result-content" +:+ dq
  +:+ ">" +:+ newline +:+ "                    " +:+ formatted +:+ newline
  +:+ "                </div>" +:+ newline +:+ "                " +:+ footer
  +:+ newline +:+ "            </div>" +:+ newline +:+ "        ".

(** [formatResponse(text)] on any value: [text.replace] is a function on
    strings only. *)
Definition formatResponse_of (text : JsVal) : M string :=
  match text with
  | JStr s => mret (formatResponse s)
  | JUndefined => throw "Cannot read properties of undefined (reading 'replace')"
  | JNull => throw "Cannot read properties of null (reading 'replace')"
  | _ => throw "text.replace is not a function"
  end.

(** [displayAnalysisResults(response, mode)]: the markup it assigns to
    [resultsEl.innerHTML]; when it throws, nothing has been assigned.
    [toLocaleTimeString] renders an instant in the browser's locale and
    time zone. *)
Definition displayAnalysisResults (toLocaleTimeString : Z -> string)
    (response : JsVal) (mode : Mode) : M string :=
  fallback ← lift_prop (get_prop response "fallback");
  if truthy fallback then
    content ← lift_prop (get_prop response "content");
    mret (warning_markup content)
  else
    now ← Date_now;
    content ← lift_prop (get_prop response "content");
    formatted ← formatResponse_of content;
    usage ← lift_prop (get_prop response "usage");
    footer ← (if truthy usage then
                total_tokens ← lift_prop (get_prop usage "total_tokens");
                prompt_tokens ← lift_prop (get_prop usage "prompt_tokens");
                completion_tokens ← lift_prop (get_prop usage "completion_tokens");
                mret (usage_markup total_tokens prompt_tokens completion_tokens)
              else mret "");
    mret (result_markup (getModeTitle mode) (toLocaleTimeString now) formatted footer).

(** [loadingEl.style.display] and [resultsEl.innerHTML] *)
Record AnalysisView := { loading_display : string; resultsContent : string }.

(** [analyzeDocument(mode)]: how it ends, and what the page shows then;
    while it is pending the page shows what the function wrote before the
    [await]. *)
Definition analyzeDocument (toLocaleTimeString : Z -> string) (mode : Mode)
    (ui : Sidebar) (net : Net) (w : World) : Outcome unit * AnalysisView * World :=
  let request :=
    {| action := "GET_ENHANCED_RESPONSE"; query := None; nResults := None;
       documentText := Some (currentDocumentText ui);
       question := Some (prompts mode) |} in
  match try_catch
          (response ← handle request net;
           displayAnalysisResults toLocaleTimeString response mode)
          (fun message => mret (error_markup message)) w with
  | (Returned markup, w') =>
      (Returned tt, {| loading_display := "none"; resultsContent := markup |}, w')
  | (Thrown e, w') =>
      (Thrown e, {| loading_display := "none"; resultsContent := "" |}, w')
  | (Pending, w') =>
      (Pending, {| loading_display := "flex"; resultsContent := "" |}, w')
  end.

End SidebarAnalysis.

(** ** The content script's listener and the sidebar's page loading

    The [chrome.runtime.onMessage] listener of [src/unnamed/part_000] and
    [loadPageContent] of the sidebar script. *)
Module PageMessages.
Import SidebarChat.

(** What the listener reads of the page it runs in. *)
Record Page := {
  href : string;                           (* [window.location.href] *)
  title : string;                          (* [document.title] *)
  querySelector : string -> option string; (* as for [extractTextSimple] *)
  bodyText : string                        (* [document.body.textContent] *)
}.

(** The listener: the value it hands to [sendResponse], [None] when it
    returns without calling it.  What [TOGGLE_SIDEBAR] does to the page is
    left out. *)
Definition content_response (action : string) (page : Page) : option JsVal :=
  if String.eqb action "GET_DOCUMENT_TEXT" then
    Some (JObj [ ("text", JStr (extractTextSimple (querySelector page) (bodyText page)));
                 ("url", JStr (href page));
                 ("title", JStr (title page)) ])
  else if String.eqb action "TOGGLE_SIDEBAR" then
    Some (JObj [ ("success", JBool true) ])
  else if String.eqb action "PING" then
    Some (JObj [ ("status", JStr "active"); ("url", JStr (href page)) ])
  else None.

(** A tab as [chrome.tabs] shows it to another script: its [title]
    ([None] when it is not disclosed) and what the tab answers to a message
    with a given [action]; a message nobody answers gives the sender's
    callback [undefined]. *)
Record Tab := { tab_title : option string; answers : string -> option JsVal }.

(** A tab that runs the content script on [page]. *)
Definition content_tab (page : Page) : Tab :=
  {| tab_title := Some (title page);
     answers := fun action => content_response action page |}.

(** What [loadPageContent] writes: [#pageTitle] and the two counters. *)
Record PageInfo := { pageTitle : string; charCount : string; wordCount_text : string }.

Definition set_document (text : string) (ui : Sidebar) : Sidebar :=
  {| currentDocumentText := text; chatHistory := chatHistory ui;
     chatInput := chatInput ui |}.

Definition page_info (tab : Tab) (text : string) : PageInfo :=
  {| pageTitle := string_or (tab_title tab) "Current Page";
     charCount := fst (updateTextStats text);
     wordCount_text := snd (updateTextStats text) |}.

(** [loadPageContent()], for the [tabs] the query finds.  The [text] of a
    response is a string, as the content script sends it; on another
    truthy value [updateTextStats] throws. *)
Definition loadPageContent (tabs : list Tab) (ui : Sidebar)
    : string + Sidebar * PageInfo :=
  match tabs with
  | [] => inl "Cannot read properties of undefined (reading 'title')"
  | tab :: _ =>
      let unable :=
        inr (set_document "Unable to extract text from this page." ui,
             page_info tab "") in
      match answers tab "GET_DOCUMENT_TEXT" with
      | None => unable
      | Some response =>
          if truthy response then
            match get_prop response "text" with
            | inl e => inl e
            | inr (JStr text) =>
                if truthy (JStr text)
                then inr (set_document text ui, page_info tab text)
                else unable
            | inr v => if truthy v then inl "text.trim is not a function" else unable
            end
          else unable
      end
  end.

End PageMessages.

(** ** The sidebar script: the settings

    [toggleSettings], [saveSettings] and [loadSettings]; the two keys of
    [chrome.storage.local] hold the strings [saveSettings] stores. *)
Module SidebarSettings.
Import SidebarChat.

Record SettingsPanel := {
  apiUrl : string;       (* the value of [#apiUrl] *)
  openaiKey : string;    (* the value of [#openaiKey] *)
  visible : bool         (* [#settingsPanel] has the class [visible] *)
}.

Abbreviation Storage := (gmap string string).

(** [toggleSettings()] *)
Definition toggleSettings (panel : SettingsPanel) : SettingsPanel :=
  {| apiUrl := apiUrl panel; openaiKey := openaiKey panel;
     visible := negb (visible panel) |}.

(** [saveSettings()]: the storage after the [set], the panel after the
    callback, and the run of the [checkConnections()] the callback starts. *)
Definition saveSettings (panel : SettingsPanel) (storage : Storage)
    (net : Net) (w : World)
    : Storage * SettingsPanel * (Outcome ConnectionView * World) :=
  (<["openaiKey" := openaiKey panel]> (<["apiUrl" := apiUrl panel]> storage),
   toggleSettings panel,
   checkConnections net w).

(** [if (items.key) input.value = items.key] *)
Definition restored (item : option string) (value : string) : string :=
  match item with
  | Some s => if negb (String.eqb s "") then s else value
  | None => value
  end.

(** [loadSettings()] *)
Definition loadSettings (storage : Storage) (panel : SettingsPanel) : SettingsPanel :=
  {| apiUrl := restored (storage !! "apiUrl") (apiUrl panel);
     openaiKey := restored (storage !! "openaiKey") (openaiKey panel);
     visible := visible panel |}.

End SidebarSettings.

(** ** The popup script

    [checkBackendStatus] and the click handler of [#analyzePage] of the
    first script of [src/extension/popup.js].  The popup calls [fetch]
    itself, with no deadline; it has no part in the broker's [cache], and
    of the world it uses the clock and the log of calls. *)
Module Popup.
Import SidebarChat PageMessages.

Definition backendUrl : string := "http://localhost:8000".

(** [await fetch(url)] *)
Definition fetch (url : string) (net : Net) : M HttpResponse :=
  fun w =>
    let w1 := emit (Fetch "GET" url JUndefined) w in
    match net with
    | NetResponds d r => (Returned r, elapse d w1)
    | NetFails d m => (Thrown m, elapse d w1)
    | NetSilent => (Pending, w1)
    end.

(** The texts of [#backendStatus], [#agentCount], [#agentsLive] and
    [#toolsLive], and the class of the first. *)
Record StatusView := {
  backendStatus : string;
  backendStatus_className : string;
  agentCount : string;
  agentsLive : string;
  toolsLive : string
}.

Definition is_undefined (v : JsVal) : bool :=
  match v with
  | JUndefined => true
  | _ => false
  end.

Definition show_connected (v : StatusView) : StatusView :=
  {| backendStatus := "Connected";
     backendStatus_className := "status-value connected";
     agentCount := agentCount v; agentsLive := agentsLive v;
     toolsLive := toolsLive v |}.

Definition show_disconnected (v : StatusView) : StatusView :=
  {| backendStatus := "Disconnected";
     backendStatus_className := "status-value disconnected";
     agentCount := "0/6"; agentsLive := agentsLive v; toolsLive := toolsLive v |}.

Definition set_agentCount (s : string) (v : StatusView) : StatusView :=
  {| backendStatus := backendStatus v;
     backendStatus_className := backendStatus_className v;
     agentCount := s; agentsLive := agentsLive v; toolsLive := toolsLive v |}.

Definition show_agents (agents : JsVal) (v : StatusView) : StatusView :=
  {| backendStatus := backendStatus v;
     backendStatus_className := backendStatus_className v;
     agentCount := js_to_string agents +:+ "/6";
     agentsLive := js_to_string agents +:+ " agents";
     toolsLive := toolsLive v |}.

Definition show_tools (tools : JsVal) (v : StatusView) : StatusView :=
  {| backendStatus := backendStatus v;
     backendStatus_className := backendStatus_className v;
     agentCount := agentCount v; agentsLive := agentsLive v;
     toolsLive := js_to_string tools +:+ " tools" |}.

(** The inner [try]: the second call, whose errors are dropped. *)
Definition agent_details (net_agents : Net) (v : StatusView) (w : World)
    : Outcome unit * StatusView * World :=
  match (agentsResponse ← fetch (backendUrl +:+ "/agents") net_agents;
         json agentsResponse) w with
  | (Returned agentsData, w') =>
      match get_prop agentsData "total" with
      | inr total => (Returned tt, set_agentCount (js_to_string total +:+ "/6") v, w')
      | inl _ => (Returned tt, v, w')
      end
  | (Thrown _, w') => (Returned tt, v, w')
  | (Pending, w') => (Pending, v, w')
  end.

(** [checkBackendStatus()], with what the backend does on the call of [/]
    and on the call of [/agents], from the page showing [v]. *)
Definition checkBackendStatus (net_root net_agents : Net) (v : StatusView)
    (w : World) : Outcome unit * StatusView * World :=
  match (response ← fetch (backendUrl +:+ "/") net_root; json response) w with
  | (Returned data, w') =>
      let v1 := show_connected v in
      match get_prop data "agents" with
      | inl _ => (Returned tt, show_disconnected v1, w')
      | inr agents =>
          let v2 := if negb (is_undefined agents) then show_agents agents v1 else v1 in
          match get_prop data "tools" with
          | inl _ => (Returned tt, show_disconnected v2, w')
          | inr tools =>
              let v3 := if negb (is_undefined tools) then show_tools tools v2 else v2 in
              agent_details net_agents v3 w'
          end
      end
  | (Thrown _, w') => (Returned tt, show_disconnected v, w')
  | (Pending, w') => (Pending, v, w')
  end.

(** The texts of [#pageStatus] and [#lastScan], whether [#analyzePage] is
    disabled, and whether the popup is set to close. *)
Record AnalyzeView := {
  pageStatus : string;
  analyzeDisabled : bool;
  lastScan : string;
  closing : bool
}.

(** The click handler of [#analyzePage], for the [tabs] the query finds
    ([None] when the query fails). *)
Definition analyzePage_click (tabs : option (list Tab)) (v : AnalyzeView)
    : AnalyzeView :=
  let failed (status : string) :=
    {| pageStatus := status; analyzeDisabled := false;
       lastScan := lastScan v; closing := closing v |} in
  match tabs with
  | Some (tab :: _) =>
      match answers tab "analyzePage" with
      | Some response =>
          if truthy response then
            match get_prop response "status" with
            | inr status =>
                if is_string "analyzing" status then
                  {| pageStatus := "Analysis started"; analyzeDisabled := false;
                     lastScan := "Just now"; closing := true |}
                else failed "Failed"
            | inl _ => failed "Failed"
            end
          else failed "Failed"
      | None => failed "Failed"
      end
  | Some [] | None => failed "Error"
  end.

End Popup.

(** ** Vocabulary of the statements *)

(** The ways a backend call can fail, decided on what the network does
    within the default deadline: no settlement in time; a failed fetch; a
    response whose status is not 2xx; a 2xx response whose body does not
    parse. *)
Inductive FailureMode :=
  | ModeTimeout
  | ModeNetworkError
  | ModeNon2xx
  | ModeMalformedPayload.

Definition failure_mode (net : Net) : option FailureMode :=
  match net with
  | NetSilent => Some ModeTimeout
  | NetFails d _ =>
      if d <? TIMEOUT CONFIG then Some ModeNetworkError else Some ModeTimeout
  | NetResponds d r =>
      if d <? TIMEOUT CONFIG then
        if ok r then
          match body r with
          | BodyJson _ => None
          | BodyMalformed _ => Some ModeMalformedPayload
          | BodyStalls => None
          end
        else Some ModeNon2xx
      else Some ModeTimeout
  end.

(** The payload of a call that does not fail. *)
Definition success (net : Net) : option JsVal :=
  match net with
  | NetResponds d r =>
      if (d <? TIMEOUT CONFIG) && ok r then
        match body r with
        | BodyJson v => Some v
        | BodyMalformed _ | BodyStalls => None
        end
      else None
  | _ => None
  end.

(** Case-insensitive substring match, as the specification words it.
    Two characters are the same letter when they have the same code or are
    an upper-case ASCII letter (65 to 90) and its lower-case form (32 more);
    two texts are the same up to case when they are so character by
    character; a query occurs in a text, ignoring case, when some stretch of
    the text is the same as the query up to case. *)
Definition same_letter (a b : ascii) : bool :=
  let x := N_of_ascii a in
  let y := N_of_ascii b in
  ((x =? y) || ((65 <=? x) && (x <=? 90) && (y =? x + 32))
   || ((65 <=? y) && (y <=? 90) && (x =? y + 32)))%N.

Fixpoint same_up_to_case (s t : string) : bool :=
  match s, t with
  | EmptyString, EmptyString => true
  | String a s', String b t' => same_letter a b && same_up_to_case s' t'
  | _, _ => false
  end.

Definition occurs_ignoring_case (s sub : string) : Prop :=
  exists pre mid post, s = pre +:+ mid +:+ post /\ same_up_to_case mid sub = true.

(** A call whose response arrives before the deadline with a body that
    stalls; [stalls_ok] when the status of that response is 2xx. *)
Definition stalls (net : Net) : bool :=
  match net with
  | NetResponds d r =>
      (d <? TIMEOUT CONFIG) && match body r with BodyStalls => true | _ => false end
  | _ => false
  end.

Definition stalls_ok (net : Net) : bool :=
  match net with
  | NetResponds d r => stalls net && ok r
  | _ => false
  end.

(** The [cacheKey] a request makes its function compute, when it reaches
    that line. *)
Definition cacheKey_of (request : Request) : option string :=
  if String.eqb (action request) "CHECK_CUAD_HEALTH" then Some "health_check"
  else if String.eqb (action request) "SEARCH_CUAD" then
    Some (search_key (query request) (nResults_or_3 (nResults request)))
  else if String.eqb (action request) "ANALYZE_WITH_CUAD"
          || String.eqb (action request) "GET_ENHANCED_RESPONSE" then
    (fun doc => analyze_key doc (question request)) <$> documentText request
  else None.

(** A request whose function reaches [await response.json()] on a body
    that stalls: it has a cache key, finds no fresh entry under it, and the
    response arrives before the deadline ([checkCUADHealth] reads the body
    whatever the status, the other two on a 2xx status only). *)
Definition waits_for_body (request : Request) (net : Net) (w : World) : bool :=
  match cacheKey_of request with
  | Some key =>
      match fresh (cache w !! key) (clock w) with
      | Some _ => false
      | None =>
          if String.eqb (action request) "CHECK_CUAD_HEALTH" then stalls net
          else stalls_ok net
      end
  | None => false
  end.

(** An invocation has completed exactly when it has one settlement, and
    then its timer is cleared. *)
Definition exec_inv (s : Exec) : Prop :=
  match settled s with
  | None => settlements s = 0%nat
  | Some _ => settlements s = 1%nat /\ timer_armed s = false
  end.

Definition abort_message : string := error_message AbortError.

(** The three functions share one shape: a hit only reads the cache; a
    miss calls the backend once and then either stores the result under the
    same key or leaves the cache as it was. *)
Definition cached_call_shape (w : World) (key : string) (request_sent : Effect)
    (r : Outcome JsVal * World) : Prop :=
  match fresh (cache w !! key) (clock w) with
  | Some v => r = (Returned v, emit (CacheGet key) w)
  | None =>
      (trace (snd r) = trace w ++ [CacheGet key; request_sent] /\
       cache (snd r) = cache w)
      \/
      (trace (snd r) = trace w ++ [CacheGet key; request_sent; CacheSet key] /\
       exists v, fst r = Returned v /\
         cache (snd r)
         = <[key := {| data := v; timestamp := clock (snd r) |}]> (cache w))
  end.

(** The three actions whose response is what their function returns. *)
Definition caching_action (a : string) : Prop :=
  a = "CHECK_CUAD_HEALTH" \/ a = "SEARCH_CUAD" \/ a = "ANALYZE_WITH_CUAD".

(** A response object less its [timestamp] property. *)
Definition without_timestamp (v : JsVal) : JsVal :=
  match v with
  | JObj fields =>
      JObj (List.filter (fun kv => negb (String.eqb (fst kv) "timestamp")) fields)
  | _ => v
  end.

(** The enhanced response built on an analysis, less its [timestamp]:
    the object of the [GET_ENHANCED_RESPONSE] case, or the listener's error
    object when reading the analysis throws. *)
Definition enhanced_without_timestamp (analysis : JsVal) : JsVal :=
  match get_prop analysis "analysis_prompt",
        get_prop analysis "relevant_clauses_found" with
  | inr prompt, inr found =>
      JObj [ ("fallback", JBool true);
             ("content", JStr (enhanced_content prompt found));
             ("analysis", analysis) ]
  | inl message, _ | inr _, inl message =>
      JObj [ ("error", JStr message); ("fallback", JBool true) ]
  end.

(** The time a backend call may take, as the bound of the next theorem
    states it. *)
Definition within_deadline (net : Net) (w w' : World) : Prop :=
  match net with
  | NetResponds d r =>
      0 <= d -> 0 <= body_ms r ->
      clock w <= clock w' <= clock w + 10000 + body_ms r
  | NetFails d _ => 0 <= d -> clock w <= clock w' <= clock w + 10000
  | NetSilent => clock w <= clock w' <= clock w + 10000
  end.

(** The number of places of a text where a word begins: a character that
    is not white space, at the start or after white space; [in_word] tells
    that the character before was not white space. *)
Fixpoint word_starts (s : string) (in_word : bool) : nat :=
  match s with
  | EmptyString => 0
  | String c r =>
      if is_space c then word_starts r false
      else (if in_word then 0 else 1) + word_starts r true
  end.

(** The effects a run adds to the log. *)
Definition effects {A} (m : M A) (w : World) : list Effect :=
  drop (List.length (trace w)) (trace (snd (m w))).

Definition is_fetch (e : Effect) : bool :=
  match e with Fetch _ _ _ => true | _ => false end.

Definition is_cache_set (e : Effect) : bool :=
  match e with CacheSet _ => true | _ => false end.

(** How many network calls, and how many cache writes, a log holds. *)
Definition network_calls (l : list Effect) : nat := List.length (List.filter is_fetch l).
Definition cache_writes (l : list Effect) : nat := List.length (List.filter is_cache_set l).

(** The value the popup reads from a call: the parsed body of a response,
    whatever its status, unless it is [null]. *)
Definition parsed_object (net : Net) : option JsVal :=
  match net with
  | NetResponds _ r =>
      match body r with
      | BodyJson JNull | BodyJson JUndefined => None
      | BodyJson v => Some v
      | BodyMalformed _ | BodyStalls => None
      end
  | _ => None
  end.

(** A call the popup makes and is never answered: no response comes, or
    the body of the response stalls. *)
Definition unanswered (net : Net) : bool :=
  match net with
  | NetSilent => true
  | NetResponds _ r => match body r with BodyStalls => true | _ => false end
  | NetFails _ _ => false
  end.

(** * Properties *)

(** ** Strings, dates and numbers: sample evaluations *)

Example toLowerCase_sample :
  toLowerCase "Confidential Information (NDA)" = "confidential information (nda)".
Proof. reflexivity. Qed.

Example includes_samples :
  includes "sample nda" "nda" = true /\ includes "sample nda" "" = true /\
  includes "sample nda" "NDA" = false /\ includes "" "a" = false.
Proof. repeat split. Qed.

Example slice0_samples :
  slice0 [1; 2; 3] 2 = [1; 2] /\ slice0 [1; 2; 3] 5 = [1; 2; 3] /\
  slice0 [1; 2; 3] 0 = [] /\ slice0 [1; 2; 3] (-1) = [1; 2].
Proof. repeat split. Qed.

Example toISOString_epoch : toISOString 0 = "1970-01-01T00:00:00.000Z".
Proof. reflexivity. Qed.

Example toISOString_sample : toISOString 1794000000123 = "2026-11-06T21:20:00.123Z".
Proof. vm_compute. reflexivity. Qed.

Example num_to_string_samples :
  num_to_string (dec 85 2) = "0.85" /\ num_to_string (dec (-5) 3) = "-0.005" /\
  num_to_string (dec 1234 1) = "123.4" /\ num_to_string (dec 60000 0) = "60000".
Proof. vm_compute. repeat split. Qed.

(** ** The bounded executor *)

Section ExecutorFacts.

Lemma exec_inv_init : exec_inv exec_init.
Proof. reflexivity. Qed.

Lemma exec_inv_step s e : exec_inv s -> exec_inv (exec_step s e).
Proof.
  destruct e as [t ev]. unfold exec_inv, exec_step.
  destruct s as [ab ta st n]; simpl.
  destruct ev, st as [[t0 o]|], ta, ab; simpl; intros H; intuition congruence.
Qed.

Lemma exec_inv_fold events s :
  exec_inv s -> exec_inv (fold_left exec_step events s).
Proof.
  revert s. induction events as [|e events IH]; intros s H; simpl; [exact H|].
  apply IH, exec_inv_step, H.
Qed.

(** Once completed, an invocation keeps its settlement whatever comes. *)
Lemma exec_step_settled s e x :
  exec_inv s -> settled s = Some x ->
  settled (exec_step s e) = Some x /\ settlements (exec_step s e) = settlements s.
Proof.
  destruct e as [t ev]. unfold exec_inv, exec_step.
  destruct s as [ab ta st n]; simpl. intros H ->. destruct H as [_ ->].
  destruct ev; simpl; auto.
Qed.

Lemma exec_run_inv events : exec_inv (exec_run events).
Proof. apply exec_inv_fold, exec_inv_init. Qed.

(** Events that arrive after the completion change neither the
    settlement nor their count. *)
Lemma exec_run_stable events later x :
  settled (exec_run events) = Some x ->
  settled (exec_run (events ++ later)) = Some x /\
  settlements (exec_run (events ++ later)) = settlements (exec_run events).
Proof.
  unfold exec_run. rewrite fold_left_app.
  pose proof (exec_run_inv events) as Hinv. unfold exec_run in Hinv.
  revert Hinv. generalize (fold_left exec_step events exec_init) as s.
  induction later as [|e later IH]; intros s Hinv Hs; simpl; [auto|].
  destruct (exec_step_settled s e x Hinv Hs) as [Hs' Hn].
  destruct (IH (exec_step s e) (exec_inv_step s e Hinv) Hs') as [H1 H2].
  split; [exact H1|congruence].
Qed.

Lemma exec_run_at_most_once events : (settlements (exec_run events) <= 1)%nat.
Proof.
  pose proof (exec_run_inv events) as H. unfold exec_inv in H.
  destruct (settled (exec_run events)); [destruct H as [-> _]|rewrite H]; lia.
Qed.

End ExecutorFacts.

(** What one call comes to: the network's own answer if it arrives before
    the timer is due, the abort otherwise. *)
Lemma exec_run_schedule net timeout :
  let due := Z.max 0 timeout in
  exec_run (schedule net timeout) =
  match net with
  | NetResponds d r =>
      if d <? due
      then {| aborted := false; timer_armed := false;
              settled := Some (d, Resolved r); settlements := 1 |}
      else {| aborted := true; timer_armed := false;
              settled := Some (due, Rejected AbortError); settlements := 1 |}
  | NetFails d m =>
      if d <? due
      then {| aborted := false; timer_armed := false;
              settled := Some (d, Rejected (NetworkError m)); settlements := 1 |}
      else {| aborted := true; timer_armed := false;
              settled := Some (due, Rejected AbortError); settlements := 1 |}
  | NetSilent =>
      {| aborted := true; timer_armed := false;
         settled := Some (due, Rejected AbortError); settlements := 1 |}
  end.
Proof.
  intros due. unfold schedule. fold due.
  destruct net as [d r|d m|]; [destruct (d <? due)..|]; reflexivity.
Qed.

(** C7. Every invocation of [fetchWithTimeout] completes exactly once, by
    the deadline at the latest, in exactly one of three ways: it returns the
    response when the network answers before the deadline; it throws the
    abort error, with the fetch cancelled through the controller, when the
    deadline (10 000 ms by default) comes first; it throws the network's
    error when the fetch fails before the deadline.  The call itself, for
    every deadline and every behaviour of the network, ends in the way and
    at the instant of that one settlement, having sent its one request; it
    completes at most once under any delivery of events, events after the
    completion do not change it, and the call never stays pending. *)
Theorem C7_bounded_executor_settles_once :
  TIMEOUT CONFIG = 10000 /\
  (forall method url payload net,
     fetchWithTimeout method url payload net
     = fetchWithTimeout_at method url payload 10000 net) /\
  (forall net timeout,
     let due := Z.max 0 timeout in
     let s := exec_run (schedule net timeout) in
     settlements s = 1%nat /\
     exists t o, settled s = Some (t, o) /\ t <= due /\
       match o with
       | Resolved r =>
           net = NetResponds t r /\ t < due /\ aborted s = false
       | Rejected (NetworkError m) =>
           net = NetFails t m /\ t < due /\ aborted s = false
       | Rejected AbortError =>
           t = due /\ aborted s = true /\
           match net with
           | NetResponds d _ | NetFails d _ => due <= d
           | NetSilent => True
           end
       end) /\
  (forall method url payload timeout net w,
     let due := Z.max 0 timeout in
     let sent := emit (Fetch method url payload) w in
     fetchWithTimeout_at method url payload timeout net w
     = match net with
       | NetResponds d r =>
           if d <? due then (Returned r, elapse d sent)
           else (Thrown "signal is aborted without reason", elapse due sent)
       | NetFails d m =>
           if d <? due then (Thrown m, elapse d sent)
           else (Thrown "signal is aborted without reason", elapse due sent)
       | NetSilent => (Thrown "signal is aborted without reason", elapse due sent)
       end) /\
  (forall events, (settlements (exec_run events) <= 1)%nat) /\
  (forall events later x,
     settled (exec_run events) = Some x ->
     settled (exec_run (events ++ later)) = Some x) /\
  (forall method url payload timeout net w,
     fst (fetchWithTimeout_at method url payload timeout net w) <> Pending).
Proof.
  assert (Hrun : forall method url payload timeout net w,
     let due := Z.max 0 timeout in
     let sent := emit (Fetch method url payload) w in
     fetchWithTimeout_at method url payload timeout net w
     = match net with
       | NetResponds d r =>
           if d <? due then (Returned r, elapse d sent)
           else (Thrown "signal is aborted without reason", elapse due sent)
       | NetFails d m =>
           if d <? due then (Thrown m, elapse d sent)
           else (Thrown "signal is aborted without reason", elapse due sent)
       | NetSilent => (Thrown "signal is aborted without reason", elapse due sent)
       end).
  { intros method url payload timeout net w due sent.
    unfold fetchWithTimeout_at. rewrite exec_run_schedule. fold due.
    destruct net as [d r|d m|]; [destruct (d <? due)..|]; reflexivity. }
  split; [reflexivity|]. split; [reflexivity|].
  split; [|split; [exact Hrun|split; [|split]]].
  - intros net timeout due s. subst s.
    rewrite exec_run_schedule. fold due.
    destruct net as [d r|d m|]; [destruct (Z.ltb_spec d due)..|]; simpl;
      (split; [reflexivity|]); eexists _, _; (split; [reflexivity|]);
      repeat split; try lia.
  - apply exec_run_at_most_once.
  - intros events later x Hx. apply exec_run_stable, Hx.
  - intros method url payload timeout net w. rewrite Hrun. cbv zeta.
    destruct net as [d r|d m|]; [destruct (d <? Z.max 0 timeout)..|];
      simpl; discriminate.
Qed.

(** ** Running the broker's functions *)

Lemma fetchWithTimeout_run method url payload net w :
  fetchWithTimeout method url payload net w =
  let w1 := emit (Fetch method url payload) w in
  match net with
  | NetResponds d r =>
      if d <? 10000 then (Returned r, elapse d w1)
      else (Thrown abort_message, elapse 10000 w1)
  | NetFails d m =>
      if d <? 10000 then (Thrown m, elapse d w1)
      else (Thrown abort_message, elapse 10000 w1)
  | NetSilent => (Thrown abort_message, elapse 10000 w1)
  end.
Proof.
  unfold fetchWithTimeout, fetchWithTimeout_at.
  rewrite exec_run_schedule. change (TIMEOUT CONFIG) with 10000.
  change (Z.max 0 10000) with 10000.
  destruct net as [d r|d m|]; [destruct (d <? 10000)..|]; reflexivity.
Qed.

Lemma lookup_fresh_run key w :
  lookup_fresh key w
  = (Returned (fresh (cache w !! key) (clock w)), emit (CacheGet key) w).
Proof. reflexivity. Qed.

Lemma store_run key v w :
  store key v w
  = (Returned tt,
     emit (CacheSet key)
       {| cache := <[key := {| data := v; timestamp := clock w |}]> (cache w);
          clock := clock w; trace := trace w |}).
Proof. reflexivity. Qed.

Lemma bind_run {A B} (m : M A) (k : A -> M B) w :
  (m ≫= k) w =
  match m w with
  | (Returned a, w') => k a w'
  | (Thrown e, w') => (Thrown e, w')
  | (Pending, w') => (Pending, w')
  end.
Proof. reflexivity. Qed.

Lemma try_catch_run {A} (m : M A) (h : string -> M A) w :
  try_catch m h w =
  match m w with
  | (Thrown e, w') => h e w'
  | r => r
  end.
Proof. reflexivity. Qed.

(** Unfolds the monad's operations in a run, leaving worlds. *)
Ltac run_M :=
  cbv beta iota zeta delta
    [mret M_ret mbind M_bind throw try_catch store cache_set cache_get
     Date_now lookup_fresh json fallback_search lift_prop];
  cbn [emit elapse cache clock trace].

Ltac world_facts :=
  eexists; split; [reflexivity|];
  cbn [cache clock trace emit elapse fst snd];
  repeat split; rewrite <- ?app_assoc; try reflexivity.

Section BrokerRuns.

Context (w : World) (net : Net).

(** A call fails, succeeds, or stalls on the body of a 2xx response. *)
Lemma failure_or_success :
  (exists mode, failure_mode net = Some mode /\ success net = None /\
                stalls_ok net = false) \/
  (exists v, failure_mode net = None /\ success net = Some v /\
             stalls_ok net = false) \/
  (failure_mode net = None /\ success net = None /\ stalls_ok net = true).
Proof.
  unfold failure_mode, success, stalls_ok, stalls.
  destruct net as [d r|d m|]; [|destruct (d <? TIMEOUT CONFIG); eauto|eauto].
  destruct (d <? TIMEOUT CONFIG), (ok r), (body r); simpl; eauto 6.
Qed.

(** *** [searchCUADSimple] *)

Lemma searchCUADSimple_hit q n v :
  fresh (cache w !! search_key q n) (clock w) = Some v ->
  searchCUADSimple q n net w = (Returned v, emit (CacheGet (search_key q n)) w).
Proof.
  intros Hhit. unfold searchCUADSimple. run_M. rewrite Hhit. reflexivity.
Qed.

Lemma searchCUADSimple_success q n v :
  fresh (cache w !! search_key q n) (clock w) = None ->
  success net = Some v ->
  exists w',
    searchCUADSimple q n net w = (Returned v, w') /\
    cache w' = <[search_key q n := {| data := v; timestamp := clock w' |}]> (cache w) /\
    trace w' = trace w ++ [ CacheGet (search_key q n);
                            Fetch "POST" search_url (search_payload q n);
                            CacheSet (search_key q n) ].
Proof.
  intros Hmiss Hok. unfold searchCUADSimple. run_M. rewrite Hmiss.
  rewrite fetchWithTimeout_run.
  unfold success in Hok. change (TIMEOUT CONFIG) with 10000 in Hok.
  destruct net as [d r|d m|]; try discriminate.
  destruct (d <? 10000); try discriminate. run_M.
  destruct (ok r); try discriminate. run_M.
  destruct (body r) as [v'| |]; try discriminate.
  injection Hok as ->. run_M. world_facts.
Qed.

Lemma searchCUADSimple_failure q n mode :
  fresh (cache w !! search_key (Some q) n) (clock w) = None ->
  failure_mode net = Some mode ->
  exists w',
    searchCUADSimple (Some q) n net w
    = (Returned (JArr (clause_obj <$> getFallbackClauses q n)), w') /\
    cache w' = cache w /\
    trace w' = trace w ++ [ CacheGet (search_key (Some q) n);
                            Fetch "POST" search_url (search_payload (Some q) n) ].
Proof.
  intros Hmiss Hfail. unfold searchCUADSimple. run_M. rewrite Hmiss.
  rewrite fetchWithTimeout_run.
  unfold failure_mode in Hfail. change (TIMEOUT CONFIG) with 10000 in Hfail.
  destruct net as [d r|d m|]; [| |run_M; world_facts].
  - destruct (d <? 10000); run_M; [|world_facts].
    destruct (ok r); run_M; [|world_facts].
    destruct (body r) as [v'| |]; try discriminate. run_M. world_facts.
  - destruct (d <? 10000); run_M; world_facts.
Qed.

(** *** [checkCUADHealth] *)

Lemma checkCUADHealth_hit v :
  fresh (cache w !! "health_check") (clock w) = Some v ->
  checkCUADHealth net w = (Returned v, emit (CacheGet "health_check") w).
Proof.
  intros Hhit. unfold checkCUADHealth. run_M. rewrite Hhit. reflexivity.
Qed.

(** The function never looks at the status: any response that arrives in
    time with a body that parses is reported healthy and cached. *)
Lemma checkCUADHealth_parsed d r v :
  fresh (cache w !! "health_check") (clock w) = None ->
  net = NetResponds d r -> d < 10000 -> body r = BodyJson v ->
  exists w',
    checkCUADHealth net w = (Returned (healthy v), w') /\
    cache w' = <["health_check" := {| data := healthy v; timestamp := clock w' |}]>
                 (cache w) /\
    trace w' = trace w ++ [ CacheGet "health_check";
                            Fetch "GET" health_url JUndefined;
                            CacheSet "health_check" ].
Proof.
  intros Hmiss -> Hd Hbody. unfold checkCUADHealth. run_M. rewrite Hmiss.
  rewrite fetchWithTimeout_run.
  destruct (Z.ltb_spec d 10000); [|lia]. run_M. rewrite Hbody. run_M.
  world_facts.
Qed.

Lemma checkCUADHealth_success v :
  fresh (cache w !! "health_check") (clock w) = None ->
  success net = Some v ->
  exists w',
    checkCUADHealth net w = (Returned (healthy v), w') /\
    cache w' = <["health_check" := {| data := healthy v; timestamp := clock w' |}]>
                 (cache w) /\
    trace w' = trace w ++ [ CacheGet "health_check";
                            Fetch "GET" health_url JUndefined;
                            CacheSet "health_check" ].
Proof.
  intros Hmiss Hok.
  unfold success in Hok. change (TIMEOUT CONFIG) with 10000 in Hok.
  destruct net as [d r|d m|] eqn:Hnet; try discriminate.
  destruct (Z.ltb_spec d 10000); try discriminate.
  destruct (ok r); try discriminate.
  destruct (body r) as [v'| |] eqn:Hbody; try discriminate.
  injection Hok as ->. rewrite <- Hnet.
  eapply checkCUADHealth_parsed; eauto.
Qed.

Lemma checkCUADHealth_failure mode :
  fresh (cache w !! "health_check") (clock w) = None ->
  failure_mode net = Some mode -> mode <> ModeNon2xx ->
  exists message w',
    checkCUADHealth net w = (Returned (health_error message), w') /\
    cache w' = cache w /\
    trace w' = trace w ++ [ CacheGet "health_check";
                            Fetch "GET" health_url JUndefined ].
Proof.
  intros Hmiss Hfail Hmode. unfold checkCUADHealth. run_M. rewrite Hmiss.
  rewrite fetchWithTimeout_run.
  unfold failure_mode in Hfail. change (TIMEOUT CONFIG) with 10000 in Hfail.
  destruct net as [d r|d m|]; [| |run_M; eexists; world_facts].
  - destruct (d <? 10000); run_M; [|eexists; world_facts].
    destruct (ok r); [|congruence].
    destruct (body r) as [v'| |]; try discriminate. run_M. eexists; world_facts.
  - destruct (d <? 10000); run_M; eexists; world_facts.
Qed.

(** *** [analyzeSimple] *)

Lemma analyzeSimple_hit doc q v :
  fresh (cache w !! analyze_key doc q) (clock w) = Some v ->
  analyzeSimple (Some doc) q net w
  = (Returned v, emit (CacheGet (analyze_key doc q)) w).
Proof.
  intros Hhit. unfold analyzeSimple. run_M. rewrite Hhit. reflexivity.
Qed.

Lemma analyzeSimple_success doc q v :
  fresh (cache w !! analyze_key doc q) (clock w) = None ->
  success net = Some v ->
  exists w',
    analyzeSimple (Some doc) q net w = (Returned v, w') /\
    cache w' = <[analyze_key doc q := {| data := v; timestamp := clock w' |}]> (cache w) /\
    trace w' = trace w ++ [ CacheGet (analyze_key doc q);
                            Fetch "POST" analyze_url (analyze_payload doc q);
                            CacheSet (analyze_key doc q) ].
Proof.
  intros Hmiss Hok. unfold analyzeSimple. run_M. rewrite Hmiss.
  rewrite fetchWithTimeout_run.
  unfold success in Hok. change (TIMEOUT CONFIG) with 10000 in Hok.
  destruct net as [d r|d m|]; try discriminate.
  destruct (d <? 10000); try discriminate. run_M.
  destruct (ok r); try discriminate. run_M.
  destruct (body r) as [v'| |]; try discriminate.
  injection Hok as ->. run_M. world_facts.
Qed.

Lemma analyzeSimple_failure doc q mode :
  fresh (cache w !! analyze_key doc q) (clock w) = None ->
  failure_mode net = Some mode ->
  exists w',
    analyzeSimple (Some doc) q net w = (Returned (analyze_fallback doc q), w') /\
    cache w' = cache w /\
    trace w' = trace w ++ [ CacheGet (analyze_key doc q);
                            Fetch "POST" analyze_url (analyze_payload doc q) ].
Proof.
  intros Hmiss Hfail. unfold analyzeSimple. run_M. rewrite Hmiss.
  rewrite fetchWithTimeout_run.
  unfold failure_mode in Hfail. change (TIMEOUT CONFIG) with 10000 in Hfail.
  destruct net as [d r|d m|]; [| |run_M; world_facts].
  - destruct (d <? 10000); run_M; [|world_facts].
    destruct (ok r); run_M; [|world_facts].
    destruct (body r) as [v'| |]; try discriminate. run_M. world_facts.
  - destruct (d <? 10000); run_M; world_facts.
Qed.

(** *** The listener *)

Lemma handle_returned request v w' :
  dispatch request net w = (Returned v, w') ->
  handle request net w = (Returned v, w').
Proof. intros H. unfold handle, try_catch. rewrite H. reflexivity. Qed.

Lemma dispatch_health request :
  action request = "CHECK_CUAD_HEALTH" ->
  dispatch request net = checkCUADHealth net.
Proof. intros H. unfold dispatch. rewrite H. reflexivity. Qed.

Lemma dispatch_search request :
  action request = "SEARCH_CUAD" ->
  dispatch request net
  = searchCUADSimple (query request) (nResults_or_3 (nResults request)) net.
Proof. intros H. unfold dispatch. rewrite H. reflexivity. Qed.

Lemma dispatch_analyze request :
  action request = "ANALYZE_WITH_CUAD" ->
  dispatch request net
  = analyzeSimple (documentText request) (question request) net.
Proof. intros H. unfold dispatch. rewrite H. reflexivity. Qed.

End BrokerRuns.

(** ** The fallback provider *)

Section StringFacts.

Lemma append_cons c (a b : string) : String c a +:+ b = String c (a +:+ b).
Proof. reflexivity. Qed.

Lemma prefix_spec (a s : string) :
  String.prefix a s = true <-> exists post, s = a +:+ post.
Proof.
  revert s. induction a as [|c a IH]; intros s.
  - split; [intros _; exists s; reflexivity|intros _; destruct s; reflexivity].
  - destruct s as [|c' s]; simpl.
    + split; [discriminate|intros [post H]; discriminate].
    + destruct (Ascii.ascii_dec c c') as [->|Hne].
      * rewrite IH. split; intros [post H]; exists post;
          rewrite append_cons in *; congruence.
      * split; [discriminate|intros [post H]; rewrite append_cons in H; congruence].
Qed.

(** [includes s sub] holds exactly when [sub] occurs in [s]. *)
Lemma includes_spec (s sub : string) :
  includes s sub = true <-> exists pre post, s = pre +:+ sub +:+ post.
Proof.
  induction s as [|c s IH]; cbn [includes].
  - rewrite orb_false_r, prefix_spec. split.
    + intros [post H]. exists "", post. exact H.
    + intros [pre [post H]]. destruct pre; [eauto|discriminate].
  - rewrite orb_true_iff, prefix_spec, IH. split.
    + intros [[post H]|[pre [post H]]].
      * exists "", post. exact H.
      * exists (String c pre), post. rewrite append_cons. congruence.
    + intros [pre [post H]]. destruct pre as [|c' pre].
      * left. eauto.
      * right. exists pre, post. rewrite append_cons in H. congruence.
Qed.

Lemma toLowerCase_append (a b : string) :
  toLowerCase (a +:+ b) = toLowerCase a +:+ toLowerCase b.
Proof.
  induction a as [|c a IH]; [reflexivity|].
  rewrite append_cons. simpl. rewrite IH, append_cons. reflexivity.
Qed.

Lemma toLowerCase_length (s : string) :
  String.length (toLowerCase s) = String.length s.
Proof. induction s as [|c s IH]; simpl; [reflexivity|]. rewrite IH. reflexivity. Qed.

Lemma length_append (a b : string) :
  String.length (a +:+ b) = (String.length a + String.length b)%nat.
Proof.
  induction a as [|c a IH]; [reflexivity|].
  rewrite append_cons. simpl. rewrite IH. reflexivity.
Qed.

Lemma append_assoc (a b c : string) : (a +:+ b) +:+ c = a +:+ (b +:+ c).
Proof.
  induction a as [|x a IH]; [reflexivity|].
  rewrite !append_cons, IH. reflexivity.
Qed.

(** *** Letter case *)

Lemma lower_ascii_code (c : ascii) :
  N_of_ascii (lower_ascii c)
  = (if (65 <=? N_of_ascii c) && (N_of_ascii c <=? 90)
     then N_of_ascii c + 32 else N_of_ascii c)%N.
Proof.
  unfold lower_ascii. cbv zeta.
  destruct ((65 <=? N_of_ascii c)%N && (N_of_ascii c <=? 90)%N) eqn:E;
    [|reflexivity].
  apply N_ascii_embedding. apply andb_true_iff in E as [_ E].
  apply N.leb_le in E. lia.
Qed.

Ltac code_cases :=
  repeat match goal with
         | H : context [(?x <=? ?y)%N] |- _ => destruct (N.leb_spec x y)
         | H : context [(?x =? ?y)%N] |- _ => destruct (N.eqb_spec x y)
         | |- context [(?x <=? ?y)%N] => destruct (N.leb_spec x y)
         | |- context [(?x =? ?y)%N] => destruct (N.eqb_spec x y)
         end;
  cbn [andb orb] in *; try discriminate; try reflexivity; try lia.

(** Lower-casing identifies exactly the characters that are the same
    letter. *)
Lemma same_letter_spec (a b : ascii) :
  same_letter a b = true <-> lower_ascii a = lower_ascii b.
Proof.
  split.
  - intros H.
    rewrite <- (ascii_N_embedding (lower_ascii a)),
            <- (ascii_N_embedding (lower_ascii b)).
    f_equal. rewrite !lower_ascii_code.
    unfold same_letter in H. cbv zeta in H.
    generalize dependent (N_of_ascii a). generalize dependent (N_of_ascii b).
    intros y x H. code_cases.
  - intros H. apply (f_equal N_of_ascii) in H. rewrite !lower_ascii_code in H.
    unfold same_letter. cbv zeta.
    generalize dependent (N_of_ascii a). generalize dependent (N_of_ascii b).
    intros y x H. code_cases.
Qed.

Lemma same_up_to_case_spec (s t : string) :
  same_up_to_case s t = true <-> toLowerCase s = toLowerCase t.
Proof.
  revert t. induction s as [|a s IH]; intros [|b t]; simpl;
    try (split; [reflexivity || discriminate|reflexivity || discriminate]).
  rewrite andb_true_iff, same_letter_spec, IH. split.
  - intros [-> ->]. reflexivity.
  - intros [= -> ->]. auto.
Qed.

Lemma toLowerCase_append_inv (s a b : string) :
  toLowerCase s = a +:+ b ->
  exists s1 s2, s = s1 +:+ s2 /\ toLowerCase s1 = a /\ toLowerCase s2 = b.
Proof.
  revert s. induction a as [|c a IH]; intros s H.
  - exists "", s. auto.
  - destruct s as [|x s]; [discriminate|].
    rewrite append_cons in H. simpl in H. injection H as Hc Hs.
    destruct (IH s Hs) as (s1 & s2 & -> & H1 & H2).
    exists (String x s1), s2. rewrite append_cons. simpl. rewrite Hc, H1. auto.
Qed.

(** The test of the filter, on lower-cased operands, is occurrence up to
    letter case. *)
Lemma includes_lower_spec (s q : string) :
  includes (toLowerCase s) (toLowerCase q) = true <-> occurs_ignoring_case s q.
Proof.
  rewrite includes_spec. unfold occurs_ignoring_case. split.
  - intros (pre & post & H).
    apply toLowerCase_append_inv in H as (s1 & s23 & -> & H1 & H23).
    apply toLowerCase_append_inv in H23 as (s2 & s3 & -> & H2 & H3).
    exists s1, s2, s3. split; [reflexivity|]. apply same_up_to_case_spec, H2.
  - intros (pre & mid & post & -> & H). apply same_up_to_case_spec in H.
    exists (toLowerCase pre), (toLowerCase post).
    rewrite !toLowerCase_append, H. reflexivity.
Qed.

End StringFacts.

Section FallbackFacts.

Context (catalog : list Clause) (query : string).

Lemma slice0_pos {A} (l : list A) (n : Z) :
  0 <= n -> slice0 l n = take (Z.to_nat n) l.
Proof.
  intros Hn. unfold slice0. destruct (Z.ltb_spec n 0); [lia|].
  destruct (Z.le_gt_cases n (Z.of_nat (List.length l))).
  - rewrite Z.min_l by lia. reflexivity.
  - rewrite Z.min_r by lia. rewrite Nat2Z.id.
    rewrite !take_ge; [reflexivity|lia|lia].
Qed.

Lemma filter_all {A} (f : A -> bool) (l : list A) :
  Forall (fun x => f x = true) l -> List.filter f l = l.
Proof.
  induction 1 as [|x l Hx _ IH]; simpl; [reflexivity|].
  rewrite Hx, IH. reflexivity.
Qed.

Lemma filter_forall {A} (f : A -> bool) (l : list A) :
  Forall (fun x => f x = true) (List.filter f l).
Proof.
  induction l as [|x l IH]; simpl; [constructor|].
  destruct (f x) eqn:Hx; [constructor; assumption|assumption].
Qed.

Lemma filter_take_nil {A} (f : A -> bool) (l : list A) (k : nat) :
  List.filter f l = [] -> List.filter f (take k l) = [].
Proof.
  revert k. induction l as [|x l IH]; intros [|k]; simpl; try reflexivity.
  destruct (f x); [discriminate|]. apply IH.
Qed.

Lemma filter_sublist {A} (f : A -> bool) (l : list A) :
  sublist (List.filter f l) l.
Proof.
  induction l as [|x l IH]; simpl; [constructor|].
  destruct (f x); [apply sublist_skip|apply sublist_cons]; exact IH.
Qed.

(** With a positive count the function is: the first [nResults] matches,
    or, when nothing matches, the first [nResults] of the catalog. *)
Lemma filterClauses_pos (n : Z) :
  0 < n ->
  filterClauses catalog query n =
  match List.filter (clause_matches (toLowerCase query)) catalog with
  | [] => take (Z.to_nat n) catalog
  | _ :: _ =>
      take (Z.to_nat n) (List.filter (clause_matches (toLowerCase query)) catalog)
  end.
Proof.
  intros Hn. unfold filterClauses. rewrite !slice0_pos by lia.
  destruct (List.filter (clause_matches (toLowerCase query)) catalog)
    as [|c rest].
  - rewrite take_nil. reflexivity.
  - destruct (Z.to_nat n) as [|k] eqn:Hk; [lia|]. reflexivity.
Qed.

Lemma filterClauses_sublist (n : Z) :
  0 < n -> sublist (filterClauses catalog query n) catalog.
Proof.
  intros Hn. rewrite filterClauses_pos by exact Hn.
  destruct (List.filter (clause_matches (toLowerCase query)) catalog)
    as [|c rest] eqn:Hm.
  - apply sublist_take.
  - etrans; [apply sublist_take|]. rewrite <- Hm. apply filter_sublist.
Qed.

Lemma filterClauses_length (n : Z) :
  0 < n -> Z.of_nat (List.length (filterClauses catalog query n)) <= n.
Proof.
  intros Hn. rewrite filterClauses_pos by exact Hn.
  destruct (List.filter _ catalog); rewrite length_take; lia.
Qed.

Lemma filterClauses_nonempty (n : Z) :
  0 < n -> catalog <> [] -> filterClauses catalog query n <> [].
Proof.
  intros Hn Hc. rewrite filterClauses_pos by exact Hn.
  destruct (Z.to_nat n) as [|k] eqn:Hk; [lia|].
  destruct (List.filter _ catalog);
    [destruct catalog; [congruence|discriminate]|discriminate].
Qed.

End FallbackFacts.

Lemma filterClauses_idempotent catalog query (n : Z) :
  0 < n ->
  filterClauses (filterClauses catalog query n) query n
  = filterClauses catalog query n.
Proof.
  intros Hn. rewrite (filterClauses_pos catalog) by exact Hn.
  destruct (List.filter (clause_matches (toLowerCase query)) catalog)
    as [|c rest] eqn:Hm.
  - rewrite filterClauses_pos by exact Hn.
    rewrite filter_take_nil by exact Hm. apply take_idemp.
  - rewrite filterClauses_pos by exact Hn.
    rewrite filter_all.
    + destruct (Z.to_nat n) as [|k] eqn:Hk; [lia|]. simpl.
      rewrite take_idemp. reflexivity.
    + apply Forall_take. rewrite <- Hm. apply filter_forall.
Qed.

(** ** What a run does to the cache and the network, whatever the backend *)

Section BrokerEffects.

Context (w : World) (net : Net).

Ltac shape_cases :=
  first [ left; cbn [cache clock trace emit elapse fst snd];
          split; [rewrite <- ?app_assoc; reflexivity|reflexivity]
        | right; cbn [cache clock trace emit elapse fst snd];
          split; [rewrite <- ?app_assoc; reflexivity|];
          eexists; split; reflexivity ].

Lemma checkCUADHealth_shape :
  cached_call_shape w "health_check" (Fetch "GET" health_url JUndefined)
    (checkCUADHealth net w).
Proof.
  unfold cached_call_shape, checkCUADHealth. run_M.
  destruct (fresh (cache w !! "health_check") (clock w)); [reflexivity|].
  rewrite fetchWithTimeout_run.
  destruct net as [d r|d m|]; [| |run_M; shape_cases].
  - destruct (d <? 10000); run_M; [|shape_cases].
    destruct (body r); run_M; shape_cases.
  - destruct (d <? 10000); run_M; shape_cases.
Qed.

Lemma searchCUADSimple_shape q n :
  cached_call_shape w (search_key q n) (Fetch "POST" search_url (search_payload q n))
    (searchCUADSimple q n net w).
Proof.
  unfold cached_call_shape, searchCUADSimple. run_M.
  destruct (fresh (cache w !! search_key q n) (clock w)); [reflexivity|].
  rewrite fetchWithTimeout_run.
  destruct net as [d r|d m|]; [| |destruct q; run_M; shape_cases].
  - destruct (d <? 10000); run_M; [|destruct q; shape_cases].
    destruct (ok r); run_M; [|destruct q; shape_cases].
    destruct (body r); run_M; [shape_cases|destruct q; shape_cases|shape_cases].
  - destruct (d <? 10000); run_M; destruct q; shape_cases.
Qed.

Lemma analyzeSimple_shape doc q :
  cached_call_shape w (analyze_key doc q)
    (Fetch "POST" analyze_url (analyze_payload doc q))
    (analyzeSimple (Some doc) q net w).
Proof.
  unfold cached_call_shape, analyzeSimple. run_M.
  destruct (fresh (cache w !! analyze_key doc q) (clock w)); [reflexivity|].
  rewrite fetchWithTimeout_run.
  destruct net as [d r|d m|]; [| |run_M; shape_cases].
  - destruct (d <? 10000); run_M; [|shape_cases].
    destruct (ok r); run_M; [|shape_cases].
    destruct (body r); run_M; shape_cases.
  - destruct (d <? 10000); run_M; shape_cases.
Qed.

Lemma analyzeSimple_missing_text q :
  analyzeSimple None q net w
  = (Thrown "Cannot read properties of undefined (reading 'substring')", w).
Proof. reflexivity. Qed.

(** The listener's [catch] and the lines after [analyzeSimple] in the
    enhanced case touch neither the cache nor the log nor the clock. *)
Lemma handle_world request :
  snd (handle request net w) = snd (dispatch request net w).
Proof.
  unfold handle, try_catch, respond_error. run_M.
  destruct (dispatch request net w) as [[v|e|] w']; reflexivity.
Qed.

(** How each of the three functions can end: [checkCUADHealth] and
    [analyzeSimple] on a text never throw, and each stays pending exactly
    on a miss followed by a body that stalls. *)
Lemma checkCUADHealth_outcome :
  (forall e, fst (checkCUADHealth net w) <> Thrown e) /\
  (fst (checkCUADHealth net w) = Pending <->
   fresh (cache w !! "health_check") (clock w) = None /\ stalls net = true).
Proof.
  unfold checkCUADHealth, stalls. run_M. change (TIMEOUT CONFIG) with 10000.
  destruct (fresh _ _); [split; [discriminate|split; [discriminate|intros [? _]; discriminate]]|].
  rewrite fetchWithTimeout_run.
  destruct net as [d r|d m|].
  - destruct (d <? 10000); run_M;
      [|split; [discriminate|split; [discriminate|intros [_ ?]; discriminate]]].
    destruct (body r); run_M; simpl;
      (split; [discriminate|split; [try discriminate|intros [_ ?]; try discriminate]]);
      auto.
  - destruct (d <? 10000); run_M;
      (split; [discriminate|split; [discriminate|intros [_ ?]; discriminate]]).
  - run_M. split; [discriminate|split; [discriminate|intros [_ ?]; discriminate]].
Qed.

Lemma searchCUADSimple_outcome q n :
  fst (searchCUADSimple q n net w) = Pending <->
  fresh (cache w !! search_key q n) (clock w) = None /\ stalls_ok net = true.
Proof.
  unfold searchCUADSimple, stalls_ok, stalls. run_M.
  change (TIMEOUT CONFIG) with 10000.
  destruct (fresh _ _); [split; [discriminate|intros [? _]; discriminate]|].
  rewrite fetchWithTimeout_run.
  destruct net as [d r|d m|].
  - destruct (d <? 10000); run_M;
      [|destruct q; (split; [discriminate|intros [_ ?]; discriminate])].
    destruct (ok r); run_M;
      [|destruct q, (body r); (split; [discriminate|intros [_ ?]; discriminate])].
    destruct (body r); run_M; simpl;
      [split; [discriminate|intros [_ ?]; discriminate]
      |destruct q; (split; [discriminate|intros [_ ?]; discriminate])
      |split; auto].
  - destruct (d <? 10000); run_M; destruct q;
      (split; [discriminate|intros [_ ?]; discriminate]).
  - run_M. destruct q; (split; [discriminate|intros [_ ?]; discriminate]).
Qed.

Lemma analyzeSimple_outcome doc q :
  (forall e, fst (analyzeSimple (Some doc) q net w) <> Thrown e) /\
  (fst (analyzeSimple (Some doc) q net w) = Pending <->
   fresh (cache w !! analyze_key doc q) (clock w) = None /\ stalls_ok net = true).
Proof.
  unfold analyzeSimple, stalls_ok, stalls. run_M.
  change (TIMEOUT CONFIG) with 10000.
  destruct (fresh _ _);
    [split; [discriminate|split; [discriminate|intros [? _]; discriminate]]|].
  rewrite fetchWithTimeout_run.
  destruct net as [d r|d m|].
  - destruct (d <? 10000); run_M;
      [|split; [discriminate|split; [discriminate|intros [_ ?]; discriminate]]].
    destruct (ok r); run_M;
      [|destruct (body r);
        (split; [discriminate|split; [discriminate|intros [_ ?]; discriminate]])].
    destruct (body r); run_M; simpl;
      (split; [discriminate|split; [try discriminate|intros [_ ?]; try discriminate]]);
      auto.
  - destruct (d <? 10000); run_M;
      (split; [discriminate|split; [discriminate|intros [_ ?]; discriminate]]).
  - run_M. split; [discriminate|split; [discriminate|intros [_ ?]; discriminate]].
Qed.

(** The listener never throws, and it stays pending, its [sendResponse]
    never called, exactly when its request waits for a body that stalls. *)
Lemma handle_never_throws request e : fst (handle request net w) <> Thrown e.
Proof.
  unfold handle, try_catch, respond_error. run_M.
  destruct (dispatch request net w) as [[v|e'|] w']; discriminate.
Qed.

Lemma handle_pending_iff request :
  fst (handle request net w) = Pending <-> waits_for_body request net w = true.
Proof.
  assert (Hp : fst (handle request net w) = Pending
               <-> fst (dispatch request net w) = Pending).
  { unfold handle, try_catch, respond_error. run_M.
    destruct (dispatch request net w) as [[v|e'|] w']; simpl;
      split; congruence. }
  rewrite Hp. unfold waits_for_body, cacheKey_of, dispatch.
  destruct (String.eqb (action request) "CHECK_CUAD_HEALTH") eqn:E1.
  { rewrite (proj2 checkCUADHealth_outcome).
    destruct (fresh _ _); split; try tauto; try discriminate.
    intros [? _]. discriminate. }
  destruct (String.eqb (action request) "SEARCH_CUAD") eqn:E2.
  { rewrite searchCUADSimple_outcome.
    destruct (fresh _ _); split; try tauto; try discriminate.
    intros [? _]. discriminate. }
  assert (Ha : fst (analyzeSimple (documentText request) (question request) net w)
               = Pending <->
               match (fun doc => analyze_key doc (question request))
                     <$> documentText request with
               | Some key =>
                   match fresh (cache w !! key) (clock w) with
                   | Some _ => false
                   | None => stalls_ok net
                   end
               | None => false
               end = true).
  { destruct (documentText request) as [doc|]; simpl; [|split; discriminate].
    rewrite (proj2 (analyzeSimple_outcome doc (question request))).
    destruct (fresh _ _); split; try tauto; try discriminate.
    intros [? _]. discriminate. }
  destruct (String.eqb (action request) "ANALYZE_WITH_CUAD") eqn:E3;
    [exact Ha|].
  destruct (String.eqb (action request) "GET_GPT_RESPONSE") eqn:E4.
  { destruct (String.eqb (action request) "GET_ENHANCED_RESPONSE") eqn:E5.
    - apply String.eqb_eq in E4, E5. congruence.
    - simpl. split; discriminate. }
  destruct (String.eqb (action request) "GET_ENHANCED_RESPONSE") eqn:E5.
  { simpl. rewrite <- Ha. run_M.
    destruct (analyzeSimple _ _ net w) as [[a|e'|] w1]; simpl;
      [|split; discriminate|tauto].
    destruct (get_prop a "analysis_prompt"); [split; discriminate|].
    destruct (get_prop a "relevant_clauses_found"); split; discriminate. }
  simpl. destruct (String.eqb (action request) "PING"); split; discriminate.
Qed.

Lemma handle_resolves request :
  waits_for_body request net w = false ->
  exists v, fst (handle request net w) = Returned v.
Proof.
  intros Hw. pose proof (handle_pending_iff request) as Hp.
  pose proof (handle_never_throws request) as Ht.
  destruct (fst (handle request net w)) as [v|e|]; [eauto| |].
  - destruct (Ht e). reflexivity.
  - rewrite (proj1 Hp eq_refl) in Hw. discriminate.
Qed.

End BrokerEffects.

(** C5. For every query and every positive count, the fallback search
    keeps the catalog entries in whose text or category the query occurs,
    ignoring the case of letters (equivalently: whose lower-cased text or
    category contains the lower-cased query), returns the first [nResults]
    of them in catalog order, and when none matches returns the first
    [nResults] entries of the catalog; so the result has at most [nResults]
    entries, is non-empty whenever the catalog is (as the script's is), is
    the same for two queries that differ in letter case only, and filtering
    the result again changes nothing. *)
Theorem C5_fallback_search_filter :
  forall (catalog : list Clause) (query : string) (nResults : Z),
    0 < nResults ->
    let queryLower := toLowerCase query in
    let matching := List.filter (clause_matches queryLower) catalog in
    let result := filterClauses catalog query nResults in
    (forall c, clause_matches queryLower c = true <->
       occurs_ignoring_case (text c) query \/
       occurs_ignoring_case (clause_type c) query) /\
    (forall c, clause_matches queryLower c = true <->
       (exists pre post, toLowerCase (text c) = pre +:+ queryLower +:+ post) \/
       (exists pre post, toLowerCase (clause_type c) = pre +:+ queryLower +:+ post)) /\
    result = match matching with
             | [] => take (Z.to_nat nResults) catalog
             | _ :: _ => take (Z.to_nat nResults) matching
             end /\
    sublist result catalog /\
    Z.of_nat (List.length result) <= nResults /\
    (catalog <> [] -> result <> []) /\
    (forall query', same_up_to_case query' query = true ->
       filterClauses catalog query' nResults = result) /\
    (forall query', toLowerCase query' = queryLower ->
       filterClauses catalog query' nResults = result) /\
    filterClauses result query nResults = result /\
    getFallbackClauses query nResults = filterClauses sampleClauses query nResults /\
    getFallbackClauses query nResults <> [].
Proof.
  intros catalog query n Hn queryLower matching result.
  split; [|split; [|split; [|split; [|split; [|split; [|split; [|split;
    [|split; [|split]]]]]]]]].
  - intros c. unfold clause_matches, queryLower.
    rewrite orb_true_iff, !includes_lower_spec. tauto.
  - intros c. unfold clause_matches. rewrite orb_true_iff, !includes_spec. tauto.
  - apply filterClauses_pos, Hn.
  - apply filterClauses_sublist, Hn.
  - apply filterClauses_length, Hn.
  - apply filterClauses_nonempty, Hn.
  - intros query' Hq. apply same_up_to_case_spec in Hq.
    unfold result, filterClauses. rewrite Hq. reflexivity.
  - intros query' Hq. unfold result, filterClauses. rewrite Hq. reflexivity.
  - apply filterClauses_idempotent, Hn.
  - reflexivity.
  - apply filterClauses_nonempty; [exact Hn|discriminate].
Qed.

Lemma C5_fallback_search_filter_witness :
  0 < 2 /\
  filterClauses sampleClauses "LIABLE" 2 = drop 2 sampleClauses /\
  filterClauses sampleClauses "Liable" 2 = filterClauses sampleClauses "LIABLE" 2 /\
  filterClauses sampleClauses "liable to pay" 2 = take 2 sampleClauses /\
  filterClauses (filterClauses sampleClauses "LIABLE" 2) "LIABLE" 2
  = filterClauses sampleClauses "LIABLE" 2 /\
  getFallbackClauses "LIABLE" 2 <> [].
Proof.
  pose proof (C5_fallback_search_filter sampleClauses "LIABLE" 2 eq_refl) as H.
  cbv zeta in H.
  destruct H as (_ & _ & Hres & _ & _ & _ & Hcase & _ & Hidem & _ & Hne).
  pose proof (C5_fallback_search_filter sampleClauses "liable to pay" 2 eq_refl) as H'.
  cbv zeta in H'.
  destruct H' as (_ & _ & Hres' & _).
  split; [reflexivity|]. split; [exact Hres|].
  split; [apply Hcase; reflexivity|]. split; [exact Hres'|].
  split; [exact Hidem|exact Hne].
Defined.

(** ** Truncation *)

Lemma substring0_split (k : nat) (s : string) :
  exists rest, s = substring0 k s +:+ rest.
Proof.
  unfold substring0. revert s. induction k as [|k IH]; intros s.
  - exists s. destruct s; reflexivity.
  - destruct s as [|c s]; [exists ""; reflexivity|].
    destruct (IH s) as [rest Hrest]. exists rest. simpl.
    rewrite append_cons. congruence.
Qed.

Lemma substring0_length (k : nat) (s : string) :
  (String.length (substring0 k s) <= k)%nat.
Proof.
  unfold substring0. revert s. induction k as [|k IH]; intros s.
  - destruct s; simpl; lia.
  - destruct s as [|c s]; simpl; [lia|]. specialize (IH s). lia.
Qed.

(** ** Scenarios against a failing backend *)

(** C8 as stated fails: against a backend that never answers, the search
    for "confidential" with 3 results asked is answered with one entry,
    although the catalog holds three; nothing is padded. *)
Lemma C8_counterexample_no_padding :
  let w0 := {| cache := ∅; clock := 0; trace := [] |} in
  let request := {| action := "SEARCH_CUAD"; query := Some "confidential";
                    nResults := Some 3; documentText := None; question := None |} in
  failure_mode NetSilent = Some ModeTimeout /\
  List.length sampleClauses = 3%nat /\
  exists item, fst (handle request NetSilent w0) = Returned (JArr [item]).
Proof.
  split; [reflexivity|]. split; [reflexivity|].
  eexists. vm_compute. reflexivity.
Qed.

(** C8 (amended). When the backend call fails and no fresh entry is
    cached, a search for "confidential" with 3 results asked is answered
    with exactly one entry: the first of the catalog, the only one whose
    category is "Confidentiality", carrying its fixed score 0.85; the two
    other catalog entries are not added. *)
Theorem C8_search_confidential_single_entry :
  forall (request : Request) (net : Net) (w : World) (mode : FailureMode),
    action request = "SEARCH_CUAD" ->
    query request = Some "confidential" ->
    nResults request = Some 3 ->
    failure_mode net = Some mode ->
    fresh (cache w !! search_key (Some "confidential") 3) (clock w) = None ->
    exists c rest w',
      sampleClauses = c :: rest /\
      clause_type c = "Confidentiality" /\
      similarity_score c = dec 85 2 /\
      Forall (fun c' => clause_type c' <> "Confidentiality") rest /\
      handle request net w = (Returned (JArr [clause_obj c]), w') /\
      cache w' = cache w.
Proof.
  intros request net w mode Ha Hq Hn Hfail Hmiss.
  destruct (searchCUADSimple_failure w net "confidential" 3 mode Hmiss Hfail)
    as (w' & Hrun & Hcache & _).
  eexists _, _, w'. split; [reflexivity|].
  split; [reflexivity|]. split; [reflexivity|].
  split; [repeat constructor; discriminate|].
  split; [|exact Hcache].
  apply handle_returned. rewrite dispatch_search by exact Ha.
  rewrite Hq, Hn. exact Hrun.
Qed.

Lemma C8_search_confidential_single_entry_witness :
  let w0 := {| cache := ∅; clock := 0; trace := [] |} in
  let request := {| action := "SEARCH_CUAD"; query := Some "confidential";
                    nResults := Some 3; documentText := None; question := None |} in
  exists c w',
    handle request (NetFails 40 "Failed to fetch") w0
    = (Returned (JArr [clause_obj c]), w') /\
    clause_type c = "Confidentiality" /\ similarity_score c = dec 85 2.
Proof.
  intros w0 request.
  destruct (C8_search_confidential_single_entry request
              (NetFails 40 "Failed to fetch") w0 ModeNetworkError
              eq_refl eq_refl eq_refl eq_refl eq_refl)
    as (c & rest & w' & _ & Hty & Hscore & _ & Hrun & _).
  exists c, w'. split; [exact Hrun|]. split; [exact Hty|exact Hscore].
Defined.





(** ** The TTL cache *)

Section CacheFacts.

Lemma fresh_iff (c : gmap string CacheEntry) (key : string) (now : Z) (v : JsVal) :
  fresh (c !! key) now = Some v <->
  exists e, c !! key = Some e /\ now - timestamp e < CACHE_TTL /\ data e = v.
Proof.
  unfold fresh. destruct (c !! key) as [e|].
  - destruct (Z.ltb_spec (now - timestamp e) CACHE_TTL).
    + split; [intros [= <-]; eauto|].
      intros (e' & [= <-] & _ & <-). reflexivity.
    + split; [discriminate|]. intros (e' & [= <-] & Hlt & _). lia.
  - split; [discriminate|]. intros (e' & Hnone & _). discriminate.
Qed.

Lemma fresh_within (c : gmap string CacheEntry) key now v t :
  c !! key = Some {| data := v; timestamp := t |} ->
  now - t < CACHE_TTL -> fresh (c !! key) now = Some v.
Proof. intros H Hlt. apply fresh_iff. eexists. split; [exact H|]. auto. Qed.

Lemma fresh_stale (c : gmap string CacheEntry) key now v t :
  c !! key = Some {| data := v; timestamp := t |} ->
  CACHE_TTL <= now - t -> fresh (c !! key) now = None.
Proof.
  intros H Hge. destruct (fresh (c !! key) now) as [v'|] eqn:Hf; [|reflexivity].
  apply fresh_iff in Hf. destruct Hf as (e & He & Hlt & _).
  rewrite H in He. injection He as <-. simpl in Hlt. lia.
Qed.

End CacheFacts.

(** ** Requests: what the listener does with the cache and the network *)

Section ListenerFacts.

Context (request : Request) (net : Net) (w : World).

Lemma dispatch_enhanced :
  action request = "GET_ENHANCED_RESPONSE" ->
  dispatch request net w =
  match analyzeSimple (documentText request) (question request) net w with
  | (Returned analysis, w') =>
      match get_prop analysis "analysis_prompt",
            get_prop analysis "relevant_clauses_found" with
      | inr prompt, inr found =>
          (Returned (JObj [ ("fallback", JBool true);
                            ("content", JStr (enhanced_content prompt found));
                            ("analysis", analysis);
                            ("timestamp", JStr (toISOString (clock w'))) ]), w')
      | inl message, _ => (Thrown message, w')
      | inr _, inl message => (Thrown message, w')
      end
  | (Thrown message, w') => (Thrown message, w')
  | (Pending, w') => (Pending, w')
  end.
Proof.
  intros Ha. unfold dispatch. rewrite Ha.
  change (String.eqb "GET_ENHANCED_RESPONSE" "CHECK_CUAD_HEALTH") with false.
  change (String.eqb "GET_ENHANCED_RESPONSE" "SEARCH_CUAD") with false.
  change (String.eqb "GET_ENHANCED_RESPONSE" "ANALYZE_WITH_CUAD") with false.
  change (String.eqb "GET_ENHANCED_RESPONSE" "GET_GPT_RESPONSE") with false.
  change (String.eqb "GET_ENHANCED_RESPONSE" "GET_ENHANCED_RESPONSE") with true.
  run_M.
  destruct (analyzeSimple _ _ net w) as [[a|e|] w1]; try reflexivity.
  destruct (get_prop a "analysis_prompt"); [reflexivity|].
  destruct (get_prop a "relevant_clauses_found"); reflexivity.
Qed.

Lemma dispatch_enhanced_world :
  action request = "GET_ENHANCED_RESPONSE" ->
  snd (dispatch request net w)
  = snd (analyzeSimple (documentText request) (question request) net w).
Proof.
  intros Ha. rewrite dispatch_enhanced by exact Ha.
  destruct (analyzeSimple _ _ net w) as [[a|e|] w1]; try reflexivity.
  destruct (get_prop a "analysis_prompt"); [reflexivity|].
  destruct (get_prop a "relevant_clauses_found"); reflexivity.
Qed.

(** The key of a request tells its action and, for the analyses, that the
    document text is there. *)
Lemma cacheKey_of_cases key :
  cacheKey_of request = Some key ->
  (action request = "CHECK_CUAD_HEALTH" /\ key = "health_check") \/
  (action request = "SEARCH_CUAD" /\
   key = search_key (query request) (nResults_or_3 (nResults request))) \/
  (exists doc,
     (action request = "ANALYZE_WITH_CUAD" \/
      action request = "GET_ENHANCED_RESPONSE") /\
     documentText request = Some doc /\
     key = analyze_key doc (question request)).
Proof.
  unfold cacheKey_of.
  destruct (String.eqb_spec (action request) "CHECK_CUAD_HEALTH") as [->|_].
  { intros [= <-]. auto. }
  destruct (String.eqb_spec (action request) "SEARCH_CUAD") as [->|_].
  { intros [= <-]. auto. }
  destruct (String.eqb_spec (action request) "ANALYZE_WITH_CUAD") as [Ha|_];
    [|destruct (String.eqb_spec (action request) "GET_ENHANCED_RESPONSE") as [Ha|_]];
    simpl; try discriminate;
    (destruct (documentText request) as [doc|]; [|discriminate]);
    intros [= <-]; right; right; exists doc; auto.
Qed.

(** Every request that has a key follows the shape of a cached call. *)
Lemma handle_cached_shape key :
  cacheKey_of request = Some key ->
  exists sent, is_fetch sent = true /\
    match fresh (cache w !! key) (clock w) with
    | Some v =>
        snd (handle request net w) = emit (CacheGet key) w /\
        (caching_action (action request) ->
         fst (handle request net w) = Returned v)
    | None =>
        (trace (snd (handle request net w)) = trace w ++ [CacheGet key; sent] /\
         cache (snd (handle request net w)) = cache w)
        \/
        (trace (snd (handle request net w))
         = trace w ++ [CacheGet key; sent; CacheSet key] /\
         exists v,
           cache (snd (handle request net w))
           = <[key := {| data := v;
                         timestamp := clock (snd (handle request net w)) |}]>
               (cache w) /\
           (caching_action (action request) ->
            fst (handle request net w) = Returned v))
    end.
Proof.
  intros Hkey. rewrite handle_world.
  assert (Hfst : forall v,
            fst (dispatch request net w) = Returned v ->
            fst (handle request net w) = Returned v).
  { intros v. unfold handle, try_catch.
    destruct (dispatch request net w) as [[v'|e|] w']; simpl;
      congruence || discriminate. }
  destruct (cacheKey_of_cases key Hkey)
    as [[Ha ->]|[[Ha ->]|(doc & Ha & Hdoc & ->)]].
  - pose proof (checkCUADHealth_shape w net) as Hs.
    unfold cached_call_shape in Hs.
    rewrite <- (dispatch_health net request Ha) in Hs.
    exists (Fetch "GET" health_url JUndefined). split; [reflexivity|].
    destruct (fresh _ _) as [v|].
    + rewrite Hs. split; [reflexivity|]. intros _. apply Hfst. rewrite Hs. reflexivity.
    + destruct Hs as [Hs|[Htr (v & Hv & Hc)]]; [left; exact Hs|right].
      split; [exact Htr|]. exists v. split; [exact Hc|]. intros _.
      apply Hfst, Hv.
  - pose proof (searchCUADSimple_shape w net (query request)
                  (nResults_or_3 (nResults request))) as Hs.
    unfold cached_call_shape in Hs.
    rewrite <- (dispatch_search net request Ha) in Hs.
    exists (Fetch "POST" search_url
              (search_payload (query request) (nResults_or_3 (nResults request)))).
    split; [reflexivity|].
    destruct (fresh _ _) as [v|].
    + rewrite Hs. split; [reflexivity|]. intros _. apply Hfst. rewrite Hs. reflexivity.
    + destruct Hs as [Hs|[Htr (v & Hv & Hc)]]; [left; exact Hs|right].
      split; [exact Htr|]. exists v. split; [exact Hc|]. intros _.
      apply Hfst, Hv.
  - pose proof (analyzeSimple_shape w net doc (question request)) as Hs.
    unfold cached_call_shape in Hs. rewrite <- Hdoc in Hs.
    exists (Fetch "POST" analyze_url (analyze_payload doc (question request))).
    split; [reflexivity|].
    destruct Ha as [Ha|Ha].
    + rewrite <- (dispatch_analyze net request Ha) in Hs.
      destruct (fresh _ _) as [v|].
      * rewrite Hs. split; [reflexivity|]. intros _. apply Hfst. rewrite Hs. reflexivity.
      * destruct Hs as [Hs|[Htr (v & Hv & Hc)]]; [left; exact Hs|right].
        split; [exact Htr|]. exists v. split; [exact Hc|]. intros _.
        apply Hfst, Hv.
    + assert (Hnot : ~ caching_action (action request)).
      { rewrite Ha. intros [H|[H|H]]; discriminate. }
      rewrite (dispatch_enhanced_world Ha).
      destruct (fresh _ _) as [v|].
      * rewrite Hs. split; [reflexivity|]. intros H. destruct (Hnot H).
      * destruct Hs as [Hs|[Htr (v & Hv & Hc)]]; [left; exact Hs|right].
        split; [exact Htr|]. exists v. split; [exact Hc|].
        intros H. destruct (Hnot H).
Qed.

End ListenerFacts.

Section ListenerCache.

Context (request : Request) (net : Net) (w : World).

Lemma effects_of_trace {A} (m : M A) (l : list Effect) :
  trace (snd (m w)) = trace w ++ l -> effects m w = l.
Proof. intros H. unfold effects. rewrite H. apply drop_app_length. Qed.

Lemma handle_enhanced analysis w' :
  action request = "GET_ENHANCED_RESPONSE" ->
  analyzeSimple (documentText request) (question request) net w
  = (Returned analysis, w') ->
  exists r, handle request net w = (Returned r, w') /\
    without_timestamp r = enhanced_without_timestamp analysis.
Proof.
  intros Ha Hrun. unfold handle, try_catch.
  rewrite (dispatch_enhanced request net w Ha), Hrun.
  unfold enhanced_without_timestamp, respond_error. run_M.
  destruct (get_prop analysis "analysis_prompt");
    [eexists; split; reflexivity|].
  destruct (get_prop analysis "relevant_clauses_found");
    eexists; split; reflexivity.
Qed.

Lemma handle_hit key v :
  cacheKey_of request = Some key ->
  fresh (cache w !! key) (clock w) = Some v ->
  exists r, handle request net w = (Returned r, emit (CacheGet key) w) /\
    (caching_action (action request) -> r = v) /\
    (action request = "GET_ENHANCED_RESPONSE" ->
     without_timestamp r = enhanced_without_timestamp v).
Proof.
  intros Hkey Hhit.
  destruct (cacheKey_of_cases request key Hkey)
    as [[Ha ->]|[[Ha ->]|(doc & Ha & Hdoc & ->)]].
  - exists v. split; [|split; [reflexivity|rewrite Ha; discriminate]].
    apply handle_returned. rewrite dispatch_health by exact Ha.
    apply checkCUADHealth_hit, Hhit.
  - exists v. split; [|split; [reflexivity|rewrite Ha; discriminate]].
    apply handle_returned. rewrite dispatch_search by exact Ha.
    apply searchCUADSimple_hit, Hhit.
  - pose proof (analyzeSimple_hit w net doc (question request) v Hhit) as Hrun.
    rewrite <- Hdoc in Hrun. destruct Ha as [Ha|Ha].
    + exists v. split; [|split; [reflexivity|rewrite Ha; discriminate]].
      apply handle_returned. rewrite dispatch_analyze by exact Ha. exact Hrun.
    + destruct (handle_enhanced v _ Ha Hrun) as (r & Hr & Hwt).
      exists r. split; [exact Hr|]. split; [|intros _; exact Hwt].
      rewrite Ha. intros [H|[H|H]]; discriminate.
Qed.

Lemma handle_success key v :
  cacheKey_of request = Some key ->
  fresh (cache w !! key) (clock w) = None ->
  success net = Some v ->
  exists r w' sent stored,
    is_fetch sent = true /\
    handle request net w = (Returned r, w') /\
    trace w' = trace w ++ [CacheGet key; sent; CacheSet key] /\
    cache w' = <[key := {| data := stored; timestamp := clock w' |}]> (cache w) /\
    (caching_action (action request) -> stored = r) /\
    (action request = "GET_ENHANCED_RESPONSE" ->
     without_timestamp r = enhanced_without_timestamp stored).
Proof.
  intros Hkey Hmiss Hok.
  destruct (cacheKey_of_cases request key Hkey)
    as [[Ha ->]|[[Ha ->]|(doc & Ha & Hdoc & ->)]].
  - destruct (checkCUADHealth_success w net v Hmiss Hok) as (w' & Hrun & Hc & Ht).
    exists (healthy v), w', (Fetch "GET" health_url JUndefined), (healthy v).
    split; [reflexivity|]. split.
    { apply handle_returned. rewrite dispatch_health by exact Ha. exact Hrun. }
    split; [exact Ht|]. split; [exact Hc|].
    split; [reflexivity|rewrite Ha; discriminate].
  - destruct (searchCUADSimple_success w net _ _ v Hmiss Hok) as (w' & Hrun & Hc & Ht).
    eexists v, w', (Fetch "POST" search_url _), v.
    split; [reflexivity|]. split.
    { apply handle_returned. rewrite dispatch_search by exact Ha. exact Hrun. }
    split; [exact Ht|]. split; [exact Hc|].
    split; [reflexivity|rewrite Ha; discriminate].
  - destruct (analyzeSimple_success w net doc _ v Hmiss Hok) as (w' & Hrun & Hc & Ht).
    rewrite <- Hdoc in Hrun. destruct Ha as [Ha|Ha].
    + eexists v, w', (Fetch "POST" analyze_url _), v.
      split; [reflexivity|]. split.
      { apply handle_returned. rewrite dispatch_analyze by exact Ha. exact Hrun. }
      split; [exact Ht|]. split; [exact Hc|].
      split; [reflexivity|rewrite Ha; discriminate].
    + destruct (handle_enhanced v w' Ha Hrun) as (r & Hr & Hwt).
      eexists r, w', (Fetch "POST" analyze_url _), v.
      split; [reflexivity|]. split; [exact Hr|].
      split; [exact Ht|]. split; [exact Hc|]. split; [|intros _; exact Hwt].
      rewrite Ha. intros [H|[H|H]]; discriminate.
Qed.

(** A request without a key leaves the world as it found it. *)
Lemma handle_no_key :
  cacheKey_of request = None -> snd (handle request net w) = w.
Proof.
  rewrite handle_world. unfold cacheKey_of, dispatch.
  destruct (String.eqb (action request) "CHECK_CUAD_HEALTH"); [discriminate|].
  destruct (String.eqb (action request) "SEARCH_CUAD"); [discriminate|].
  destruct (String.eqb (action request) "ANALYZE_WITH_CUAD").
  { simpl. destruct (documentText request); [discriminate|reflexivity]. }
  destruct (String.eqb (action request) "GET_GPT_RESPONSE"); [reflexivity|].
  destruct (String.eqb (action request) "GET_ENHANCED_RESPONSE").
  { simpl. destruct (documentText request); [discriminate|reflexivity]. }
  destruct (String.eqb (action request) "PING"); reflexivity.
Qed.

(** No request removes an entry from the cache. *)
Lemma handle_keeps_entries key :
  is_Some (cache w !! key) ->
  is_Some (cache (snd (handle request net w)) !! key).
Proof.
  intros Hin. destruct (cacheKey_of request) as [k|] eqn:Hkey.
  - destruct (handle_cached_shape request net w k Hkey) as (sent & _ & Hs).
    destruct (fresh (cache w !! k) (clock w)).
    + destruct Hs as [-> _]. exact Hin.
    + destruct Hs as [[_ ->]|[_ (v & -> & _)]]; [exact Hin|].
      rewrite lookup_insert. case_decide; [eauto|exact Hin].
  - rewrite handle_no_key by exact Hkey. exact Hin.
Qed.

End ListenerCache.

Lemma network_calls_miss (key : string) (sent : Effect) :
  is_fetch sent = true ->
  network_calls [CacheGet key; sent] = 1%nat.
Proof. intros Hs. unfold network_calls. simpl. rewrite Hs. reflexivity. Qed.

Lemma network_calls_stored (key : string) (sent : Effect) :
  is_fetch sent = true ->
  network_calls [CacheGet key; sent; CacheSet key] = 1%nat.
Proof. intros Hs. unfold network_calls. simpl. rewrite Hs. reflexivity. Qed.

(** C2 as stated fails for the enhanced analysis: a first request fetches
    the analysis successfully, and the same request one second later, well
    within the 60 000 ms, makes no network call, yet its response differs
    from the first (its [timestamp] is taken anew). *)
Lemma C2_counterexample_enhanced_timestamp :
  let w0 := {| cache := ∅; clock := 1000; trace := [] |} in
  let request := {| action := "GET_ENHANCED_RESPONSE"; query := None;
                    nResults := None; documentText := Some "Lease agreement";
                    question := Some "Term?" |} in
  let net := NetResponds 100 {| status := 200; body_ms := 2;
               body := BodyJson (JObj [("analysis_prompt", JStr "Term?");
                                       ("relevant_clauses_found", JInt 2)]) |} in
  let first := handle request net w0 in
  let second := handle request NetSilent (elapse 1000 (snd first)) in
  success net <> None /\
  network_calls (effects (handle request net) w0) = 1%nat /\
  clock (elapse 1000 (snd first)) - clock (snd first) < CACHE_TTL /\
  network_calls (effects (handle request NetSilent) (elapse 1000 (snd first))) = 0%nat /\
  (exists r1 r2, fst first = Returned r1 /\ fst second = Returned r2 /\ r1 <> r2).
Proof.
  cbv zeta. split; [discriminate|]. split; [vm_compute; reflexivity|].
  split; [vm_compute; reflexivity|]. split; [vm_compute; reflexivity|].
  eexists _, _. split; [vm_compute; reflexivity|].
  split; [vm_compute; reflexivity|]. discriminate.
Qed.

(** C2 (amended). Let a request with a cache key (health-check, search,
    analyze, enhanced analysis) miss the cache and fetch successfully; the
    result is stored under the request's key with the time of completion.
    A request with the same action and parameters that finds this entry
    less than 60 000 ms after that time makes no network call, and its
    response equals the first for health-check, search and analyze (for
    the enhanced analysis it equals the first up to the [timestamp]
    property); one that finds it 60 000 ms after or later calls the backend
    again. *)
Theorem C2_cached_within_ttl_refetched_after :
  forall (request : Request) (key : string) (net1 : Net) (w : World) (v : JsVal),
    cacheKey_of request = Some key ->
    fresh (cache w !! key) (clock w) = None ->
    success net1 = Some v ->
    exists r1 w1 stored,
      handle request net1 w = (Returned r1, w1) /\
      network_calls (effects (handle request net1) w) = 1%nat /\
      cache w1 !! key = Some {| data := stored; timestamp := clock w1 |} /\
      forall (net2 : Net) (w2 : World),
        cache w2 !! key = cache w1 !! key ->
        (clock w2 - clock w1 < CACHE_TTL ->
         exists r2,
           handle request net2 w2 = (Returned r2, emit (CacheGet key) w2) /\
           network_calls (effects (handle request net2) w2) = 0%nat /\
           (caching_action (action request) -> r2 = r1) /\
           without_timestamp r2 = without_timestamp r1) /\
        (CACHE_TTL <= clock w2 - clock w1 ->
         network_calls (effects (handle request net2) w2) = 1%nat).
Proof.
  intros request key net1 w v Hkey Hmiss Hok.
  destruct (handle_success request net1 w key v Hkey Hmiss Hok)
    as (r1 & w1 & sent & stored & Hsent & Hrun & Htr & Hc & Hcach & Henh).
  exists r1, w1, stored. split; [exact Hrun|]. split.
  { rewrite (effects_of_trace w (handle request net1) [CacheGet key; sent; CacheSet key]).
    - apply network_calls_stored, Hsent.
    - rewrite Hrun. exact Htr. }
  assert (Hentry : cache w1 !! key = Some {| data := stored; timestamp := clock w1 |}).
  { rewrite Hc. apply lookup_insert_eq. }
  split; [exact Hentry|].
  intros net2 w2 Hsame. rewrite Hentry in Hsame. split.
  - intros Hin.
    destruct (handle_hit request net2 w2 key stored Hkey
                (fresh_within _ _ _ _ _ Hsame Hin)) as (r2 & Hrun2 & Hc2 & He2).
    exists r2. split; [exact Hrun2|]. split.
    { rewrite (effects_of_trace w2 (handle request net2) [CacheGet key]).
      - reflexivity.
      - rewrite Hrun2. reflexivity. }
    split.
    + intros Hact. rewrite (Hc2 Hact). apply Hcach, Hact.
    + destruct (cacheKey_of_cases request key Hkey)
        as [[Ha _]|[[Ha _]|(doc & [Ha|Ha] & _)]].
      * f_equal. rewrite Hc2, <- Hcach; unfold caching_action; auto.
      * f_equal. rewrite Hc2, <- Hcach; unfold caching_action; auto.
      * f_equal. rewrite Hc2, <- Hcach; unfold caching_action; auto.
      * rewrite (He2 Ha), (Henh Ha). reflexivity.
  - intros Hout.
    pose proof (fresh_stale _ _ _ _ _ Hsame Hout) as Hstale.
    destruct (handle_cached_shape request net2 w2 key Hkey) as (sent2 & Hs2 & Hshape).
    rewrite Hstale in Hshape.
    destruct Hshape as [[Ht _]|[Ht _]];
      rewrite (effects_of_trace w2 (handle request net2) _ Ht).
    + apply network_calls_miss, Hs2.
    + apply network_calls_stored, Hs2.
Qed.

Lemma C2_cached_within_ttl_refetched_after_witness :
  let w0 := {| cache := ∅; clock := 1000; trace := [] |} in
  let request := {| action := "SEARCH_CUAD"; query := Some "indemnity";
                    nResults := None; documentText := None; question := None |} in
  let net := NetResponds 100 {| status := 200; body_ms := 2;
                                body := BodyJson (JArr [JStr "clause"]) |} in
  exists r1 w1,
    handle request net w0 = (Returned r1, w1) /\
    (forall net2, fst (handle request net2 (elapse 59999 w1)) = Returned r1) /\
    (forall net2,
       network_calls (effects (handle request net2) (elapse 60000 w1)) = 1%nat).
Proof.
  intros w0 request net.
  destruct (C2_cached_within_ttl_refetched_after request "search_indemnity_3"
              net w0 (JArr [JStr "clause"]) eq_refl eq_refl eq_refl)
    as (r1 & w1 & stored & Hrun & _ & _ & Hnext).
  exists r1, w1. split; [exact Hrun|]. split.
  - intros net2.
    destruct (Hnext net2 (elapse 59999 w1) eq_refl) as [Hin _].
    destruct Hin as (r2 & Hrun2 & _ & Heq & _).
    { simpl. unfold CACHE_TTL. lia. }
    rewrite Hrun2. simpl. f_equal. apply Heq. right; left; reflexivity.
  - intros net2.
    destruct (Hnext net2 (elapse 60000 w1) eq_refl) as [_ Hout].
    apply Hout. simpl. unfold CACHE_TTL. lia.
Defined.

(** C3. The lookup the three functions share yields a value exactly when
    the key has an entry whose age, now minus its timestamp, is below
    60 000 ms; it changes nothing in the cache, so a stale entry stays
    where it is, and no request ever removes an entry; a store puts its
    entry under the key whatever was there, leaving the other keys alone. *)
Theorem C3_ttl_cache_lookup_and_store :
  CACHE_TTL = 60000 /\
  (forall (c : gmap string CacheEntry) (key : string) (now : Z) (v : JsVal),
     fresh (c !! key) now = Some v <->
     exists e, c !! key = Some e /\ now - timestamp e < 60000 /\ data e = v) /\
  (forall (key : string) (w : World),
     fst (lookup_fresh key w) = Returned (fresh (cache w !! key) (clock w)) /\
     cache (snd (lookup_fresh key w)) = cache w) /\
  (forall (request : Request) (net : Net) (w : World) (key : string),
     is_Some (cache w !! key) ->
     is_Some (cache (snd (handle request net w)) !! key)) /\
  (forall (key : string) (v : JsVal) (w : World),
     cache (snd (store key v w)) !! key
     = Some {| data := v; timestamp := clock w |} /\
     forall key', key' <> key ->
       cache (snd (store key v w)) !! key' = cache w !! key').
Proof.
  split; [reflexivity|]. split; [exact fresh_iff|].
  split; [intros key w; split; reflexivity|].
  split; [intros request net w key; apply handle_keeps_entries|].
  intros key v w. rewrite store_run. cbn [snd emit cache]. split.
  - apply lookup_insert_eq.
  - intros key' Hne. apply lookup_insert_ne. congruence.
Qed.

Lemma C3_ttl_cache_lookup_and_store_witness :
  let stale := {| data := JStr "old"; timestamp := 0 |} in
  let w0 := {| cache := {[ "health_check" := stale ]}; clock := 60000; trace := [] |} in
  let request := {| action := "CHECK_CUAD_HEALTH"; query := None; nResults := None;
                    documentText := None; question := None |} in
  fresh (cache w0 !! "health_check") 59999 = Some (JStr "old") /\
  fresh (cache w0 !! "health_check") 60000 = None /\
  is_Some (cache (snd (handle request NetSilent w0)) !! "health_check").
Proof.
  intros stale w0 request.
  destruct C3_ttl_cache_lookup_and_store as (_ & Hfresh & _ & Hkeep & _).
  split; [|split].
  - apply Hfresh. exists stale. repeat split.
  - reflexivity.
  - apply Hkeep. exists stale. reflexivity.
Defined.

(** C10. Two analyze requests whose documents agree on their first 50
    characters and whose questions are equal have the same cache key; so
    when the first has fetched its analysis successfully, the second, if it
    finds that entry less than 60 000 ms old, is answered with the analysis
    computed for the first request's document, without a network call. *)
Theorem C10_analyze_key_ignores_text_after_50 :
  forall (request1 request2 : Request) (doc1 doc2 : string),
    action request1 = "ANALYZE_WITH_CUAD" ->
    action request2 = "ANALYZE_WITH_CUAD" ->
    documentText request1 = Some doc1 ->
    documentText request2 = Some doc2 ->
    substring0 50 doc1 = substring0 50 doc2 ->
    question request1 = question request2 ->
    let key := analyze_key doc1 (question request1) in
      cacheKey_of request1 = Some key /\ cacheKey_of request2 = Some key /\
      forall (net1 : Net) (w : World) (v : JsVal),
        fresh (cache w !! key) (clock w) = None ->
        success net1 = Some v ->
        exists w1,
          handle request1 net1 w = (Returned v, w1) /\
          In (Fetch "POST" analyze_url (analyze_payload doc1 (question request1)))
             (effects (handle request1 net1) w) /\
          forall (net2 : Net) (w2 : World),
            cache w2 !! key = cache w1 !! key ->
            clock w2 - clock w1 < CACHE_TTL ->
            handle request2 net2 w2 = (Returned v, emit (CacheGet key) w2) /\
            network_calls (effects (handle request2 net2) w2) = 0%nat.
Proof.
  intros request1 request2 doc1 doc2 Ha1 Ha2 Hd1 Hd2 Hpre Hq key. subst key.
  assert (Hk1 : cacheKey_of request1 = Some (analyze_key doc1 (question request1))).
  { unfold cacheKey_of. rewrite Ha1, Hd1. reflexivity. }
  assert (Hk2 : cacheKey_of request2 = Some (analyze_key doc1 (question request1))).
  { unfold cacheKey_of, analyze_key. rewrite Ha2, Hd2, Hpre, Hq. reflexivity. }
  split; [exact Hk1|]. split; [exact Hk2|].
  intros net1 w v Hmiss Hok.
  destruct (analyzeSimple_success w net1 doc1 _ v Hmiss Hok) as (w1 & Hrun & Hc & Ht).
  assert (Hh : handle request1 net1 w = (Returned v, w1)).
  { apply handle_returned. rewrite dispatch_analyze by exact Ha1.
    rewrite Hd1. exact Hrun. }
  exists w1. split; [exact Hh|]. split.
  { rewrite (effects_of_trace w (handle request1 net1) _
               ltac:(rewrite Hh; exact Ht)).
    right; left; reflexivity. }
  intros net2 w2 Hsame Hin.
  rewrite Hc, lookup_insert_eq in Hsame.
  destruct (handle_hit request2 net2 w2 _ v Hk2 (fresh_within _ _ _ _ _ Hsame Hin))
    as (r2 & Hrun2 & Heq & _).
  rewrite (Heq ltac:(rewrite Ha2; right; right; reflexivity)) in Hrun2.
  split; [exact Hrun2|].
  rewrite (effects_of_trace w2 (handle request2 net2)
             [CacheGet (analyze_key doc1 (question request1))]).
  - reflexivity.
  - rewrite Hrun2. reflexivity.
Qed.

Lemma C10_analyze_key_ignores_text_after_50_witness :
  let head := "0123456789012345678901234567890123456789012345678 " in
  let request doc := {| action := "ANALYZE_WITH_CUAD"; query := None; nResults := None;
                        documentText := Some doc; question := Some "Risk?" |} in
  let w0 := {| cache := ∅; clock := 0; trace := [] |} in
  let net := NetResponds 10 {| status := 200; body_ms := 0;
                               body := BodyJson (JStr "analysis of the lease") |} in
  head +:+ "lease" <> head +:+ "loan" /\
  exists w1,
    handle (request (head +:+ "lease")) net w0
    = (Returned (JStr "analysis of the lease"), w1) /\
    fst (handle (request (head +:+ "loan")) NetSilent (elapse 5 w1))
    = Returned (JStr "analysis of the lease").
Proof.
  intros head request w0 net. split; [discriminate|].
  destruct (C10_analyze_key_ignores_text_after_50
              (request (head +:+ "lease")) (request (head +:+ "loan"))
              (head +:+ "lease") (head +:+ "loan")
              eq_refl eq_refl eq_refl eq_refl eq_refl eq_refl)
    as (_ & _ & Hnext).
  destruct (Hnext net w0 (JStr "analysis of the lease") eq_refl eq_refl)
    as (w1 & Hrun & _ & Hsecond).
  exists w1. split; [exact Hrun|].
  destruct (Hsecond NetSilent (elapse 5 w1) eq_refl) as [Hrun2 _].
  { simpl. unfold CACHE_TTL. lia. }
  rewrite Hrun2. reflexivity.
Defined.

(** ** Failures of the backend *)

Lemma getFallbackClauses_source (query : string) (n : Z) :
  Forall (fun c => source (metadata c) = "fallback") (getFallbackClauses query n).
Proof.
  assert (Hall : Forall (fun c => source (metadata c) = "fallback") sampleClauses)
    by (repeat constructor).
  unfold getFallbackClauses, filterClauses, slice0.
  destruct (_ <? _)%Z; apply Forall_take; [|exact Hall].
  rewrite Forall_forall in *. intros c Hc. apply Hall.
  apply list_elem_of_In. apply list_elem_of_In in Hc.
  apply List.filter_In in Hc. tauto.
Qed.

(** C1 as stated fails: a search that times out is answered with the bare
    array of fallback clauses, which has no [fallback] property. *)
Lemma C1_counterexample_search_fallback_unflagged :
  let w0 := {| cache := ∅; clock := 0; trace := [] |} in
  let request := {| action := "SEARCH_CUAD"; query := Some "termination";
                    nResults := Some 1; documentText := None; question := None |} in
  failure_mode NetSilent = Some ModeTimeout /\
  exists items,
    fst (handle request NetSilent w0) = Returned (JArr items) /\
    get_prop (JArr items) "fallback" = inr JUndefined.
Proof.
  split; [reflexivity|]. eexists. split; [vm_compute; reflexivity|reflexivity].
Qed.

(** C1 (amended). When no fresh entry is cached and the backend call fails
    (by timeout, network error, non-2xx status or malformed payload for a
    search or an analyze request with its text; by timeout, network error
    or malformed payload for a health-check), the listener answers, without
    throwing, with the fallback of the action and leaves the cache as it
    was: the health-check's error object, which carries [fallback: true];
    the array of fallback clauses, which carries no such property, each
    clause being marked by its metadata source "fallback"; the analyze
    fallback object, which is marked by its status "fallback" and carries no
    [fallback] property. *)
Theorem C1_failures_answered_with_fallback :
  forall (request : Request) (net : Net) (w : World) (mode : FailureMode)
         (key : string),
    caching_action (action request) ->
    cacheKey_of request = Some key ->
    fresh (cache w !! key) (clock w) = None ->
    failure_mode net = Some mode ->
    (action request = "CHECK_CUAD_HEALTH" -> mode <> ModeNon2xx) ->
    (action request = "SEARCH_CUAD" -> query request <> None) ->
    exists v w',
      handle request net w = (Returned v, w') /\
      cache w' = cache w /\
      ((action request = "CHECK_CUAD_HEALTH" /\
        (exists message, v = health_error message) /\
        get_prop v "fallback" = inr (JBool true))
       \/
       (action request = "SEARCH_CUAD" /\
        (exists q, query request = Some q /\
           v = JArr (clause_obj <$>
                      getFallbackClauses q (nResults_or_3 (nResults request))) /\
           Forall (fun c => source (metadata c) = "fallback")
             (getFallbackClauses q (nResults_or_3 (nResults request)))) /\
        get_prop v "fallback" = inr JUndefined)
       \/
       (action request = "ANALYZE_WITH_CUAD" /\
        (exists doc, documentText request = Some doc /\
           v = analyze_fallback doc (question request)) /\
        get_prop v "status" = inr (JStr "fallback") /\
        get_prop v "fallback" = inr JUndefined)).
Proof.
  intros request net w mode key Hact Hkey Hmiss Hfail Hhealth Hsearch.
  destruct (cacheKey_of_cases request key Hkey)
    as [[Ha ->]|[[Ha ->]|(doc & Ha & Hdoc & ->)]].
  - destruct (checkCUADHealth_failure w net mode Hmiss Hfail (Hhealth Ha))
      as (message & w' & Hrun & Hc & _).
    exists (health_error message), w'. split.
    { apply handle_returned. rewrite dispatch_health by exact Ha. exact Hrun. }
    split; [exact Hc|]. left. eauto.
  - destruct (query request) as [q|] eqn:Hq; [|destruct (Hsearch Ha eq_refl)].
    destruct (searchCUADSimple_failure w net q _ mode Hmiss Hfail)
      as (w' & Hrun & Hc & _).
    eexists _, w'. split.
    { apply handle_returned. rewrite dispatch_search by exact Ha.
      rewrite Hq. exact Hrun. }
    split; [exact Hc|]. right; left. split; [exact Ha|]. split; [|reflexivity].
    exists q. split; [reflexivity|]. split; [reflexivity|].
    apply getFallbackClauses_source.
  - destruct Ha as [Ha|Ha];
      [|rewrite Ha in Hact; destruct Hact as [H|[H|H]]; discriminate].
    destruct (analyzeSimple_failure w net doc _ mode Hmiss Hfail)
      as (w' & Hrun & Hc & _).
    eexists _, w'. split.
    { apply handle_returned. rewrite dispatch_analyze by exact Ha.
      rewrite Hdoc. exact Hrun. }
    split; [exact Hc|]. right; right. split; [exact Ha|].
    split; [eauto|]. split; reflexivity.
Qed.

Lemma C1_failures_answered_with_fallback_witness :
  let w0 := {| cache := ∅; clock := 0; trace := [] |} in
  let request := {| action := "CHECK_CUAD_HEALTH"; query := None; nResults := None;
                    documentText := None; question := None |} in
  let net := NetResponds 25 {| status := 200; body_ms := 1;
                               body := BodyMalformed "Unexpected token < in JSON" |} in
  exists v w',
    handle request net w0 = (Returned v, w') /\
    get_prop v "fallback" = inr (JBool true).
Proof.
  intros w0 request net.
  destruct (C1_failures_answered_with_fallback request net w0
              ModeMalformedPayload "health_check")
    as (v & w' & Hrun & _ & Hcases).
  - left. reflexivity.
  - reflexivity.
  - reflexivity.
  - reflexivity.
  - discriminate.
  - discriminate.
  - exists v, w'. split; [exact Hrun|].
    destruct Hcases as [(_ & _ & Hflag)|[(Ha & _)|(Ha & _)]];
      [exact Hflag|discriminate Ha|discriminate Ha].
Defined.

(** C4: the failing input.  A health-check whose backend answers 503 with
    a JSON body is a failed call (non-2xx status); [checkCUADHealth], unlike
    [searchCUADSimple] and [analyzeSimple], does not test [response.ok], so
    it stores a "healthy" entry, and a later health-check is served that
    entry without any network call. *)
Theorem C4_health_non_2xx_is_cached :
  let w0 := {| cache := ∅; clock := 0; trace := [] |} in
  let request := {| action := "CHECK_CUAD_HEALTH"; query := None; nResults := None;
                    documentText := None; question := None |} in
  let down := JObj [("detail", JStr "Service Unavailable")] in
  let net := NetResponds 30 {| status := 503; body_ms := 1; body := BodyJson down |} in
  let after := snd (handle request net w0) in
  failure_mode net = Some ModeNon2xx /\
  fst (handle request net w0) = Returned (healthy down) /\
  cache_writes (effects (handle request net) w0) = 1%nat /\
  cache after !! "health_check" = Some {| data := healthy down; timestamp := 31 |} /\
  cache after <> cache w0 /\
  handle request NetSilent (elapse 1000 after)
  = (Returned (healthy down), emit (CacheGet "health_check") (elapse 1000 after)).
Proof.
  cbv zeta. split; [reflexivity|]. split; [vm_compute; reflexivity|].
  split; [vm_compute; reflexivity|]. split; [vm_compute; reflexivity|].
  split; [|vm_compute; reflexivity].
  intros H. apply (f_equal (fun c => c !! "health_check")) in H.
  vm_compute in H. discriminate.
Qed.

(** Apart from that case the cache is written as C4 says: a successful
    call of a caching request writes exactly one entry, under the request's
    key; a failed call writes none. *)
Lemma success_writes_one_entry request net w key v :
  cacheKey_of request = Some key ->
  fresh (cache w !! key) (clock w) = None ->
  success net = Some v ->
  cache_writes (effects (handle request net) w) = 1%nat /\
  exists stored,
    cache (snd (handle request net w))
    = <[key := {| data := stored; timestamp := clock (snd (handle request net w)) |}]>
        (cache w).
Proof.
  intros Hkey Hmiss Hok.
  destruct (handle_success request net w key v Hkey Hmiss Hok)
    as (r & w' & sent & stored & Hsent & Hrun & Ht & Hc & _).
  rewrite Hrun. cbn [snd]. split; [|eauto].
  rewrite (effects_of_trace w (handle request net) [CacheGet key; sent; CacheSet key]).
  - unfold cache_writes. simpl. destruct sent; try discriminate. reflexivity.
  - rewrite Hrun. exact Ht.
Qed.

Lemma searchCUADSimple_failure_world w net q n mode :
  fresh (cache w !! search_key q n) (clock w) = None ->
  failure_mode net = Some mode ->
  cache (snd (searchCUADSimple q n net w)) = cache w /\
  trace (snd (searchCUADSimple q n net w))
  = trace w ++ [ CacheGet (search_key q n);
                 Fetch "POST" search_url (search_payload q n) ].
Proof.
  intros Hmiss Hfail. unfold searchCUADSimple. run_M. rewrite Hmiss.
  rewrite fetchWithTimeout_run.
  unfold failure_mode in Hfail. change (TIMEOUT CONFIG) with 10000 in Hfail.
  assert (Hdone : forall (e : string) w1,
            cache w1 = cache w ->
            trace w1 = trace w ++ [ CacheGet (search_key q n);
                                    Fetch "POST" search_url (search_payload q n) ] ->
            cache (snd (fallback_search q n w1)) = cache w /\
            trace (snd (fallback_search q n w1))
            = trace w ++ [ CacheGet (search_key q n);
                           Fetch "POST" search_url (search_payload q n) ]).
  { intros e w1 Hc Ht. destruct q; simpl; auto. }
  destruct net as [d r|d m|].
  - destruct (d <? 10000); run_M.
    + destruct (ok r); run_M.
      * destruct (body r) as [v'| |]; try discriminate. run_M.
        apply (Hdone ""); cbn [cache trace elapse emit];
          rewrite <- ?app_assoc; reflexivity.
      * apply (Hdone ""); cbn [cache trace elapse emit];
          rewrite <- ?app_assoc; reflexivity.
    + apply (Hdone ""); cbn [cache trace elapse emit];
        rewrite <- ?app_assoc; reflexivity.
  - destruct (d <? 10000); run_M;
      apply (Hdone ""); cbn [cache trace elapse emit];
        rewrite <- ?app_assoc; reflexivity.
  - run_M. apply (Hdone ""); cbn [cache trace elapse emit];
      rewrite <- ?app_assoc; reflexivity.
Qed.

Lemma failure_leaves_cache request net w key mode :
  cacheKey_of request = Some key ->
  fresh (cache w !! key) (clock w) = None ->
  failure_mode net = Some mode ->
  (action request = "CHECK_CUAD_HEALTH" -> mode <> ModeNon2xx) ->
  cache (snd (handle request net w)) = cache w /\
  cache_writes (effects (handle request net) w) = 0%nat.
Proof.
  intros Hkey Hmiss Hfail Hhealth.
  assert (Hgoal : exists sent,
            cache (snd (dispatch request net w)) = cache w /\
            trace (snd (dispatch request net w)) = trace w ++ [CacheGet key; sent]).
  { destruct (cacheKey_of_cases request key Hkey)
      as [[Ha ->]|[[Ha ->]|(doc & Ha & Hdoc & ->)]].
    - destruct (checkCUADHealth_failure w net mode Hmiss Hfail (Hhealth Ha))
        as (message & w' & Hrun & Hc & Ht).
      rewrite dispatch_health by exact Ha. rewrite Hrun. eauto.
    - rewrite dispatch_search by exact Ha.
      destruct (searchCUADSimple_failure_world w net _ _ mode Hmiss Hfail). eauto.
    - destruct (analyzeSimple_failure w net doc _ mode Hmiss Hfail)
        as (w' & Hrun & Hc & Ht).
      rewrite <- Hdoc in Hrun. destruct Ha as [Ha|Ha].
      + rewrite dispatch_analyze by exact Ha. rewrite Hrun. eauto.
      + rewrite dispatch_enhanced_world by exact Ha. rewrite Hrun. eauto. }
  destruct Hgoal as (sent & Hc & Ht). rewrite handle_world.
  split; [exact Hc|].
  rewrite (effects_of_trace w (handle request net) [CacheGet key; sent]).
  - unfold cache_writes. simpl.
    destruct (handle_cached_shape request net w key Hkey) as (sent' & Hs' & Hshape).
    rewrite Hmiss, handle_world in Hshape.
    destruct Hshape as [[Ht' _]|[Ht' _]]; rewrite Ht' in Ht;
      apply app_inv_head in Ht; [|discriminate].
    injection Ht as <-. destruct sent'; try discriminate. reflexivity.
  - rewrite handle_world. exact Ht.
Qed.

(** ** Requests answered without the cache or the network *)

Lemma known_action_cases (a : string) :
  In a known_actions <->
  a = "CHECK_CUAD_HEALTH" \/ a = "SEARCH_CUAD" \/ a = "ANALYZE_WITH_CUAD" \/
  a = "GET_GPT_RESPONSE" \/ a = "GET_ENHANCED_RESPONSE" \/ a = "PING".
Proof. unfold known_actions. simpl. intuition congruence. Qed.

Lemma cacheKey_of_none (request : Request) :
  cacheKey_of request = None <->
  ~ In (action request) known_actions \/
  action request = "PING" \/
  action request = "GET_GPT_RESPONSE" \/
  ((action request = "ANALYZE_WITH_CUAD" \/
    action request = "GET_ENHANCED_RESPONSE") /\
   documentText request = None).
Proof.
  rewrite known_action_cases. unfold cacheKey_of.
  destruct (String.eqb_spec (action request) "CHECK_CUAD_HEALTH") as [Ha|H1].
  { rewrite Ha. split; [discriminate|].
    intros [H|[H|[H|[[H|H] _]]]]; try discriminate. destruct H. auto. }
  destruct (String.eqb_spec (action request) "SEARCH_CUAD") as [Ha|H2].
  { rewrite Ha. split; [discriminate|].
    intros [H|[H|[H|[[H|H] _]]]]; try discriminate. destruct H. auto. }
  destruct (String.eqb_spec (action request) "ANALYZE_WITH_CUAD") as [Ha|H3].
  { simpl. rewrite Ha. destruct (documentText request) as [doc|]; simpl.
    - split; [discriminate|].
      intros [H|[H|[H|[_ H]]]]; try discriminate. destruct H. auto.
    - split; [auto 10|reflexivity]. }
  destruct (String.eqb_spec (action request) "GET_ENHANCED_RESPONSE") as [Ha|H4].
  { simpl. rewrite Ha. destruct (documentText request) as [doc|]; simpl.
    - split; [discriminate|].
      intros [H|[H|[H|[_ H]]]]; try discriminate. destruct H. auto 10.
    - split; [auto 10|reflexivity]. }
  simpl. split; [|reflexivity]. intros _.
  destruct (String.eqb_spec (action request) "PING") as [Ha|H5]; [auto|].
  destruct (String.eqb_spec (action request) "GET_GPT_RESPONSE") as [Ha|H6]; [auto|].
  left. intuition congruence.
Qed.

Lemma dispatch_unknown (request : Request) (net : Net) (w : World) :
  ~ In (action request) known_actions ->
  dispatch request net w
  = (Returned (JObj [ ("error", JStr "Unknown action");
                      ("action", JStr (action request)) ]), w).
Proof.
  rewrite known_action_cases. intros Hun. unfold dispatch.
  repeat match goal with
         | |- context [String.eqb (action request) ?s] =>
             destruct (String.eqb_spec (action request) s) as [Ha|_];
             [exfalso; apply Hun; rewrite Ha; auto 10|]
         end.
  reflexivity.
Qed.

(** C6 as stated fails: the liveness probe is one of the enumerated
    actions and is answered without any cache lookup, cache write or network
    call; and the error text of an unknown action is "Unknown action", in an
    object that has no [fallback] property. *)
Lemma C6_counterexample_ping_uses_neither :
  let w0 := {| cache := ∅; clock := 5; trace := [] |} in
  let ping := {| action := "PING"; query := None; nResults := None;
                 documentText := None; question := None |} in
  let other := {| action := "DELETE_ALL"; query := None; nResults := None;
                  documentText := None; question := None |} in
  In (action ping) known_actions /\
  handle ping NetSilent w0
  = (Returned (JObj [("status", JStr "pong"); ("timestamp", JInt 5)]), w0) /\
  effects (handle ping NetSilent) w0 = [] /\
  ~ In (action other) known_actions /\
  (exists v, fst (handle other NetSilent w0) = Returned v /\
     get_prop v "error" = inr (JStr "Unknown action") /\
     get_prop v "error" <> inr (JStr "unknown action") /\
     get_prop v "fallback" = inr JUndefined).
Proof.
  cbv zeta. split; [simpl; auto 10|]. split; [reflexivity|].
  split; [reflexivity|]. split.
  - rewrite known_action_cases. simpl. intuition discriminate.
  - eexists. split; [vm_compute; reflexivity|].
    split; [reflexivity|]. split; [discriminate|reflexivity].
Qed.

(** C6 (amended). A request whose action is none of the six enumerated is
    answered at once with the object [{error: "Unknown action", action}],
    which has no [fallback] property, and the world is left untouched: no
    cache lookup, no cache write, no network call.  It is not the only such
    request: the requests that perform no effect are exactly those with an
    unknown action, the liveness probe, the chat completion, and an
    analysis (plain or enhanced) sent without document text. *)
Theorem C6_unknown_action_answered_directly :
  forall (request : Request) (net : Net) (w : World),
    (~ In (action request) known_actions ->
     handle request net w
     = (Returned (JObj [ ("error", JStr "Unknown action");
                         ("action", JStr (action request)) ]), w) /\
     get_prop (JObj [ ("error", JStr "Unknown action");
                      ("action", JStr (action request)) ]) "fallback"
     = inr JUndefined) /\
    (effects (handle request net) w = [] <->
     ~ In (action request) known_actions \/
     action request = "PING" \/
     action request = "GET_GPT_RESPONSE" \/
     ((action request = "ANALYZE_WITH_CUAD" \/
       action request = "GET_ENHANCED_RESPONSE") /\
      documentText request = None)) /\
    (effects (handle request net) w = [] -> snd (handle request net w) = w).
Proof.
  intros request net w.
  assert (Hiff : effects (handle request net) w = [] <-> cacheKey_of request = None).
  { destruct (cacheKey_of request) as [key|] eqn:Hkey.
    - split; [|discriminate]. intros Heff. exfalso.
      destruct (handle_cached_shape request net w key Hkey) as (sent & _ & Hs).
      assert (Hne : exists l, trace (snd (handle request net w))
                              = trace w ++ CacheGet key :: l).
      { destruct (fresh (cache w !! key) (clock w)).
        - destruct Hs as [-> _]. exists []. reflexivity.
        - destruct Hs as [[-> _]|[-> _]]; eauto. }
      destruct Hne as (l & Hl).
      rewrite (effects_of_trace w (handle request net) _ Hl) in Heff.
      discriminate.
    - split; [reflexivity|]. intros _.
      unfold effects. rewrite handle_no_key by exact Hkey. apply drop_all. }
  split; [|split].
  - intros Hun. split; [|reflexivity].
    apply handle_returned, dispatch_unknown, Hun.
  - rewrite Hiff. apply cacheKey_of_none.
  - intros Heff. apply handle_no_key, Hiff, Heff.
Qed.

Lemma C6_unknown_action_answered_directly_witness :
  let w0 := {| cache := ∅; clock := 5; trace := [] |} in
  let request := {| action := "DELETE_ALL"; query := None; nResults := None;
                    documentText := None; question := None |} in
  handle request NetSilent w0
  = (Returned (JObj [ ("error", JStr "Unknown action");
                      ("action", JStr "DELETE_ALL") ]), w0).
Proof.
  intros w0 request.
  destruct (C6_unknown_action_answered_directly request NetSilent w0)
    as (Hunknown & _ & _).
  apply Hunknown. rewrite known_action_cases. simpl. intuition discriminate.
Defined.

(** * Further properties of the background script *)

(** ** The listener as a whole *)

(** The listener never throws, and it reaches its [sendResponse] in every
    case but one: the run stays pending, the sender never answered, exactly
    when the request has a cache key, finds no fresh entry under it, and the
    response of its backend call arrives before the deadline (with a 2xx
    status, for a search or an analysis) with a body that stalls; the timer
    is cleared by then and nothing bounds [response.json()].  In particular
    a backend that stalls on no body is always answered. *)
Theorem listener_answers_unless_the_body_stalls :
  forall (request : Request) (net : Net) (w : World),
    (forall e, fst (handle request net w) <> Thrown e) /\
    (fst (handle request net w) = Pending <->
     waits_for_body request net w = true) /\
    (waits_for_body request net w = true <->
     exists key d r,
       cacheKey_of request = Some key /\
       fresh (cache w !! key) (clock w) = None /\
       net = NetResponds d r /\ d < 10000 /\ body r = BodyStalls /\
       (action request = "CHECK_CUAD_HEALTH" \/ ok r = true)) /\
    (stalls net = false -> exists v, fst (handle request net w) = Returned v).
Proof.
  intros request net w.
  assert (Hstalls : forall n, stalls n = true <->
            exists d r, n = NetResponds d r /\ d < 10000 /\ body r = BodyStalls).
  { intros n. unfold stalls. change (TIMEOUT CONFIG) with 10000.
    destruct n as [d r|d m|].
    - destruct (Z.ltb_spec d 10000), (body r) eqn:Hb; simpl; split;
        try discriminate; try (intros (d' & r' & [= <- <-] & Hd & Hb'); congruence || lia).
      intros _. eauto.
    - split; [discriminate|intros (d' & r' & H & _); discriminate].
    - split; [discriminate|intros (d' & r' & H & _); discriminate]. }
  split; [intros e; apply handle_never_throws|].
  split; [apply handle_pending_iff|]. split.
  - unfold waits_for_body.
    destruct (cacheKey_of request) as [key|] eqn:Hkey;
      [|split; [discriminate|intros (k & d & r & H & _); discriminate]].
    destruct (fresh (cache w !! key) (clock w)) eqn:Hf.
    { split; [discriminate|].
      intros (k & d & r & [= <-] & Hf' & _). congruence. }
    destruct (String.eqb_spec (action request) "CHECK_CUAD_HEALTH") as [Ha|Ha].
    + rewrite Hstalls. split.
      * intros (d & r & Hn & Hd & Hb). exists key, d, r. auto 8.
      * intros (k & d & r & _ & _ & Hn & Hd & Hb & _). eauto.
    + unfold stalls_ok. destruct net as [d r|d m|].
      * rewrite andb_true_iff, Hstalls. split.
        -- intros [(d' & r' & [= <- <-] & Hd & Hb) Hok]. exists key, d, r. auto 8.
        -- intros (k & d' & r' & _ & _ & [= <- <-] & Hd & Hb & [Hc|Hok]);
             [contradiction|]. split; [eauto|exact Hok].
      * split; [discriminate|intros (k & d' & r' & _ & _ & H & _); discriminate].
      * split; [discriminate|intros (k & d' & r' & _ & _ & H & _); discriminate].
  - intros Hs. apply handle_resolves. unfold waits_for_body.
    destruct (cacheKey_of request); [|reflexivity].
    destruct (fresh _ _); [reflexivity|].
    unfold stalls_ok. rewrite Hs. destruct net, (String.eqb _ _); reflexivity.
Qed.

Lemma listener_answers_unless_the_body_stalls_witness :
  let w0 := {| cache := ∅; clock := 0; trace := [] |} in
  let request := {| action := "SEARCH_CUAD"; query := Some "notice";
                    nResults := None; documentText := None; question := None |} in
  let stalled := NetResponds 40 {| status := 200; body := BodyStalls; body_ms := 0 |} in
  fst (handle request stalled w0) = Pending /\
  exists v, fst (handle request NetSilent w0) = Returned v.
Proof.
  intros w0 request stalled. split.
  - destruct (listener_answers_unless_the_body_stalls request stalled w0)
      as (_ & Hpending & _).
    apply Hpending. reflexivity.
  - destruct (listener_answers_unless_the_body_stalls request NetSilent w0)
      as (_ & _ & _ & Hanswered).
    apply Hanswered. reflexivity.
Defined.

Section ListenerFrame.

Context (request : Request) (net : Net) (w : World).

(** The effects of a request, by the outcome of its lookup. *)
Lemma handle_effects_cases :
  effects (handle request net) w = [] /\ snd (handle request net w) = w \/
  exists key sent,
    cacheKey_of request = Some key /\ is_fetch sent = true /\
    (effects (handle request net) w = [CacheGet key] /\
     cache (snd (handle request net w)) = cache w \/
     effects (handle request net) w = [CacheGet key; sent] /\
     cache (snd (handle request net w)) = cache w \/
     effects (handle request net) w = [CacheGet key; sent; CacheSet key] /\
     exists v,
       cache (snd (handle request net w))
       = <[key := {| data := v;
                     timestamp := clock (snd (handle request net w)) |}]>
           (cache w)).
Proof.
  destruct (cacheKey_of request) as [key|] eqn:Hkey.
  - right. destruct (handle_cached_shape request net w key Hkey)
      as (sent & Hsent & Hs).
    exists key, sent. split; [reflexivity|]. split; [exact Hsent|].
    destruct (fresh (cache w !! key) (clock w)).
    + left. destruct Hs as [Hw _]. rewrite Hw. split; [|reflexivity].
      apply effects_of_trace. rewrite Hw. reflexivity.
    + destruct Hs as [[Ht Hc]|[Ht (v & Hc & _)]].
      * right; left. split; [apply effects_of_trace, Ht|exact Hc].
      * right; right. split; [apply effects_of_trace, Ht|eauto].
  - left. rewrite (handle_no_key request net w Hkey). split; [|reflexivity].
    unfold effects. rewrite (handle_no_key request net w Hkey). apply drop_all.
Qed.

End ListenerFrame.


(** ** Requests with missing parameters *)

(** An analysis, plain or enhanced, sent without [documentText] is
    answered with the listener's error object, which reports the
    [TypeError] of [documentText.substring] and carries [fallback: true];
    the cache is not looked up and the backend is not called. *)
Theorem analysis_without_text_is_answered_with_error :
  forall (request : Request) (net : Net) (w : World),
    action request = "ANALYZE_WITH_CUAD" \/
    action request = "GET_ENHANCED_RESPONSE" ->
    documentText request = None ->
    handle request net w
    = (Returned
         (JObj [ ("error",
                  JStr "Cannot read properties of undefined (reading 'substring')");
                 ("fallback", JBool true);
                 ("timestamp", JStr (toISOString (clock w))) ]), w).
Proof.
  intros request net w [Ha|Ha] Hdoc; unfold handle, try_catch.
  - rewrite dispatch_analyze by exact Ha. rewrite Hdoc. reflexivity.
  - rewrite dispatch_enhanced by exact Ha. rewrite Hdoc. reflexivity.
Qed.

Lemma analysis_without_text_is_answered_with_error_witness :
  let w0 := {| cache := ∅; clock := 0; trace := [] |} in
  let request := {| action := "GET_ENHANCED_RESPONSE"; query := None;
                    nResults := None; documentText := None;
                    question := Some "What is the notice period?" |} in
  exists v, handle request NetSilent w0 = (Returned v, w0) /\
    get_prop v "timestamp" = inr (JStr "1970-01-01T00:00:00.000Z").
Proof.
  intros w0 request. eexists. split.
  - apply (analysis_without_text_is_answered_with_error request NetSilent w0).
    + right. reflexivity.
    + reflexivity.
  - reflexivity.
Defined.

(** A search sent without [query] computes the key of the literal query
    "undefined" and calls the backend without a query; when that call
    fails, [getFallbackClauses] throws on [query.toLowerCase()], and the
    request is answered with the listener's error object instead of the
    fallback clauses, the cache being left as it was. *)
Theorem search_without_query_fails_in_the_fallback :
  forall (request : Request) (net : Net) (w : World) (mode : FailureMode),
    action request = "SEARCH_CUAD" ->
    query request = None ->
    let n := nResults_or_3 (nResults request) in
    fresh (cache w !! search_key None n) (clock w) = None ->
    failure_mode net = Some mode ->
    search_key None n = search_key (Some "undefined") n /\
    exists w',
      handle request net w
      = (Returned
           (JObj [ ("error",
                    JStr "Cannot read properties of undefined (reading 'toLowerCase')");
                   ("fallback", JBool true);
                   ("timestamp", JStr (toISOString (clock w'))) ]), w') /\
      cache w' = cache w /\
      effects (handle request net) w
      = [ CacheGet (search_key None n);
          Fetch "POST" search_url
            (JObj [ ("query", JUndefined); ("n_results", JInt n);
                    ("min_similarity", JNum (dec 2 1)) ]) ].
Proof.
  intros request net w mode Ha Hq n Hmiss Hfail. split; [reflexivity|].
  assert (Hrun : exists w',
    searchCUADSimple None n net w
    = (Thrown "Cannot read properties of undefined (reading 'toLowerCase')", w') /\
    cache w' = cache w /\
    trace w' = trace w ++ [ CacheGet (search_key None n);
                            Fetch "POST" search_url (search_payload None n) ]).
  { unfold searchCUADSimple. run_M. rewrite Hmiss. rewrite fetchWithTimeout_run.
    unfold failure_mode in Hfail. change (TIMEOUT CONFIG) with 10000 in Hfail.
    destruct net as [d r|d m|]; [| |run_M; world_facts].
    - destruct (d <? 10000); run_M; [|world_facts].
      destruct (ok r); run_M; [|world_facts].
      destruct (body r) as [v'| |]; try discriminate. run_M. world_facts.
    - destruct (d <? 10000); run_M; world_facts. }
  destruct Hrun as (w' & Hrun & Hc & Ht).
  assert (Hh : handle request net w
               = (Returned
                    (JObj [ ("error",
                             JStr "Cannot read properties of undefined (reading 'toLowerCase')");
                            ("fallback", JBool true);
                            ("timestamp", JStr (toISOString (clock w'))) ]), w')).
  { unfold handle, try_catch. rewrite dispatch_search by exact Ha.
    rewrite Hq. fold n. rewrite Hrun. reflexivity. }
  exists w'. split; [exact Hh|]. split; [exact Hc|].
  apply effects_of_trace. rewrite Hh. exact Ht.
Qed.

Lemma search_without_query_fails_in_the_fallback_witness :
  let w0 := {| cache := ∅; clock := 0; trace := [] |} in
  let request := {| action := "SEARCH_CUAD"; query := None; nResults := Some 5;
                    documentText := None; question := None |} in
  exists v w',
    handle request (NetFails 12 "Failed to fetch") w0 = (Returned v, w') /\
    get_prop v "fallback" = inr (JBool true) /\ cache w' = ∅.
Proof.
  intros w0 request.
  destruct (search_without_query_fails_in_the_fallback request
              (NetFails 12 "Failed to fetch") w0 ModeNetworkError
              eq_refl eq_refl eq_refl eq_refl) as (_ & w' & Hrun & Hc & _).
  eexists _, w'. split; [exact Hrun|]. split; [reflexivity|exact Hc].
Defined.

(** ** Responses that are always marked as fallback *)

(** The chat completion and the enhanced analysis carry [fallback: true]
    in every answer they are given, also when the backend has just
    delivered the analysis; and they are answered unless the request waits
    for a body that stalls. *)
Theorem gpt_and_enhanced_are_always_fallback :
  forall (request : Request) (net : Net) (w : World),
    action request = "GET_GPT_RESPONSE" \/
    action request = "GET_ENHANCED_RESPONSE" ->
    (forall v, fst (handle request net w) = Returned v ->
       get_prop v "fallback" = inr (JBool true)) /\
    (waits_for_body request net w = false ->
     exists v, fst (handle request net w) = Returned v /\
       get_prop v "fallback" = inr (JBool true)).
Proof.
  intros request net w Ha.
  assert (Hflag : forall v, fst (handle request net w) = Returned v ->
                    get_prop v "fallback" = inr (JBool true)).
  { destruct Ha as [Ha|Ha]; unfold handle, try_catch.
    - unfold dispatch. rewrite Ha. simpl. intros v [= <-]. reflexivity.
    - rewrite dispatch_enhanced by exact Ha.
      destruct (analyzeSimple _ _ net w) as [[a|e|] w1].
      + destruct (get_prop a "analysis_prompt");
          [intros v [= <-]; reflexivity|].
        destruct (get_prop a "relevant_clauses_found");
          intros v [= <-]; reflexivity.
      + intros v [= <-]. reflexivity.
      + discriminate. }
  split; [exact Hflag|].
  intros Hw. destruct (handle_resolves w net request Hw) as (v & Hv).
  exists v. split; [exact Hv|apply Hflag, Hv].
Qed.

Lemma gpt_and_enhanced_are_always_fallback_witness :
  let w0 := {| cache := ∅; clock := 0; trace := [] |} in
  let request := {| action := "GET_ENHANCED_RESPONSE"; query := None;
                    nResults := None; documentText := Some "Lease";
                    question := None |} in
  let net := NetResponds 5 {| status := 200; body_ms := 0;
               body := BodyJson (JObj [("analysis_prompt", JStr "p");
                                       ("relevant_clauses_found", JInt 4)]) |} in
  success net <> None /\
  exists v, fst (handle request net w0) = Returned v /\
    get_prop v "fallback" = inr (JBool true).
Proof.
  intros w0 request net. split; [discriminate|].
  destruct (gpt_and_enhanced_are_always_fallback request net w0) as [_ H].
  - right. reflexivity.
  - apply H. reflexivity.
Defined.

Lemma handle_enhanced_failure (request : Request) (doc : string) (net : Net)
    (w w' : World) :
  action request = "GET_ENHANCED_RESPONSE" ->
  documentText request = Some doc ->
  analyzeSimple (Some doc) (question request) net w
  = (Returned (analyze_fallback doc (question request)), w') ->
  handle request net w
  = (Returned
       (JObj [ ("fallback", JBool true);
               ("content",
                JStr ("Analysis based on document context: "
                      +:+ string_or (question request)
                            "Please analyze this legal document."
                      +:+ newline +:+ newline
                      +:+ "[Using CUAD RAG system - 0 references found]"));
               ("analysis", analyze_fallback doc (question request));
               ("timestamp", JStr (toISOString (clock w'))) ]), w').
Proof.
  intros Ha Hdoc Hrun. unfold handle, try_catch.
  rewrite dispatch_enhanced by exact Ha. rewrite Hdoc, Hrun. reflexivity.
Qed.

(** When the backend call of an enhanced analysis fails and nothing fresh
    is cached, the response embeds the analyze fallback and its content
    quotes the question (or the default prompt) and reports 0 references. *)
Theorem enhanced_analysis_on_a_failed_backend :
  forall (request : Request) (doc : string) (net : Net) (w : World)
         (mode : FailureMode),
    action request = "GET_ENHANCED_RESPONSE" ->
    documentText request = Some doc ->
    fresh (cache w !! analyze_key doc (question request)) (clock w) = None ->
    failure_mode net = Some mode ->
    exists w',
      handle request net w
      = (Returned
           (JObj [ ("fallback", JBool true);
                   ("content",
                    JStr ("Analysis based on document context: "
                          +:+ string_or (question request)
                                "Please analyze this legal document."
                          +:+ newline +:+ newline
                          +:+ "[Using CUAD RAG system - 0 references found]"));
                   ("analysis", analyze_fallback doc (question request));
                   ("timestamp", JStr (toISOString (clock w'))) ]), w') /\
      cache w' = cache w.
Proof.
  intros request doc net w mode Ha Hdoc Hmiss Hfail.
  destruct (analyzeSimple_failure w net doc _ mode Hmiss Hfail)
    as (w' & Hrun & Hc & _).
  exists w'. split; [|exact Hc].
  apply (handle_enhanced_failure request doc net w w' Ha Hdoc Hrun).
Qed.

Lemma enhanced_analysis_on_a_failed_backend_witness :
  let w0 := {| cache := ∅; clock := 0; trace := [] |} in
  let request := {| action := "GET_ENHANCED_RESPONSE"; query := None;
                    nResults := None; documentText := Some "Lease";
                    question := Some "" |} in
  exists v w',
    handle request NetSilent w0 = (Returned v, w') /\
    get_prop v "content"
    = inr (JStr ("Analysis based on document context: Please analyze this legal document."
                 +:+ newline +:+ newline
                 +:+ "[Using CUAD RAG system - 0 references found]")).
Proof.
  intros w0 request.
  destruct (enhanced_analysis_on_a_failed_backend request "Lease" NetSilent w0
              ModeTimeout eq_refl eq_refl eq_refl eq_refl) as (w' & Hrun & _).
  eexists _, w'. split; [exact Hrun|reflexivity].
Defined.

(** ** The health check and the HTTP status *)

(** [checkCUADHealth] never reads the status of the response: two backend
    answers that differ only in their status give the same result, the same
    cache and the same log.  [searchCUADSimple] does read it. *)
Theorem health_check_ignores_the_status :
  forall (d ms status1 status2 : Z) (b : Body) (w : World),
    checkCUADHealth
      (NetResponds d {| status := status1; body := b; body_ms := ms |}) w
    = checkCUADHealth
        (NetResponds d {| status := status2; body := b; body_ms := ms |}) w.
Proof.
  intros d ms status1 status2 b w. unfold checkCUADHealth. run_M.
  destruct (fresh _ _); [reflexivity|]. rewrite !fetchWithTimeout_run.
  destruct (d <? 10000); run_M; [|reflexivity].
  destruct b; reflexivity.
Qed.

(** ** How long a request takes *)

Section Latency.

Context (net : Net) (w : World).

Ltac clock_cases :=
  unfold within_deadline; run_M;
  destruct (fresh _ _); [destruct net; cbn beta iota; cbn [clock emit snd]; lia|];
  rewrite fetchWithTimeout_run;
  destruct net as [d r|d m|];
  repeat match goal with
         | |- context [d <? 10000] => destruct (Z.ltb_spec d 10000); run_M
         | |- context [ok r] => destruct (ok r); run_M
         | |- context [body r] => destruct (body r); run_M
         | |- context [match ?q with Some _ => _ | None => _ end] =>
             destruct q; run_M
         end;
  cbn beta iota; cbn [clock emit elapse snd]; lia.

Lemma checkCUADHealth_clock : within_deadline net w (snd (checkCUADHealth net w)).
Proof. unfold checkCUADHealth. clock_cases. Qed.

Lemma searchCUADSimple_clock q n :
  within_deadline net w (snd (searchCUADSimple q n net w)).
Proof. unfold searchCUADSimple. clock_cases. Qed.

Lemma analyzeSimple_clock doc q :
  within_deadline net w (snd (analyzeSimple doc q net w)).
Proof.
  destruct doc as [doc|].
  - unfold analyzeSimple. clock_cases.
  - unfold within_deadline. simpl. destruct net; lia.
Qed.

End Latency.

(** A request that is answered is answered at the latest 10 000 ms after
    it came in, plus the time the body of a response that did arrive took to
    read; a request served from the cache or without a key takes no time at
    all. *)
Theorem request_answered_within_deadline :
  forall (request : Request) (net : Net) (w : World),
    within_deadline net w (snd (handle request net w)) /\
    (effects (handle request net) w = [] \/
     (exists key, effects (handle request net) w = [CacheGet key]) ->
     clock (snd (handle request net w)) = clock w).
Proof.
  intros request net w. split.
  - rewrite handle_world.
    assert (Hidle : within_deadline net w w).
    { unfold within_deadline. destruct net; lia. }
    destruct (String.eqb (action request) "GET_ENHANCED_RESPONSE") eqn:He.
    { apply String.eqb_eq in He.
      rewrite dispatch_enhanced_world by exact He. apply analyzeSimple_clock. }
    unfold dispatch. rewrite He.
    destruct (String.eqb (action request) "CHECK_CUAD_HEALTH");
      [apply checkCUADHealth_clock|].
    destruct (String.eqb (action request) "SEARCH_CUAD");
      [apply searchCUADSimple_clock|].
    destruct (String.eqb (action request) "ANALYZE_WITH_CUAD");
      [apply analyzeSimple_clock|].
    destruct (String.eqb (action request) "GET_GPT_RESPONSE"); [exact Hidle|].
    destruct (String.eqb (action request) "PING"); exact Hidle.
  - destruct (handle_effects_cases request net w)
      as [[_ ->]|(key & sent & Hkey & Hsent & Hcases)]; [reflexivity|].
    destruct (handle_cached_shape request net w key Hkey) as (sent' & _ & Hs).
    destruct (fresh (cache w !! key) (clock w)).
    + destruct Hs as [-> _]. reflexivity.
    + intros [Hnil|(k & Hone)].
      * destruct Hs as [[Ht _]|[Ht _]];
          rewrite (effects_of_trace w (handle request net) _ Ht) in Hnil;
          discriminate.
      * destruct Hs as [[Ht _]|[Ht _]];
          rewrite (effects_of_trace w (handle request net) _ Ht) in Hone;
          discriminate.
Qed.

Lemma request_answered_within_deadline_witness :
  let w0 := {| cache := ∅; clock := 500; trace := [] |} in
  let request := {| action := "CHECK_CUAD_HEALTH"; query := None; nResults := None;
                    documentText := None; question := None |} in
  clock (snd (handle request (NetResponds 700000 {| status := 200; body_ms := 0;
                                                    body := BodyJson JNull |}) w0))
  <= 500 + 10000 + 0.
Proof.
  intros w0 request.
  destruct (request_answered_within_deadline request
              (NetResponds 700000 {| status := 200; body_ms := 0;
                                     body := BodyJson JNull |}) w0) as [H _].
  unfold within_deadline in H. cbn [body_ms clock] in H.
  apply H; reflexivity || discriminate.
Defined.

(** ** The fallback clauses for every count *)

Lemma take_nil_iff {A} (k : nat) (l : list A) :
  take k l = [] <-> k = 0%nat \/ l = [].
Proof.
  destruct k, l; simpl; split; auto; try discriminate.
  intros [H|H]; discriminate.
Qed.

Lemma slice0_nil_iff {A} (l : list A) (n : Z) :
  slice0 l n = [] <-> l = [] \/ n = 0 \/ n <= - Z.of_nat (List.length l).
Proof.
  unfold slice0. rewrite take_nil_iff.
  destruct l as [|x l]; [simpl; tauto|].
  assert (Hlen : 0 < Z.of_nat (List.length (x :: l))) by (simpl; lia).
  destruct (Z.ltb_spec n 0); split.
  - intros [H0|H0]; [right; right; lia|discriminate].
  - intros [H0|[H0|H0]]; [discriminate|lia|left; lia].
  - intros [H0|H0]; [right; left; lia|discriminate].
  - intros [H0|[H0|H0]]; [discriminate|left; subst n; reflexivity|lia].
Qed.

Lemma filter_length_le {A} (f : A -> bool) (l : list A) :
  (List.length (List.filter f l) <= List.length l)%nat.
Proof.
  induction l as [|x l IH]; simpl; [lia|]. destruct (f x); simpl; lia.
Qed.

Lemma slice0_sublist {A} (l : list A) (n : Z) : sublist (slice0 l n) l.
Proof. unfold slice0. apply sublist_take. Qed.

Lemma filterClauses_sublist_any (catalog : list Clause) (query : string) (n : Z) :
  sublist (filterClauses catalog query n) catalog.
Proof.
  unfold filterClauses.
  destruct (0 <? _); [|apply slice0_sublist].
  etrans; [apply slice0_sublist|apply filter_sublist].
Qed.

Lemma filterClauses_nil_iff (catalog : list Clause) (query : string) (n : Z) :
  catalog <> [] ->
  (filterClauses catalog query n = [] <->
   n = 0 \/ n <= - Z.of_nat (List.length catalog)).
Proof.
  intros Hne. unfold filterClauses.
  pose proof (filter_length_le (clause_matches (toLowerCase query)) catalog) as Hle.
  destruct (Z.ltb_spec 0
              (Z.of_nat (List.length
                 (slice0 (List.filter (clause_matches (toLowerCase query)) catalog) n))))
    as [Hpos|Hzero].
  - destruct (slice0 (List.filter _ catalog) n) as [|c rest] eqn:Hs;
      [simpl in Hpos; lia|].
    split; [discriminate|]. intros Hn. exfalso.
    assert (Hnil : slice0 (List.filter (clause_matches (toLowerCase query)) catalog) n = []).
    { apply slice0_nil_iff. destruct Hn as [Hn|Hn]; [auto|]. right; right. lia. }
    congruence.
  - rewrite slice0_nil_iff. tauto.
Qed.

(** For every count, positive or not, [getFallbackClauses] returns entries
    of the catalog in catalog order; over a non-empty catalog the result is
    empty exactly when the count is 0 or is negative with an absolute value
    of at least the catalog's size, which for the script's catalog means
    [nResults = 0] or [nResults <= -3]. *)
Theorem fallback_clauses_for_any_count :
  forall (catalog : list Clause) (query : string) (nResults : Z),
    sublist (filterClauses catalog query nResults) catalog /\
    (catalog <> [] ->
     (filterClauses catalog query nResults = [] <->
      nResults = 0 \/ nResults <= - Z.of_nat (List.length catalog))) /\
    (getFallbackClauses query nResults = [] <->
     nResults = 0 \/ nResults <= -3).
Proof.
  intros catalog query n. split; [|split].
  - apply filterClauses_sublist_any.
  - apply filterClauses_nil_iff.
  - unfold getFallbackClauses. rewrite filterClauses_nil_iff by discriminate.
    reflexivity.
Qed.

Lemma fallback_clauses_for_any_count_witness :
  getFallbackClauses "party" (-1) <> [] /\ getFallbackClauses "party" (-3) = [] /\
  getFallbackClauses "party" 0 = [].
Proof.
  destruct (fallback_clauses_for_any_count sampleClauses "party" (-1)) as (_ & _ & H1).
  destruct (fallback_clauses_for_any_count sampleClauses "party" (-3)) as (_ & _ & H3).
  destruct (fallback_clauses_for_any_count sampleClauses "party" 0) as (_ & _ & H0).
  split; [|split].
  - intros H. apply H1 in H. lia.
  - apply H3. lia.
  - apply H0. lia.
Defined.

(** ** What a search and an analysis send to the backend *)

Section Sent.

Context (request : Request) (net : Net) (w : World).

Lemma handle_effects_of (m : M JsVal) (key : string) (sent : Effect) :
  snd (handle request net w) = snd (m w) ->
  cached_call_shape w key sent (m w) ->
  effects (handle request net) w = [CacheGet key] \/
  effects (handle request net) w = [CacheGet key; sent] \/
  effects (handle request net) w = [CacheGet key; sent; CacheSet key].
Proof.
  intros Hw Hs. unfold cached_call_shape in Hs.
  destruct (fresh (cache w !! key) (clock w)).
  - left. apply effects_of_trace. rewrite Hw, Hs. reflexivity.
  - destruct Hs as [[Ht _]|[Ht _]]; [right; left|right; right];
      apply effects_of_trace; rewrite Hw; exact Ht.
Qed.

End Sent.

(** The listener replaces a missing or zero [nResults] by 3, so the
    backend is never asked for 0 results; and when the backend call of a
    search fails, the fallback list has at most 3 clauses and is empty
    exactly when a count of -3 or less was asked. *)
Theorem search_count_defaults_to_three :
  forall (request : Request) (net : Net) (w : World),
    action request = "SEARCH_CUAD" ->
    let n := nResults_or_3 (nResults request) in
    n <> 0 /\
    (nResults request = None \/ nResults request = Some 0 -> n = 3) /\
    (forall method url payload,
       In (Fetch method url payload) (effects (handle request net) w) ->
       method = "POST" /\ url = "http://localhost:8000/search" /\
       get_prop payload "n_results" = inr (JInt n)) /\
    (forall q mode,
       query request = Some q ->
       fresh (cache w !! search_key (Some q) n) (clock w) = None ->
       failure_mode net = Some mode ->
       exists clauses,
         fst (handle request net w) = Returned (JArr (clause_obj <$> clauses)) /\
         (List.length clauses <= 3)%nat /\
         (clauses = [] <-> n <= -3)).
Proof.
  intros request net w Ha n.
  assert (Hn : n <> 0).
  { subst n. unfold nResults_or_3. destruct (nResults request) as [k|]; [|lia].
    destruct (Z.eqb_spec k 0); lia. }
  split; [exact Hn|]. split; [|split].
  - subst n. intros [->| ->]; reflexivity.
  - intros method url payload Hin.
    destruct (handle_effects_of request net w
                (searchCUADSimple (query request) n net)
                (search_key (query request) n)
                (Fetch "POST" search_url (search_payload (query request) n)))
      as [He|[He|He]].
    + rewrite handle_world, dispatch_search by exact Ha. reflexivity.
    + apply searchCUADSimple_shape.
    + rewrite He in Hin. destruct Hin as [H|[]]. discriminate.
    + rewrite He in Hin. destruct Hin as [H|[H|[]]]; [discriminate|].
      injection H as <- <- <-. repeat split.
    + rewrite He in Hin. destruct Hin as [H|[H|[H|[]]]]; try discriminate.
      injection H as <- <- <-. repeat split.
  - intros q mode Hq Hmiss Hfail.
    destruct (searchCUADSimple_failure w net q n mode Hmiss Hfail)
      as (w' & Hrun & _).
    exists (getFallbackClauses q n). split; [|split].
    + rewrite (handle_returned w net request
                 (JArr (clause_obj <$> getFallbackClauses q n)) w');
        [reflexivity|].
      rewrite dispatch_search by exact Ha. rewrite Hq. exact Hrun.
    + pose proof (filterClauses_sublist_any sampleClauses q n) as Hsub.
      apply sublist_length in Hsub. exact Hsub.
    + unfold getFallbackClauses. rewrite filterClauses_nil_iff by discriminate.
      simpl. lia.
Qed.

Lemma search_count_defaults_to_three_witness :
  let w0 := {| cache := ∅; clock := 0; trace := [] |} in
  let request := {| action := "SEARCH_CUAD"; query := Some "liable";
                    nResults := Some 0; documentText := None; question := None |} in
  exists clauses,
    fst (handle request NetSilent w0) = Returned (JArr (clause_obj <$> clauses)) /\
    clauses <> [].
Proof.
  intros w0 request.
  destruct (search_count_defaults_to_three request NetSilent w0 eq_refl)
    as (_ & _ & _ & Hfall).
  destruct (Hfall "liable" ModeTimeout eq_refl eq_refl eq_refl)
    as (clauses & Hrun & _ & Hiff).
  exists clauses. split; [exact Hrun|].
  intros H. apply Hiff in H. simpl in H. lia.
Defined.

(** The text an analysis, plain or enhanced, uploads is the first 2000
    characters of the document: every backend call of such a request is a
    POST to [/analyze] whose [document_text] is that prefix, with
    [n_references] 2. *)
Theorem analysis_uploads_at_most_2000_characters :
  forall (request : Request) (doc : string) (net : Net) (w : World)
         (method url : string) (payload : JsVal),
    action request = "ANALYZE_WITH_CUAD" \/
    action request = "GET_ENHANCED_RESPONSE" ->
    documentText request = Some doc ->
    In (Fetch method url payload) (effects (handle request net) w) ->
    method = "POST" /\ url = "http://localhost:8000/analyze" /\
    get_prop payload "document_text" = inr (JStr (substring0 2000 doc)) /\
    get_prop payload "n_references" = inr (JInt 2) /\
    (String.length (substring0 2000 doc) <= 2000)%nat /\
    exists rest, doc = substring0 2000 doc +:+ rest.
Proof.
  intros request doc net w method url payload Ha Hdoc Hin.
  assert (Hsent : Fetch method url payload
                  = Fetch "POST" analyze_url (analyze_payload doc (question request))).
  { destruct (handle_effects_of request net w
                (analyzeSimple (Some doc) (question request) net)
                (analyze_key doc (question request))
                (Fetch "POST" analyze_url (analyze_payload doc (question request))))
      as [He|[He|He]].
    - rewrite handle_world. destruct Ha as [Ha|Ha].
      + rewrite dispatch_analyze by exact Ha. rewrite Hdoc. reflexivity.
      + rewrite dispatch_enhanced_world by exact Ha. rewrite Hdoc. reflexivity.
    - apply analyzeSimple_shape.
    - rewrite He in Hin. destruct Hin as [H|[]]. discriminate.
    - rewrite He in Hin. destruct Hin as [H|[H|[]]]; [discriminate|].
      symmetry. exact H.
    - rewrite He in Hin. destruct Hin as [H|[H|[H|[]]]]; try discriminate.
      symmetry. exact H. }
  injection Hsent as -> -> ->.
  split; [reflexivity|]. split; [reflexivity|]. split; [reflexivity|].
  split; [reflexivity|]. split; [apply substring0_length|apply substring0_split].
Qed.

Lemma analysis_uploads_at_most_2000_characters_witness :
  let w0 := {| cache := ∅; clock := 0; trace := [] |} in
  let request := {| action := "ANALYZE_WITH_CUAD"; query := None; nResults := None;
                    documentText := Some "Lease"; question := None |} in
  In (Fetch "POST" analyze_url (analyze_payload "Lease" None))
     (effects (handle request NetSilent) w0) /\
  get_prop (analyze_payload "Lease" None) "document_text" = inr (JStr "Lease").
Proof.
  intros w0 request.
  assert (Hin : In (Fetch "POST" analyze_url (analyze_payload "Lease" None))
                   (effects (handle request NetSilent) w0)).
  { right. left. reflexivity. }
  split; [exact Hin|].
  destruct (analysis_uploads_at_most_2000_characters request "Lease" NetSilent w0
              _ _ _ (or_introl eq_refl) eq_refl Hin)
    as (_ & _ & H & _).
  exact H.
Defined.

(** ** Cache keys *)

Section KeyFacts.

Local Abbreviation chars := String.list_ascii_of_string.

Lemma chars_append (a b : string) : chars (a +:+ b) = chars a ++ chars b.
Proof.
  induction a as [|c a IH]; [reflexivity|].
  rewrite append_cons. simpl. rewrite IH. reflexivity.
Qed.

Lemma pretty_N_char_not_underscore (d : N) : pretty_N_char d <> "_"%char.
Proof. unfold pretty_N_char. repeat case_match; discriminate. Qed.

Lemma pretty_N_go_no_underscore (x : N) (s : string) :
  ~ In "_"%char (chars s) -> ~ In "_"%char (chars (pretty_N_go x s)).
Proof.
  revert s. induction (N.lt_wf_0 x) as [x _ IH]; intros s Hs.
  assert (x = 0 \/ 0 < x)%N as [->|Hpos] by lia.
  - rewrite pretty_N_go_0. exact Hs.
  - rewrite pretty_N_go_step by exact Hpos. apply IH.
    + apply N.div_lt; lia.
    + simpl. intros [Hc|Hc]; [|exact (Hs Hc)].
      exact (pretty_N_char_not_underscore _ Hc).
Qed.

Lemma pretty_Z_no_underscore (z : Z) : ~ In "_"%char (chars (pretty z)).
Proof.
  assert (HN : forall x : N, ~ In "_"%char (chars (pretty x))).
  { intros x. unfold pretty, pretty_N. case_decide.
    - simpl. intros [Hc|[]]. discriminate.
    - apply pretty_N_go_no_underscore. simpl. tauto. }
  destruct z as [|p|p]; unfold pretty, pretty_Z.
  - simpl. intros [Hc|[]]. discriminate.
  - apply HN.
  - rewrite chars_append. simpl. intros [Hc|Hc]; [discriminate|].
    exact (HN (N.pos p) Hc).
Qed.

(** A string is cut in one way only at its last underscore. *)
Lemma split_at_last_underscore (a a' t t' : string) :
  ~ In "_"%char (chars t) -> ~ In "_"%char (chars t') ->
  a +:+ "_" +:+ t = a' +:+ "_" +:+ t' -> a = a' /\ t = t'.
Proof.
  intros Ht Ht'. revert a'.
  induction a as [|c a IH]; intros [|c' a'] H;
    rewrite ?append_cons in H; cbv [String.append] in H; fold String.append in H.
  - injection H as ->. auto.
  - injection H as <- ->. destruct Ht. rewrite chars_append.
    apply in_or_app. right. left. reflexivity.
  - injection H as -> <-. destruct Ht'. rewrite chars_append.
    apply in_or_app. right. left. reflexivity.
  - injection H as <- H. destruct (IH a' H) as [-> ->]. auto.
Qed.

Lemma search_key_inj (q1 q2 : option string) (n1 n2 : Z) :
  search_key q1 n1 = search_key q2 n2 ->
  show_undefined q1 = show_undefined q2 /\ n1 = n2.
Proof.
  unfold search_key. intros H.
  cbv [String.append] in H; fold String.append in H.
  injection H as H.
  apply split_at_last_underscore in H; try apply pretty_Z_no_underscore.
  destruct H as [Hq Hn]. split; [exact Hq|]. apply (inj pretty), Hn.
Qed.

End KeyFacts.

(** Two requests use the same cache entry only if both are health checks,
    or both are searches with the same query text and the same effective
    count, or both are analyses (plain or enhanced): a search is never
    served a health check's or an analysis's entry, nor another search's. *)
Theorem cache_keys_separate_requests :
  forall (request1 request2 : Request) (key : string),
    cacheKey_of request1 = Some key ->
    cacheKey_of request2 = Some key ->
    (action request1 = "CHECK_CUAD_HEALTH" /\
     action request2 = "CHECK_CUAD_HEALTH") \/
    (action request1 = "SEARCH_CUAD" /\ action request2 = "SEARCH_CUAD" /\
     show_undefined (query request1) = show_undefined (query request2) /\
     nResults_or_3 (nResults request1) = nResults_or_3 (nResults request2)) \/
    ((action request1 = "ANALYZE_WITH_CUAD" \/
      action request1 = "GET_ENHANCED_RESPONSE") /\
     (action request2 = "ANALYZE_WITH_CUAD" \/
      action request2 = "GET_ENHANCED_RESPONSE")).
Proof.
  intros request1 request2 key H1 H2.
  destruct (cacheKey_of_cases request1 key H1)
    as [[Ha1 Hk1]|[[Ha1 Hk1]|(doc1 & Ha1 & _ & Hk1)]];
  destruct (cacheKey_of_cases request2 key H2)
    as [[Ha2 Hk2]|[[Ha2 Hk2]|(doc2 & Ha2 & _ & Hk2)]];
  pose proof (eq_trans (eq_sym Hk1) Hk2) as Heq.
  - left. auto.
  - exfalso. cbv [search_key String.append] in Heq. discriminate.
  - exfalso. cbv [analyze_key String.append] in Heq. discriminate.
  - exfalso. cbv [search_key String.append] in Heq. discriminate.
  - right; left. split; [exact Ha1|]. split; [exact Ha2|].
    apply search_key_inj, Heq.
  - exfalso. cbv [search_key analyze_key String.append] in Heq. discriminate.
  - exfalso. cbv [analyze_key String.append] in Heq. discriminate.
  - exfalso. cbv [search_key analyze_key String.append] in Heq. discriminate.
  - right; right. auto.
Qed.

Lemma cache_keys_separate_requests_witness :
  let search q n := {| action := "SEARCH_CUAD"; query := Some q; nResults := n;
                       documentText := None; question := None |} in
  cacheKey_of (search "indemnity_3" None) <> cacheKey_of (search "indemnity" None) /\
  cacheKey_of (search "indemnity" (Some 0)) = cacheKey_of (search "indemnity" None).
Proof.
  intros search. split; [|reflexivity].
  intros H.
  destruct (cache_keys_separate_requests (search "indemnity_3" None)
              (search "indemnity" None) "search_indemnity_3_3" eq_refl
              ltac:(rewrite <- H; reflexivity))
    as [[Ha _]|[(_ & _ & Hq & _)|[[Ha|Ha] _]]]; discriminate.
Defined.

(** * Properties of the sidebar's text functions *)

Section WordCount.

Lemma length_append_char (cur : string) (c : ascii) :
  (0 <? String.length (cur +:+ String c EmptyString))%nat = true.
Proof.
  destruct cur; [reflexivity|]. rewrite append_cons. reflexivity.
Qed.

Lemma split_ws_go_count (s cur : string) (gap : bool) :
  (gap = true -> cur = EmptyString) ->
  List.length (List.filter (fun word => (0 <? String.length word)%nat)
                 (split_ws_go s cur gap))
  = ((if (0 <? String.length cur)%nat then 1 else 0)
     + word_starts s (0 <? String.length cur)%nat)%nat.
Proof.
  revert cur gap. induction s as [|c s IH]; intros cur gap Hgap; simpl.
  - destruct (0 <? String.length cur)%nat; reflexivity.
  - destruct (is_space c).
    + destruct gap.
      * rewrite (Hgap eq_refl). rewrite IH by reflexivity. reflexivity.
      * cbn [List.filter].
        destruct (0 <? String.length cur)%nat; cbn [List.length];
          rewrite IH by reflexivity; reflexivity.
    + rewrite IH by discriminate. rewrite length_append_char.
      destruct (0 <? String.length cur)%nat; simpl; lia.
Qed.

Lemma word_starts_trimStart (s : string) :
  word_starts (trimStart s) false = word_starts s false.
Proof.
  induction s as [|c s IH]; [reflexivity|]. simpl.
  destruct (is_space c) eqn:Hc; [exact IH|]. simpl. rewrite Hc. reflexivity.
Qed.

Lemma word_starts_trimEnd (s : string) (b : bool) :
  word_starts (trimEnd s) b = word_starts s b.
Proof.
  revert b. induction s as [|c s IH]; intros b; [reflexivity|]. simpl.
  destruct (trimEnd s) as [|c' r'] eqn:Hr.
  - destruct (is_space c) eqn:Hc.
    + rewrite <- IH. reflexivity.
    + simpl. rewrite Hc, <- IH. reflexivity.
  - simpl. rewrite <- !IH. reflexivity.
Qed.

Lemma wordCount_word_starts (text : string) :
  wordCount text = word_starts text false.
Proof.
  unfold wordCount, split_ws, trim.
  rewrite split_ws_go_count by discriminate. simpl.
  rewrite word_starts_trimEnd. apply word_starts_trimStart.
Qed.

Lemma word_starts_append (a : string) (c : ascii) (b : string) (w : bool) :
  is_space c = true ->
  word_starts (a +:+ String c b) w
  = (word_starts a w + word_starts b false)%nat.
Proof.
  intros Hc. revert w. induction a as [|x a IH]; intros w.
  - cbv [String.append]. simpl. rewrite Hc. reflexivity.
  - rewrite append_cons. simpl. destruct (is_space x); rewrite IH; lia.
Qed.

Lemma word_starts_bound (s : string) :
  (2 * word_starts s true <= String.length s)%nat /\
  (2 * word_starts s false <= S (String.length s))%nat.
Proof.
  induction s as [|c s [IH1 IH2]]; simpl; [lia|].
  destruct (is_space c); lia.
Qed.

Lemma trimStart_head (s : string) :
  match trimStart s with
  | EmptyString => word_starts s false = 0%nat
  | String c _ => is_space c = false
  end.
Proof.
  induction s as [|c s IH]; [reflexivity|]. simpl.
  destruct (is_space c) eqn:Hc; [exact IH|exact Hc].
Qed.

Lemma trim_empty_iff (s : string) :
  trim s = EmptyString <-> word_starts s false = 0%nat.
Proof.
  unfold trim. rewrite <- (word_starts_trimStart s).
  pose proof (trimStart_head s) as Hh.
  destruct (trimStart s) as [|c r]; [simpl; tauto|].
  simpl. rewrite Hh. split; [|lia].
  destruct (trimEnd r); discriminate.
Qed.

End WordCount.

(** The words [updateTextStats] counts are the maximal runs of characters
    that are not white space: the count is 0 exactly for a text that
    trimming empties, it is unchanged by trimming, it adds up over two
    texts joined by a white-space character, and a text of [n] characters
    has at most [(n + 1) / 2] words. *)
Theorem word_count_counts_runs :
  forall (text : string),
    updateTextStats text
    = (pretty (String.length text) +:+ " chars",
       pretty (word_starts text false) +:+ " words") /\
    (wordCount text = 0%nat <-> trim text = EmptyString) /\
    wordCount (trim text) = wordCount text /\
    (forall (c : ascii) (more : string),
       is_space c = true ->
       wordCount (text +:+ String c more)
       = (wordCount text + wordCount more)%nat) /\
    (2 * wordCount text <= S (String.length text))%nat.
Proof.
  intros text. split; [|split; [|split; [|split]]].
  - unfold updateTextStats. rewrite wordCount_word_starts. reflexivity.
  - rewrite wordCount_word_starts. symmetry. apply trim_empty_iff.
  - rewrite !wordCount_word_starts. unfold trim.
    rewrite word_starts_trimEnd. apply word_starts_trimStart.
  - intros c more Hc. rewrite !wordCount_word_starts.
    apply word_starts_append, Hc.
  - rewrite wordCount_word_starts. apply word_starts_bound.
Qed.

Lemma word_count_counts_runs_witness :
  wordCount ("governing law" +:+ String (ascii_of_nat 10) "  and venue ") = 4%nat.
Proof.
  destruct (word_count_counts_runs "governing law") as (_ & _ & _ & Hadd & _).
  rewrite (Hadd (ascii_of_nat 10) "  and venue " eq_refl). reflexivity.
Defined.

(** [formatResponse] leaves no line feed in its result, returns a text
    without line feeds unchanged, and works piece by piece: formatting a
    concatenation gives the concatenation of the formatted parts. *)
Theorem formatResponse_replaces_every_line_feed :
  forall (a b : string),
    ~ In (ascii_of_nat 10) (String.list_ascii_of_string (formatResponse a)) /\
    (~ In (ascii_of_nat 10) (String.list_ascii_of_string a) ->
     formatResponse a = a) /\
    formatResponse (a +:+ b) = formatResponse a +:+ formatResponse b /\
    formatResponse (a +:+ String (ascii_of_nat 10) b)
    = formatResponse a +:+ "<br>" +:+ formatResponse b.
Proof.
  assert (Happ : forall a b,
            formatResponse (a +:+ b) = formatResponse a +:+ formatResponse b).
  { intros a b. induction a as [|c a IH]; [reflexivity|].
    rewrite append_cons. simpl. rewrite IH.
    destruct (Ascii.eqb c (ascii_of_nat 10)); [|reflexivity].
    cbv [String.append]. reflexivity. }
  intros a b. split; [|split; [|split]].
  - induction a as [|c a IH]; simpl; [tauto|].
    destruct (Ascii.eqb_spec c (ascii_of_nat 10)) as [->|Hne].
    + cbv [String.append]. fold String.append. simpl.
      intros [H|[H|[H|[H|H]]]]; try discriminate. exact (IH H).
    + simpl. intros [H|H]; [congruence|exact (IH H)].
  - induction a as [|c a IH]; simpl; [reflexivity|]. intros Hnl.
    destruct (Ascii.eqb_spec c (ascii_of_nat 10)) as [->|Hne]; [tauto|].
    rewrite IH; [reflexivity|tauto].
  - apply Happ.
  - rewrite Happ. reflexivity.
Qed.

Lemma formatResponse_replaces_every_line_feed_witness :
  formatResponse "No response received." = "No response received.".
Proof.
  destruct (formatResponse_replaces_every_line_feed "No response received." "")
    as (_ & Hid & _).
  apply Hid. simpl. intuition discriminate.
Defined.

(** * Properties of the content script *)

Section ContentFacts.

Lemma shouldAutoInject_spec (href : string) :
  shouldAutoInject href = true <->
  exists keyword pre post,
    In keyword legalKeywords /\ toLowerCase href = pre +:+ keyword +:+ post.
Proof.
  unfold shouldAutoInject. rewrite existsb_exists. split.
  - intros (keyword & Hin & Hinc). apply includes_spec in Hinc.
    destruct Hinc as (pre & post & Heq). eauto.
  - intros (keyword & pre & post & Hin & Heq). exists keyword.
    split; [exact Hin|]. apply includes_spec. eauto.
Qed.

End ContentFacts.

(** The page is auto-injected exactly when its address, in lower case,
    contains one of the six keywords anywhere; so the decision ignores
    letter case, an address that contains a matching address matches too,
    and no address of fewer than 5 characters matches. *)
Theorem shouldAutoInject_matches_any_occurrence :
  forall (href : string),
    (shouldAutoInject href = true <->
     exists keyword pre post,
       In keyword legalKeywords /\ toLowerCase href = pre +:+ keyword +:+ post) /\
    (forall href', toLowerCase href' = toLowerCase href ->
       shouldAutoInject href' = shouldAutoInject href) /\
    (forall before after,
       shouldAutoInject href = true ->
       shouldAutoInject (before +:+ href +:+ after) = true) /\
    ((String.length href < 5)%nat -> shouldAutoInject href = false).
Proof.
  intros href. split; [apply shouldAutoInject_spec|]. split; [|split].
  - intros href' Heq. unfold shouldAutoInject. rewrite Heq. reflexivity.
  - intros before after. rewrite !shouldAutoInject_spec.
    intros (keyword & pre & post & Hin & Heq).
    exists keyword, (toLowerCase before +:+ pre), (post +:+ toLowerCase after).
    split; [exact Hin|].
    rewrite !toLowerCase_append, Heq, !append_assoc. reflexivity.
  - intros Hlen. destruct (shouldAutoInject href) eqn:Hs; [|reflexivity].
    apply shouldAutoInject_spec in Hs.
    destruct Hs as (keyword & pre & post & Hin & Heq).
    apply (f_equal String.length) in Heq.
    rewrite toLowerCase_length, !length_append in Heq.
    assert (5 <= String.length keyword)%nat.
    { simpl in Hin. destruct Hin as [<-|[<-|[<-|[<-|[<-|[<-|[]]]]]]]; simpl; lia. }
    lia.
Qed.

Lemma shouldAutoInject_matches_any_occurrence_witness :
  shouldAutoInject "https://shop.example/Legal" = true /\
  shouldAutoInject "https://shop.example/Legal?lang=en#top" = true /\
  shouldAutoInject "ftp:" = false.
Proof.
  destruct (shouldAutoInject_matches_any_occurrence "https://shop.example/Legal")
    as (_ & _ & Hmono & _).
  destruct (shouldAutoInject_matches_any_occurrence "ftp:") as (_ & _ & _ & Hshort).
  split; [reflexivity|]. split.
  - apply (Hmono "" "?lang=en#top"). reflexivity.
  - apply Hshort. simpl. lia.
Defined.

(** [extractTextSimple] returns at most 5000 characters, the beginning of
    one text of the page: of the first element, in the order main, article,
    [role="main"], .content, .document, body, whose trimmed text is longer
    than 100 characters, and of the body when there is none. *)
Theorem extractTextSimple_takes_first_long_text :
  forall (querySelector : string -> option string) (bodyText : string),
    let result := extractTextSimple querySelector bodyText in
    (String.length result <= 5000)%nat /\
    (forall before selector after text,
       mainSelectors = before ++ selector :: after ->
       querySelector selector = Some text ->
       (100 < String.length (trim text))%nat ->
       (forall selector' text',
          In selector' before -> querySelector selector' = Some text' ->
          (String.length (trim text') <= 100)%nat) ->
       result = substring0 5000 text) /\
    ((forall selector text,
        In selector mainSelectors -> querySelector selector = Some text ->
        (String.length (trim text) <= 100)%nat) ->
     result = substring0 5000 bodyText) /\
    (exists text,
       result = substring0 5000 text /\
       (text = bodyText \/
        exists selector,
          In selector mainSelectors /\ querySelector selector = Some text /\
          (100 < String.length (trim text))%nat)).
Proof.
  intros querySelector bodyText result. subst result.
  unfold extractTextSimple. generalize mainSelectors as selectors.
  intros selectors.
  set (scan := fix scan (selectors : list string) : string :=
         match selectors with
         | [] => substring0 5000 bodyText
         | selector :: rest =>
             match querySelector selector with
             | Some textContent =>
                 if negb (String.eqb textContent "")
                    && (100 <? String.length (trim textContent))%nat
                 then substring0 5000 textContent
                 else scan rest
             | None => scan rest
             end
         end).
  assert (Hlong : forall text,
            (100 < String.length (trim text))%nat ->
            negb (String.eqb text "")
            && (100 <? String.length (trim text))%nat = true).
  { intros text Hl. destruct text; [simpl in Hl; lia|].
    apply Nat.ltb_lt in Hl. rewrite Hl. reflexivity. }
  assert (Hshort : forall text,
            (String.length (trim text) <= 100)%nat ->
            negb (String.eqb text "")
            && (100 <? String.length (trim text))%nat = false).
  { intros text Hl. apply Nat.ltb_ge in Hl. rewrite Hl. apply andb_false_r. }
  split; [|split; [|split]].
  - induction selectors as [|s rest IH]; simpl; [apply substring0_length|].
    destruct (querySelector s) as [t|]; [|exact IH].
    destruct (_ && _); [apply substring0_length|exact IH].
  - intros before selector after text ->. revert text.
    induction before as [|s before IH]; intros text Hq Hl Hbefore; simpl.
    + rewrite Hq, (Hlong text Hl). reflexivity.
    + destruct (querySelector s) as [t|] eqn:Hs.
      * rewrite (Hshort t); [|apply (Hbefore s t); [left; reflexivity|exact Hs]].
        apply IH; auto. intros s' t' Hin. apply Hbefore. right. exact Hin.
      * apply IH; auto. intros s' t' Hin. apply Hbefore. right. exact Hin.
  - induction selectors as [|s rest IH]; intros Hall; simpl; [reflexivity|].
    destruct (querySelector s) as [t|] eqn:Hs.
    + rewrite (Hshort t); [|apply (Hall s t); [left; reflexivity|exact Hs]].
      apply IH. intros s' t' Hin. apply Hall. right. exact Hin.
    + apply IH. intros s' t' Hin. apply Hall. right. exact Hin.
  - induction selectors as [|s rest IH]; simpl; [eauto|].
    assert (Hrest : exists text,
              scan rest = substring0 5000 text /\
              (text = bodyText \/
               exists selector,
                 In selector (s :: rest) /\ querySelector selector = Some text /\
                 (100 < String.length (trim text))%nat)).
    { destruct IH as (text & Hr & [->|(s' & Hin & Hq & Hl)]); [eauto|].
      exists text. split; [exact Hr|]. right. exists s'.
      split; [right; exact Hin|auto]. }
    destruct (querySelector s) as [t|] eqn:Hs; [|exact Hrest].
    destruct (negb (String.eqb t "")); simpl; [|exact Hrest].
    destruct (Nat.ltb_spec 100 (String.length (trim t))); [|exact Hrest].
    exists t. split; [reflexivity|]. right. exists s.
    split; [left; reflexivity|auto].
Qed.

Lemma extractTextSimple_takes_first_long_text_witness :
  let long := replicate_char 120 "x"%char in
  let page selector :=
    if String.eqb selector "main" then Some "Menu"
    else if String.eqb selector "article" then Some long
    else if String.eqb selector "body" then Some ("Menu" +:+ long)
    else None in
  extractTextSimple page ("Menu" +:+ long) = long.
Proof.
  intros long page.
  destruct (extractTextSimple_takes_first_long_text page ("Menu" +:+ long))
    as (_ & Hfirst & _).
  rewrite (Hfirst ["main"] "article"
             (skipn 2 mainSelectors) long eq_refl eq_refl).
  - reflexivity.
  - vm_compute. lia.
  - intros selector' text' [<-|[]] [= <-]. vm_compute. lia.
Defined.

(** * Properties of the sidebar's exchanges with the listener *)

Import SidebarChat.

Section ConnectionFacts.

Context (net : Net) (w : World).

Lemma checkConnections_run (response : JsVal) (w' : World) :
  handle (no_request_fields "CHECK_CUAD_HEALTH") net w = (Returned response, w') ->
  checkConnections net w =
  (Returned
     (match get_prop response "status" with
      | inl _ => error_view
      | inr status =>
          if is_string "healthy" status then
            match get_prop response "data" with
            | inl _ => error_view
            | inr data =>
                match get_prop data "collection_info" with
                | inl _ => error_view
                | inr collection_info =>
                    match get_prop collection_info "document_count" with
                    | inl _ => error_view
                    | inr document_count => connected_view document_count
                    end
                end
            end
          else disconnected_view
      end), w').
Proof.
  intros Hh. unfold checkConnections, connection_attempt. run_M. rewrite Hh.
  destruct (get_prop response "status") as [e|status]; [reflexivity|].
  destruct (is_string "healthy" status); [|reflexivity].
  destruct (get_prop response "data") as [e|data]; [reflexivity|].
  destruct (get_prop data "collection_info") as [e|ci]; [reflexivity|].
  destruct (get_prop ci "document_count") as [e|dc]; reflexivity.
Qed.

Lemma checkConnections_pending_iff :
  fst (checkConnections net w) = Pending <->
  fst (handle (no_request_fields "CHECK_CUAD_HEALTH") net w) = Pending.
Proof.
  destruct (handle (no_request_fields "CHECK_CUAD_HEALTH") net w)
    as [[response|e|] w'] eqn:Hh.
  - rewrite (checkConnections_run response w' Hh). split; discriminate.
  - destruct (handle_never_throws w net (no_request_fields "CHECK_CUAD_HEALTH") e).
    rewrite Hh. reflexivity.
  - unfold checkConnections. run_M. rewrite Hh. tauto.
Qed.

End ConnectionFacts.

(** [checkConnections] never throws, and it completes, writing the two
    status elements, in every case but one: it stays pending, the page
    keeping the status it showed, exactly when no fresh health entry is
    cached and the response to [/health] arrives before the deadline,
    whatever its status, with a body that stalls.  With a fresh entry it
    completes at once without a backend call. *)
Theorem connection_check_hangs_only_on_a_stalled_body :
  forall (net : Net) (w : World),
    (forall e, fst (checkConnections net w) <> Thrown e) /\
    (fst (checkConnections net w) = Pending <->
     fresh (cache w !! "health_check") (clock w) = None /\ stalls net = true) /\
    (forall v, fresh (cache w !! "health_check") (clock w) = Some v ->
       exists view,
         checkConnections net w = (Returned view, emit (CacheGet "health_check") w)).
Proof.
  intros net w. split; [|split].
  - intros e. unfold checkConnections. run_M.
    destruct (handle (no_request_fields "CHECK_CUAD_HEALTH") net w)
      as [[response|e'|] w'] eqn:Hh; [|discriminate|discriminate].
    pose proof (checkConnections_run net w response w' Hh) as Hrun.
    unfold checkConnections in Hrun. revert Hrun. run_M. rewrite Hh.
    intros ->. discriminate.
  - rewrite checkConnections_pending_iff, handle_pending_iff.
    unfold waits_for_body. cbn [cacheKey_of no_request_fields action String.eqb
      Ascii.eqb Bool.eqb].
    destruct (fresh _ _); split; try tauto; try discriminate.
    intros [? _]. discriminate.
  - intros v Hhit.
    assert (Hh : handle (no_request_fields "CHECK_CUAD_HEALTH") net w
                 = (Returned v, emit (CacheGet "health_check") w)).
    { apply handle_returned. rewrite dispatch_health by reflexivity.
      apply checkCUADHealth_hit, Hhit. }
    eexists. apply (checkConnections_run net w v _ Hh).
Qed.

Lemma connection_check_hangs_only_on_a_stalled_body_witness :
  let w0 := {| cache := ∅; clock := 0; trace := [] |} in
  let stalled := NetResponds 40 {| status := 503; body := BodyStalls; body_ms := 0 |} in
  fst (checkConnections stalled w0) = Pending /\
  fst (checkConnections NetSilent w0) <> Pending.
Proof.
  intros w0 stalled.
  split.
  - destruct (connection_check_hangs_only_on_a_stalled_body stalled w0)
      as (_ & Hpending & _).
    apply Hpending. split; reflexivity.
  - destruct (connection_check_hangs_only_on_a_stalled_body NetSilent w0)
      as (_ & Hpending & _).
    intros H. apply Hpending in H. destruct H as [_ H]. discriminate.
Defined.



Section ChatFacts.

Context (net : Net) (w : World).

Lemma handle_gpt :
  handle (no_request_fields "GET_GPT_RESPONSE") net w
  = (Returned (JObj [ ("fallback", JBool true);
                      ("content", JStr gpt_content);
                      ("timestamp", JStr (toISOString (clock w))) ]), w).
Proof. reflexivity. Qed.

Lemma handle_enhanced_content (request : Request) (response : JsVal) (w1 : World) :
  action request = "GET_ENHANCED_RESPONSE" ->
  handle request net w = (Returned response, w1) ->
  get_prop response "fallback" = inr (JBool true) /\
  exists content,
    get_prop response "content" = inr content /\
    (content = JUndefined \/ exists s, content = JStr s).
Proof.
  intros Ha. unfold handle, try_catch. rewrite dispatch_enhanced by exact Ha.
  destruct (analyzeSimple _ _ net w) as [[a|e|] w2].
  - destruct (get_prop a "analysis_prompt");
      [intros [= <- <-]; split; [reflexivity|]; eexists; split;
       [reflexivity|left; reflexivity]|].
    destruct (get_prop a "relevant_clauses_found");
      intros [= <- <-]; (split; [reflexivity|]); eexists;
      (split; [reflexivity|]); [left|right; eexists]; reflexivity.
  - intros [= <- <-]. split; [reflexivity|]. eexists. split; [reflexivity|].
    left. reflexivity.
  - discriminate.
Qed.

(** How the requests of a chat message end: with no [response], or with
    an object whose [content] is a string or is missing; or pending, when
    the analysis the CUAD box asks for waits for a body that stalls. *)
Lemma chat_response_cases (useCUAD includeContext : bool) (message : string)
    (ui : Sidebar) :
  let doc := if includeContext then currentDocumentText ui else message in
  match chat_response useCUAD includeContext message ui net w with
  | (Returned response, _) =>
      response = JUndefined \/
      get_prop response "content" = inr JUndefined \/
      exists s, get_prop response "content" = inr (JStr s)
  | (Thrown _, _) => False
  | (Pending, _) => True
  end /\
  (fst (chat_response useCUAD includeContext message ui net w) = Pending <->
   useCUAD = true /\
   fresh (cache w !! analyze_key doc (Some message)) (clock w) = None /\
   stalls_ok net = true).
Proof.
  intros doc. subst doc. unfold chat_response.
  destruct useCUAD, includeContext; cbn [andb].
  - pose proof (handle_pending_iff w net
                  {| action := "GET_ENHANCED_RESPONSE"; query := None; nResults := None;
                     documentText := Some (currentDocumentText ui);
                     question := Some message |}) as Hp.
    pose proof (handle_never_throws w net
                  {| action := "GET_ENHANCED_RESPONSE"; query := None; nResults := None;
                     documentText := Some (currentDocumentText ui);
                     question := Some message |}) as Ht.
    pose proof (handle_enhanced_content
                  {| action := "GET_ENHANCED_RESPONSE"; query := None; nResults := None;
                     documentText := Some (currentDocumentText ui);
                     question := Some message |}) as Hc.
    unfold waits_for_body in Hp.
    cbn [cacheKey_of action documentText question fmap option_fmap option_map
         String.eqb Ascii.eqb Bool.eqb orb] in Hp.
    destruct (handle _ net w) as [[response|e|] w1]; cbn [fst] in *.
    + split.
      * destruct (Hc response w1 eq_refl eq_refl) as (_ & c & Hcontent & [->|(s & ->)]);
          [right; left|right; right; exists s]; exact Hcontent.
      * rewrite Hp. destruct (fresh _ _); split; try tauto; try discriminate;
          try (intros (_ & ? & _); discriminate).
    + destruct (Ht e eq_refl).
    + split; [exact I|]. rewrite Hp.
      destruct (fresh _ _); split; try tauto; try discriminate;
        try (intros (_ & ? & _); discriminate).
  - pose proof (handle_pending_iff w net
                  {| action := "ANALYZE_WITH_CUAD"; query := None; nResults := None;
                     documentText := Some message; question := Some message |}) as Hp.
    pose proof (handle_never_throws w net
                  {| action := "ANALYZE_WITH_CUAD"; query := None; nResults := None;
                     documentText := Some message; question := Some message |}) as Ht.
    unfold waits_for_body in Hp.
    cbn [cacheKey_of action documentText question fmap option_fmap option_map
         String.eqb Ascii.eqb Bool.eqb orb] in Hp.
    run_M.
    destruct (handle _ net w) as [[v|e|] w1]; cbn [fst] in *.
    + assert (Hnp : forall P : Prop, (Returned v = Pending <-> P) -> ~ P).
      { intros P [_ H] HP. specialize (H HP). discriminate. }
      destruct (truthy v) eqn:Htv.
      * destruct (get_prop v "analysis_prompt") as [e|prompt] eqn:Hprompt.
        { destruct v; discriminate. }
        destruct (truthy prompt); cbn [fst].
        -- split; [right; right; eexists; reflexivity|].
           split; [discriminate|]. intros (_ & Hf & Hs).
           destruct (fresh _ _); [discriminate|]. destruct (Hnp _ Hp Hs).
        -- split; [left; reflexivity|].
           split; [discriminate|]. intros (_ & Hf & Hs).
           destruct (fresh _ _); [discriminate|]. destruct (Hnp _ Hp Hs).
      * split; [left; reflexivity|].
        split; [discriminate|]. intros (_ & Hf & Hs).
        destruct (fresh _ _); [discriminate|]. destruct (Hnp _ Hp Hs).
    + destruct (Ht e eq_refl).
    + split; [exact I|]. rewrite Hp.
      destruct (fresh _ _); split; try tauto; try discriminate;
        try (intros (_ & ? & _); discriminate).
  - split; [right; right; eexists; reflexivity|].
    split; [discriminate|intros [? _]; discriminate].
  - split; [right; right; eexists; reflexivity|].
    split; [discriminate|intros [? _]; discriminate].
Qed.

End ChatFacts.

Lemma sendChatMessage_replies (useCUAD includeContext : bool)
    (net net_context : Net) (ui : Sidebar) (w w1 : World)
    (response : JsVal) (s : string) :
  trim (chatInput ui) <> "" ->
  (forall u, currentDocumentText u = currentDocumentText ui ->
     chat_response useCUAD includeContext (trim (chatInput ui)) u net w
     = (Returned response, w1)) ->
  get_prop response "content" = inr (JStr s) -> s <> "" ->
  sendChatMessage useCUAD includeContext net net_context ui w
  = (Returned tt,
     {| currentDocumentText := currentDocumentText ui;
        chatHistory := chatHistory ui
          ++ [ {| role := "user"; content := trim (chatInput ui);
                  timestamp := toISOString (clock w) |};
               {| role := "assistant"; content := s;
                  timestamp := toISOString (clock w1) |} ];
        chatInput := "" |},
     if useCUAD then updateCUADContext (trim (chatInput ui)) net_context w1 else w1).
Proof.
  intros Hne Hresp Hc Hs. unfold sendChatMessage.
  destruct (String.eqb_spec (trim (chatInput ui)) ""); [contradiction|].
  cbn [addChatMessage]. cbv zeta. rewrite Hresp by reflexivity. rewrite Hc.
  cbn [truthy]. destruct (String.eqb_spec s ""); [contradiction|].
  cbn [negb addChatMessage clear_input currentDocumentText chatHistory chatInput].
  rewrite <- app_assoc. reflexivity.
Qed.

(** A chat input that trimming empties does nothing at all.  Any other
    input has its trimmed message added to [chatHistory] as the user's
    entry and the input emptied, the document text being kept, and the
    function never throws.  It then either completes, having added exactly
    one reply of the assistant after the user's entry, or stays pending with
    the user's entry only; the latter exactly when the CUAD box is checked,
    nothing fresh is cached for the analysis of the message, and the
    response to [/analyze] comes with a 2xx status before the deadline and a
    body that stalls. *)
Theorem chat_exchange_adds_two_entries_or_waits :
  forall (useCUAD includeContext : bool) (net net_context : Net)
         (ui : Sidebar) (w : World),
    let message := trim (chatInput ui) in
    let doc := if includeContext then currentDocumentText ui else message in
    let result := sendChatMessage useCUAD includeContext net net_context ui w in
    let outcome := fst (fst result) in
    let ui' := snd (fst result) in
    let asked := {| role := "user"; content := message;
                    timestamp := toISOString (clock w) |} in
    (message = "" -> result = (Returned tt, ui, w)) /\
    (message <> "" ->
     (forall e, outcome <> Thrown e) /\
     (outcome = Pending <->
      useCUAD = true /\
      fresh (cache w !! analyze_key doc (Some message)) (clock w) = None /\
      stalls_ok net = true) /\
     chatInput ui' = "" /\
     currentDocumentText ui' = currentDocumentText ui /\
     (outcome = Pending -> chatHistory ui' = chatHistory ui ++ [asked]) /\
     (outcome = Returned tt ->
      exists reply replied,
        chatHistory ui'
        = chatHistory ui
          ++ [ asked; {| role := "assistant"; content := reply;
                         timestamp := toISOString replied |} ])).
Proof.
  intros useCUAD includeContext net net_context ui w message doc result outcome
    ui' asked.
  subst ui' outcome result. unfold sendChatMessage. fold message. split.
  - intros ->. reflexivity.
  - intros Hne. destruct (String.eqb_spec message ""); [contradiction|].
    cbn [addChatMessage clear_input currentDocumentText chatHistory chatInput].
    match goal with
    | |- context [chat_response _ _ _ ?u net w] =>
        pose proof (chat_response_cases net w useCUAD includeContext message u)
          as [Hcases Hpending];
        destruct (chat_response useCUAD includeContext message u net w)
          as [[response|e|] w1]
    end; unfold clear_input in Hpending;
      cbn [fst currentDocumentText] in Hpending; fold doc in Hpending.
    + assert (Hnp : ~ (useCUAD = true /\
                       fresh (cache w !! analyze_key doc (Some message)) (clock w)
                       = None /\ stalls_ok net = true)).
      { intros H. apply (proj2 Hpending) in H. discriminate. }
      assert (Hiff : forall o : Outcome unit, o <> Pending ->
                (o = Pending <->
                 useCUAD = true /\
                 fresh (cache w !! analyze_key doc (Some message)) (clock w) = None /\
                 stalls_ok net = true)).
      { intros o Ho. split; [contradiction|intros H; destruct (Hnp H)]. }
      destruct Hcases as [->|[Hc|(s & Hc)]].
      * simpl. split; [discriminate|]. split; [apply Hiff; discriminate|].
        split; [reflexivity|]. split; [reflexivity|]. split; [discriminate|].
        intros _. eexists _, _. rewrite <- app_assoc. reflexivity.
      * rewrite Hc. simpl. split; [discriminate|].
        split; [apply Hiff; discriminate|].
        split; [reflexivity|]. split; [reflexivity|]. split; [discriminate|].
        intros _. eexists _, _. rewrite <- app_assoc. reflexivity.
      * rewrite Hc. simpl. destruct (negb (String.eqb s "")); simpl;
          (split; [discriminate|]); (split; [apply Hiff; discriminate|]);
          (split; [reflexivity|]); (split; [reflexivity|]);
          (split; [discriminate|]);
          intros _; eexists _, _; rewrite <- app_assoc; reflexivity.
    + destruct Hcases.
    + simpl. split; [discriminate|].
      split; [split; [intros _; apply Hpending; reflexivity|reflexivity]|].
      split; [reflexivity|]. split; [reflexivity|]. split; [reflexivity|].
      discriminate.
Qed.

Lemma chat_exchange_adds_two_entries_or_waits_witness :
  let ui := {| currentDocumentText := "Lease"; chatHistory := [];
               chatInput := " Is there a penalty? " |} in
  let w0 := {| cache := ∅; clock := 0; trace := [] |} in
  let stalled := NetResponds 40 {| status := 200; body := BodyStalls; body_ms := 0 |} in
  fst (fst (sendChatMessage true false stalled NetSilent ui w0)) = Pending /\
  List.length (chatHistory (snd (fst (sendChatMessage true false stalled NetSilent
                                         ui w0)))) = 1%nat /\
  fst (fst (sendChatMessage true false NetSilent NetSilent ui w0)) <> Pending.
Proof.
  intros ui w0 stalled.
  destruct (chat_exchange_adds_two_entries_or_waits true false stalled NetSilent ui w0)
    as [_ H].
  destruct H as (_ & Hpending & _ & _ & Hasked & _); [discriminate|].
  assert (Hp : fst (fst (sendChatMessage true false stalled NetSilent ui w0)) = Pending).
  { apply Hpending. repeat split. }
  split; [exact Hp|]. split; [rewrite (Hasked Hp); reflexivity|].
  destruct (chat_exchange_adds_two_entries_or_waits true false NetSilent NetSilent ui w0)
    as [_ H].
  destruct H as (_ & Hpending' & _); [discriminate|].
  intros Hq. apply Hpending' in Hq. destruct Hq as (_ & _ & Hq). discriminate.
Defined.

(** With the CUAD box unchecked, every message gets the same canned reply,
    at once: the backend is not called and the cache is neither read nor
    written. *)
Theorem chat_without_cuad_gives_the_canned_reply :
  forall (includeContext : bool) (net net_context : Net) (ui : Sidebar) (w : World),
    trim (chatInput ui) <> "" ->
    exists ui',
      sendChatMessage false includeContext net net_context ui w
      = (Returned tt, ui', w) /\
      chatHistory ui'
      = chatHistory ui
        ++ [ {| role := "user"; content := trim (chatInput ui);
                timestamp := toISOString (clock w) |};
             {| role := "assistant"; content := gpt_content;
                timestamp := toISOString (clock w) |} ].
Proof.
  intros includeContext net net_context ui w Hne.
  eexists. split.
  - rewrite (sendChatMessage_replies false includeContext net net_context ui w w
               (JObj [ ("fallback", JBool true); ("content", JStr gpt_content);
                        ("timestamp", JStr (toISOString (clock w))) ])
               gpt_content Hne); [reflexivity| |reflexivity|discriminate].
    intros u _. unfold chat_response. cbn [andb]. apply handle_gpt.
  - reflexivity.
Qed.

Lemma chat_without_cuad_gives_the_canned_reply_witness :
  let ui := {| currentDocumentText := "Lease"; chatHistory := [];
               chatInput := "Is there a penalty?" |} in
  let w0 := {| cache := ∅; clock := 0; trace := [] |} in
  exists ui',
    sendChatMessage false true NetSilent NetSilent ui w0 = (Returned tt, ui', w0) /\
    content <$> last (chatHistory ui') = Some gpt_content.
Proof.
  intros ui w0.
  destruct (chat_without_cuad_gives_the_canned_reply true NetSilent NetSilent ui w0)
    as (ui' & Hrun & Hh); [discriminate|].
  exists ui'. split; [exact Hrun|]. rewrite Hh. reflexivity.
Defined.

(** With the CUAD box checked, when the backend call of the message fails
    and nothing fresh is cached for it: without the context box the reply is
    the canned one; with it the reply quotes the message and reports 0
    references.  In both cases the cache is as before when the reply is
    added, and the search for the context is sent afterwards. *)
Theorem chat_with_cuad_on_a_failed_backend :
  forall (includeContext : bool) (net net_context : Net) (ui : Sidebar)
         (w : World) (mode : FailureMode),
    let message := trim (chatInput ui) in
    let doc := if includeContext then currentDocumentText ui else message in
    message <> "" ->
    failure_mode net = Some mode ->
    fresh (cache w !! analyze_key doc (Some message)) (clock w) = None ->
    exists ui' w1,
      sendChatMessage true includeContext net net_context ui w
      = (Returned tt, ui', updateCUADContext message net_context w1) /\
      cache w1 = cache w /\
      trace w1
      = trace w ++ [ CacheGet (analyze_key doc (Some message));
                     Fetch "POST" analyze_url (analyze_payload doc (Some message)) ] /\
      chatHistory ui'
      = chatHistory ui
        ++ [ {| role := "user"; content := message;
                timestamp := toISOString (clock w) |};
             {| role := "assistant";
                content :=
                  if includeContext then
                    "Analysis based on document context: " +:+ message
                    +:+ newline +:+ newline
                    +:+ "[Using CUAD RAG system - 0 references found]"
                  else gpt_content;
                timestamp := toISOString (clock w1) |} ].
Proof.
  intros includeContext net net_context ui w mode message doc Hne Hfail Hmiss.
  destruct (analyzeSimple_failure w net doc (Some message) mode Hmiss Hfail)
    as (w1 & Hrun & Hc & Ht).
  assert (Hprompt : string_or (Some message) "Please analyze this legal document."
                    = message).
  { unfold string_or. destruct (String.eqb_spec message ""); [contradiction|].
    reflexivity. }
  assert (Htruthy : negb (String.eqb message "") = true).
  { destruct (String.eqb_spec message ""); [contradiction|reflexivity]. }
  exists
    {| currentDocumentText := currentDocumentText ui;
       chatHistory := chatHistory ui
         ++ [ {| role := "user"; content := message;
                 timestamp := toISOString (clock w) |};
              {| role := "assistant";
                 content :=
                   if includeContext then
                     "Analysis based on document context: " +:+ message
                     +:+ newline +:+ newline
                     +:+ "[Using CUAD RAG system - 0 references found]"
                   else gpt_content;
                 timestamp := toISOString (clock w1) |} ];
       chatInput := "" |}, w1.
  split; [|split; [exact Hc|split; [|reflexivity]]].
  - destruct includeContext.
    + pose proof (handle_enhanced_failure
                    {| action := "GET_ENHANCED_RESPONSE"; query := None;
                       nResults := None; documentText := Some doc;
                       question := Some message |} doc net w w1
                    eq_refl eq_refl Hrun) as Hh.
      cbn [question] in Hh. rewrite Hprompt in Hh.
      match type of Hh with
      | _ = (Returned ?resp, _) =>
          rewrite (sendChatMessage_replies true true net net_context ui w w1 resp
                     ("Analysis based on document context: " +:+ message
                      +:+ newline +:+ newline
                      +:+ "[Using CUAD RAG system - 0 references found]") Hne);
            [reflexivity| |reflexivity|unfold newline; discriminate]
      end.
      intros u Hu. unfold chat_response. cbn [andb]. rewrite Hu. fold message.
      exact Hh.
    + rewrite (sendChatMessage_replies true false net net_context ui w w1
                 (JObj [ ("fallback", JBool true); ("content", JStr gpt_content);
                        ("timestamp", JStr (toISOString (clock w1))) ])
                 gpt_content Hne); [reflexivity| |reflexivity|discriminate].
      intros u _. unfold chat_response. cbn [andb]. run_M. fold message.
      rewrite (handle_returned w net
                 {| action := "ANALYZE_WITH_CUAD"; query := None; nResults := None;
                    documentText := Some message; question := Some message |}
                 (analyze_fallback message (Some message)) w1);
        [|rewrite dispatch_analyze by reflexivity; exact Hrun].
      unfold analyze_fallback. rewrite Hprompt.
      cbn [truthy get_prop field String.eqb Ascii.eqb Bool.eqb lift_prop].
      run_M. rewrite Htruthy. apply handle_gpt.
  - exact Ht.
Qed.

Lemma chat_with_cuad_on_a_failed_backend_witness :
  let ui := {| currentDocumentText := "Lease"; chatHistory := [];
               chatInput := "Is there a penalty?" |} in
  let w0 := {| cache := ∅; clock := 0; trace := [] |} in
  exists ui' w',
    sendChatMessage true true (NetFails 9 "Failed to fetch") NetSilent ui w0
    = (Returned tt, ui', w') /\
    content <$> last (chatHistory ui')
    = Some ("Analysis based on document context: Is there a penalty?"
            +:+ newline +:+ newline
            +:+ "[Using CUAD RAG system - 0 references found]").
Proof.
  intros ui w0.
  destruct (chat_with_cuad_on_a_failed_backend true (NetFails 9 "Failed to fetch")
              NetSilent ui w0 ModeNetworkError)
    as (ui' & w1 & Hrun & _ & _ & Hh); [discriminate|reflexivity|reflexivity|].
  eexists ui', _. split; [exact Hrun|]. rewrite Hh. reflexivity.
Defined.

(** * Properties of the sidebar's quick analysis *)

Import SidebarAnalysis.

Section AnalysisFacts.

Context (net : Net) (w : World).

Lemma analyzeDocument_shows (toLocaleTimeString : Z -> string) (mode : Mode)
    (ui : Sidebar) (response content : JsVal) (w1 : World) :
  handle {| action := "GET_ENHANCED_RESPONSE"; query := None; nResults := None;
            documentText := Some (currentDocumentText ui);
            question := Some (prompts mode) |} net w
  = (Returned response, w1) ->
  get_prop response "fallback" = inr (JBool true) ->
  get_prop response "content" = inr content ->
  analyzeDocument toLocaleTimeString mode ui net w
  = (Returned tt,
     {| loading_display := "none"; resultsContent := warning_markup content |}, w1).
Proof.
  intros Hh Hf Hc. unfold analyzeDocument, displayAnalysisResults. run_M.
  rewrite Hh, Hf. cbn [truthy]. rewrite Hc. reflexivity.
Qed.

End AnalysisFacts.

(** Whatever the mode, the document, the backend and the cache, the quick
    analysis never throws and never shows the titled result block of
    [displayAnalysisResults] or the error block of [analyzeDocument]: when
    it completes, the loading indicator is hidden and the results show the
    "limited analysis" warning around the response's [content], which is a
    string or [undefined].  It stays pending, the loading indicator shown
    and the results empty, exactly when nothing fresh is cached for the
    analysis and the response to [/analyze] comes with a 2xx status before
    the deadline and a body that stalls. *)
Theorem analysis_shows_the_limited_warning_or_waits :
  forall (toLocaleTimeString : Z -> string) (mode : Mode) (ui : Sidebar)
         (net : Net) (w : World),
    let result := analyzeDocument toLocaleTimeString mode ui net w in
    let outcome := fst (fst result) in
    let view := snd (fst result) in
    (forall e, outcome <> Thrown e) /\
    (outcome = Pending <->
     fresh (cache w !! analyze_key (currentDocumentText ui) (Some (prompts mode)))
           (clock w) = None /\
     stalls_ok net = true) /\
    (outcome = Pending ->
     view = {| loading_display := "flex"; resultsContent := "" |}) /\
    (outcome = Returned tt ->
     exists content,
       view = {| loading_display := "none";
                 resultsContent := warning_markup content |} /\
       (content = JUndefined \/ exists s, content = JStr s)).
Proof.
  intros toLocaleTimeString mode ui net w result outcome view.
  subst view outcome result.
  pose proof (handle_pending_iff w net
                {| action := "GET_ENHANCED_RESPONSE"; query := None; nResults := None;
                   documentText := Some (currentDocumentText ui);
                   question := Some (prompts mode) |}) as Hp.
  unfold waits_for_body in Hp.
  cbn [cacheKey_of action documentText question fmap option_fmap option_map
       String.eqb Ascii.eqb Bool.eqb orb] in Hp.
  assert (Hcond : fst (handle
                         {| action := "GET_ENHANCED_RESPONSE"; query := None;
                            nResults := None;
                            documentText := Some (currentDocumentText ui);
                            question := Some (prompts mode) |} net w) = Pending <->
                  fresh (cache w !! analyze_key (currentDocumentText ui)
                                      (Some (prompts mode))) (clock w) = None /\
                  stalls_ok net = true).
  { rewrite Hp. destruct (fresh _ _); split; try tauto; try discriminate.
    intros [? _]. discriminate. }
  clear Hp.
  destruct (handle {| action := "GET_ENHANCED_RESPONSE"; query := None;
                      nResults := None;
                      documentText := Some (currentDocumentText ui);
                      question := Some (prompts mode) |} net w)
    as [[response|e|] w1] eqn:Hh; cbn [fst] in Hcond.
  - destruct (handle_enhanced_content net w
                {| action := "GET_ENHANCED_RESPONSE"; query := None;
                   nResults := None;
                   documentText := Some (currentDocumentText ui);
                   question := Some (prompts mode) |} response w1 eq_refl Hh)
      as (Hf & content & Hc & Hcases).
    rewrite (analyzeDocument_shows net w toLocaleTimeString mode ui response content
               w1 Hh Hf Hc).
    cbn [fst snd]. split; [discriminate|]. split.
    { split; [discriminate|]. intros H. apply Hcond in H. discriminate. }
    split; [discriminate|]. intros _. exists content. split; [reflexivity|exact Hcases].
  - pose proof (handle_never_throws w net
                  {| action := "GET_ENHANCED_RESPONSE"; query := None;
                     nResults := None;
                     documentText := Some (currentDocumentText ui);
                     question := Some (prompts mode) |} e) as Ht.
    rewrite Hh in Ht. destruct Ht. reflexivity.
  - unfold analyzeDocument. run_M. rewrite Hh. cbn [fst snd].
    split; [discriminate|]. split.
    { split; [intros _; apply Hcond; reflexivity|reflexivity]. }
    split; [reflexivity|discriminate].
Qed.

Lemma analysis_shows_the_limited_warning_or_waits_witness :
  let ui := {| currentDocumentText := "Lease"; chatHistory := []; chatInput := "" |} in
  let w0 := {| cache := ∅; clock := 0; trace := [] |} in
  let stalled := NetResponds 40 {| status := 200; body := BodyStalls; body_ms := 0 |} in
  analyzeDocument (fun _ => "10:00:00 AM") explain ui stalled w0
  = (Pending, {| loading_display := "flex"; resultsContent := "" |},
     snd (analyzeDocument (fun _ => "10:00:00 AM") explain ui stalled w0)) /\
  fst (fst (analyzeDocument (fun _ => "10:00:00 AM") explain ui
              (NetFails 7 "Failed to fetch") w0)) <> Pending.
Proof.
  intros ui w0 stalled. split.
  - destruct (analysis_shows_the_limited_warning_or_waits
                (fun _ => "10:00:00 AM") explain ui stalled w0)
      as (_ & Hpending & Hview & _).
    assert (Hp : fst (fst (analyzeDocument (fun _ => "10:00:00 AM") explain ui
                             stalled w0)) = Pending).
    { apply Hpending. split; reflexivity. }
    specialize (Hview Hp).
    destruct (analyzeDocument (fun _ => "10:00:00 AM") explain ui stalled w0)
      as [[o v] w']. cbn [fst snd] in *. subst. reflexivity.
  - destruct (analysis_shows_the_limited_warning_or_waits
                (fun _ => "10:00:00 AM") explain ui (NetFails 7 "Failed to fetch") w0)
      as (_ & Hpending & _).
    intros H. apply Hpending in H. destruct H as [_ H]. discriminate.
Defined.

(** When the backend call of a quick analysis fails and nothing fresh is
    cached for it, the warning shown quotes the prompt of the mode and
    reports 0 references, whatever the document text (the empty text of a
    page not yet loaded included); the cache is left as it was. *)
Theorem analysis_on_a_failed_backend_quotes_the_prompt :
  forall (toLocaleTimeString : Z -> string) (mode : Mode) (ui : Sidebar)
         (net : Net) (w : World) (failure : FailureMode),
    failure_mode net = Some failure ->
    fresh (cache w !! analyze_key (currentDocumentText ui) (Some (prompts mode)))
          (clock w) = None ->
    exists w',
      analyzeDocument toLocaleTimeString mode ui net w
      = (Returned tt,
         {| loading_display := "none";
            resultsContent :=
              warning_markup
                (JStr ("Analysis based on document context: " +:+ prompts mode
                       +:+ newline +:+ newline
                       +:+ "[Using CUAD RAG system - 0 references found]")) |},
         w') /\
      cache w' = cache w.
Proof.
  intros toLocaleTimeString mode ui net w failure Hfail Hmiss.
  destruct (analyzeSimple_failure w net (currentDocumentText ui)
              (Some (prompts mode)) failure Hmiss Hfail)
    as (w' & Hrun & Hc & _).
  exists w'. split; [|exact Hc].
  pose proof (handle_enhanced_failure
                {| action := "GET_ENHANCED_RESPONSE"; query := None;
                   nResults := None;
                   documentText := Some (currentDocumentText ui);
                   question := Some (prompts mode) |}
                (currentDocumentText ui) net w w' eq_refl eq_refl Hrun) as Hh.
  cbn [question] in Hh.
  assert (Hprompt : string_or (Some (prompts mode))
                      "Please analyze this legal document." = prompts mode).
  { destruct mode; reflexivity. }
  rewrite Hprompt in Hh.
  apply (analyzeDocument_shows net w toLocaleTimeString mode ui _ _ w' Hh);
    reflexivity.
Qed.

Lemma analysis_on_a_failed_backend_quotes_the_prompt_witness :
  let ui := {| currentDocumentText := ""; chatHistory := []; chatInput := "" |} in
  let w0 := {| cache := ∅; clock := 0; trace := [] |} in
  exists w',
    analyzeDocument (fun _ => "10:00:00 AM") summarize ui NetSilent w0
    = (Returned tt,
       {| loading_display := "none";
          resultsContent :=
            warning_markup
              (JStr ("Analysis based on document context: Please provide a concise summary of this legal document."
                     +:+ newline +:+ newline
                     +:+ "[Using CUAD RAG system - 0 references found]")) |},
       w').
Proof.
  intros ui w0.
  destruct (analysis_on_a_failed_backend_quotes_the_prompt
              (fun _ => "10:00:00 AM") summarize ui NetSilent w0 ModeTimeout
              eq_refl eq_refl) as (w' & Hrun & _).
  exists w'. exact Hrun.
Defined.

(** * Properties of the page messages *)

Import PageMessages.

Lemma extractTextSimple_length (querySelector : string -> option string)
    (bodyText : string) :
  (String.length (extractTextSimple querySelector bodyText) <= 5000)%nat.
Proof.
  unfold extractTextSimple. generalize mainSelectors as selectors.
  induction selectors as [|s rest IH]; simpl; [apply substring0_length|].
  destruct (querySelector s) as [t|]; [|exact IH].
  destruct (_ && _); [apply substring0_length|exact IH].
Qed.

(** Loading a page whose tab runs the content script, or whose tab does
    not answer at all, always ends with a document text that is not empty
    and has at most 5000 characters: the extracted text, or the notice
    "Unable to extract text from this page." when nothing was extracted or
    nobody answered, in which case the counters show 0 characters and 0
    words although the document text is the 38-character notice.  The chat
    is left as it was. *)
Theorem page_load_sets_a_bounded_document_text :
  forall (page : Page) (tab : Tab) (rest : list Tab) (ui : Sidebar),
    answers tab "GET_DOCUMENT_TEXT" = content_response "GET_DOCUMENT_TEXT" page \/
    answers tab "GET_DOCUMENT_TEXT" = None ->
    exists ui' info,
      loadPageContent (tab :: rest) ui = inr (ui', info) /\
      currentDocumentText ui' <> "" /\
      (String.length (currentDocumentText ui') <= 5000)%nat /\
      chatHistory ui' = chatHistory ui /\ chatInput ui' = chatInput ui /\
      (currentDocumentText ui' = extractTextSimple (querySelector page) (bodyText page) /\
       charCount info = pretty (String.length (currentDocumentText ui')) +:+ " chars"
       \/
       currentDocumentText ui' = "Unable to extract text from this page." /\
       charCount info = "0 chars" /\ wordCount_text info = "0 words" /\
       (answers tab "GET_DOCUMENT_TEXT" = None \/
        extractTextSimple (querySelector page) (bodyText page) = "")).
Proof.
  intros page tab rest ui [Ha|Ha]; unfold loadPageContent; rewrite Ha.
  - cbn [content_response String.eqb Ascii.eqb Bool.eqb truthy get_prop field].
    pose proof (extractTextSimple_length (querySelector page) (bodyText page)) as Hlen.
    destruct (extractTextSimple (querySelector page) (bodyText page)) as [|c text] eqn:He.
    + eexists _, _. split; [reflexivity|]. cbn.
      split; [discriminate|]. split; [lia|]. split; [reflexivity|].
      split; [reflexivity|]. right. auto.
    + eexists _, _. split; [reflexivity|].
      cbn [set_document currentDocumentText chatHistory chatInput page_info
           charCount updateTextStats fst].
      split; [discriminate|]. split; [exact Hlen|]. split; [reflexivity|].
      split; [reflexivity|]. left. split; reflexivity.
  - eexists _, _. split; [reflexivity|]. cbn.
    split; [discriminate|]. split; [lia|]. split; [reflexivity|].
    split; [reflexivity|]. right. auto.
Qed.

Lemma page_load_sets_a_bounded_document_text_witness :
  let page := {| href := "https://example.org/terms"; title := "Terms";
                 querySelector := fun _ => None;
                 bodyText := "These terms apply." |} in
  let ui := {| currentDocumentText := ""; chatHistory := []; chatInput := "" |} in
  exists ui' info,
    loadPageContent [content_tab page] ui = inr (ui', info) /\
    currentDocumentText ui' <> "" /\
    (String.length (currentDocumentText ui') <= 5000)%nat.
Proof.
  intros page ui.
  destruct (page_load_sets_a_bounded_document_text page (content_tab page) [] ui)
    as (ui' & info & Hrun & Hne & Hlen & _); [left; reflexivity|].
  exists ui', info. auto.
Defined.

(** * Properties of the popup *)

Import Popup.

(** The popup's "Analyze" button sends the action [analyzePage], which the
    content script's listener has no case for: on a tab that runs this
    content script the click always ends with the status "Failed", the
    button enabled again, the last scan untouched and the popup left open.
    No response the listener gives to any action carries the status
    [analyzing] the popup waits for. *)
Theorem popup_analysis_always_fails :
  forall (page : Page) (rest : list Tab) (v : AnalyzeView),
    content_response "analyzePage" page = None /\
    analyzePage_click (Some (content_tab page :: rest)) v
    = {| pageStatus := "Failed"; analyzeDisabled := false;
         lastScan := lastScan v; closing := closing v |} /\
    (forall action response,
       content_response action page = Some response ->
       get_prop response "status" <> inr (JStr "analyzing")).
Proof.
  intros page rest v. split; [reflexivity|]. split; [reflexivity|].
  intros action response. unfold content_response.
  destruct (String.eqb action "GET_DOCUMENT_TEXT"); [intros [= <-]; discriminate|].
  destruct (String.eqb action "TOGGLE_SIDEBAR"); [intros [= <-]; discriminate|].
  destruct (String.eqb action "PING"); [intros [= <-]; discriminate|].
  discriminate.
Qed.

Section PopupFacts.

Context (net_agents : Net) (v : StatusView).

Lemma agent_details_cases (w : World) :
  let result := agent_details net_agents v w in
  (forall e, fst (fst result) <> Thrown e) /\
  (fst (fst result) = Pending <-> unanswered net_agents = true) /\
  backendStatus (snd (fst result)) = backendStatus v /\
  backendStatus_className (snd (fst result)) = backendStatus_className v /\
  agentsLive (snd (fst result)) = agentsLive v /\
  toolsLive (snd (fst result)) = toolsLive v.
Proof.
  unfold agent_details, fetch, unanswered. run_M.
  destruct net_agents as [d r|d m|]; simpl.
  - destruct (body r) as [data|e|]; simpl.
    + destruct (get_prop data "total"); simpl;
        (split; [discriminate|]); (split; [split; discriminate|]); auto.
    + split; [discriminate|]. split; [split; discriminate|]. auto.
    + split; [discriminate|]. split; [split; reflexivity|]. auto.
  - split; [discriminate|]. split; [split; discriminate|]. auto.
  - split; [discriminate|]. split; [split; reflexivity|]. auto.
Qed.

End PopupFacts.

(** The popup's status check has no deadline and never reads the HTTP
    status.  It never throws; it stays pending exactly when a call it makes
    is never answered (no response, or a body that stalls): the call of
    [/], or the call of [/agents] after [/] gave a body that parses to a
    value other than [null].  While the call of [/] is unanswered the page
    shows what it showed; a body that parses to such a value shows
    "Connected", whatever the status of the response; every other end of
    the call of [/] shows "Disconnected" and "0/6" after that one call. *)
Theorem popup_status_check_has_no_deadline :
  forall (net_root net_agents : Net) (v : StatusView) (w : World),
    let result := checkBackendStatus net_root net_agents v w in
    let outcome := fst (fst result) in
    let shown := snd (fst result) in
    (forall e, outcome <> Thrown e) /\
    (outcome = Pending <->
     unanswered net_root = true \/
     parsed_object net_root <> None /\ unanswered net_agents = true) /\
    (unanswered net_root = true -> shown = v) /\
    (parsed_object net_root <> None ->
     backendStatus shown = "Connected" /\
     backendStatus_className shown = "status-value connected") /\
    (unanswered net_root = false -> parsed_object net_root = None ->
     outcome = Returned tt /\ shown = show_disconnected v /\
     network_calls (drop (List.length (trace w)) (trace (snd result))) = 1%nat).
Proof.
  intros net_root net_agents v w result outcome shown.
  subst outcome shown result.
  remember (parsed_object net_root) as parsed eqn:Hparsed.
  remember (unanswered net_root) as silent eqn:Hsilent.
  unfold checkBackendStatus, fetch. run_M.
  destruct net_root as [d r|d m|]; cbn [parsed_object unanswered] in Hparsed, Hsilent.
  - destruct (body r) as [data|e|] eqn:Hb; cbn [fst snd].
    + destruct (get_prop data "agents") as [e|agents] eqn:Hagents.
      * assert (Hnone : parsed = None).
        { destruct data; try discriminate; exact Hparsed. }
        subst silent. cbn [fst snd].
        split; [discriminate|]. split; [split; [discriminate|]|].
        { intros [H|[H _]]; [discriminate|]. destruct (H Hnone). }
        split; [discriminate|]. split; [intros H; destruct (H Hnone)|].
        intros _ _. split; [reflexivity|]. split; [reflexivity|].
        cbn [elapse emit trace]. rewrite drop_app_length. reflexivity.
      * assert (Hsome : parsed <> None).
        { destruct data; try discriminate; rewrite Hparsed; discriminate. }
        assert (Htools : exists tools, get_prop data "tools" = inr tools).
        { destruct data; try discriminate; eexists; reflexivity. }
        destruct Htools as (tools & ->). subst silent.
        match goal with
        | |- context [agent_details net_agents ?v3 ?w3] =>
            destruct (agent_details_cases net_agents v3 w3)
              as (Hthrow & Hpend & Hs & Hc & _);
            assert (Hshown : backendStatus v3 = "Connected" /\
                             backendStatus_className v3 = "status-value connected")
              by (destruct (is_undefined agents), (is_undefined tools);
                  split; reflexivity)
        end.
        destruct Hshown as [Hs3 Hc3].
        split; [exact Hthrow|]. split; [|split; [discriminate|]].
        { rewrite Hpend. split; [intros ->; right; auto|].
          intros [H|[_ H]]; [discriminate|exact H]. }
        split; [intros _; rewrite Hs, Hc; auto|].
        intros _ Hnone. destruct (Hsome Hnone).
    + subst silent. split; [discriminate|]. split; [split; [discriminate|]|].
      { intros [H|[H _]]; [discriminate|]. destruct (H Hparsed). }
      split; [discriminate|]. split; [intros H; destruct (H Hparsed)|].
      intros _ _. split; [reflexivity|]. split; [reflexivity|].
      cbn [elapse emit trace]. rewrite drop_app_length. reflexivity.
    + subst silent. split; [discriminate|].
      split; [split; [left; reflexivity|reflexivity]|].
      split; [reflexivity|]. split; [intros H; destruct (H Hparsed)|].
      discriminate.
  - subst silent. cbn [fst snd]. split; [discriminate|].
    split; [split; [discriminate|]|].
    { intros [H|[H _]]; [discriminate|]. destruct (H Hparsed). }
    split; [discriminate|]. split; [intros H; destruct (H Hparsed)|].
    intros _ _. split; [reflexivity|]. split; [reflexivity|].
    cbn [elapse emit trace]. rewrite drop_app_length. reflexivity.
  - subst silent. cbn [fst snd]. split; [discriminate|].
    split; [split; [left; reflexivity|reflexivity]|].
    split; [reflexivity|]. split; [intros H; destruct (H Hparsed)|].
    discriminate.
Qed.

Lemma popup_status_check_has_no_deadline_witness :
  let v := {| backendStatus := "Checking..."; backendStatus_className := "status-value";
              agentCount := "-/6"; agentsLive := "-"; toolsLive := "-" |} in
  let w0 := {| cache := ∅; clock := 0; trace := [] |} in
  let down := NetResponds 20 {| status := 503; body_ms := 0;
                body := BodyJson (JObj [("detail", JStr "Service Unavailable")]) |} in
  let stalled := NetResponds 20 {| status := 200; body_ms := 0; body := BodyStalls |} in
  fst (fst (checkBackendStatus stalled NetSilent v w0)) = Pending /\
  backendStatus (snd (fst (checkBackendStatus down (NetFails 3 "Failed to fetch") v w0)))
  = "Connected" /\
  snd (fst (checkBackendStatus (NetFails 3 "Failed to fetch") NetSilent v w0))
  = show_disconnected v.
Proof.
  intros v w0 down stalled. split; [|split].
  - destruct (popup_status_check_has_no_deadline stalled NetSilent v w0)
      as (_ & Hpend & _).
    apply Hpend. left. reflexivity.
  - destruct (popup_status_check_has_no_deadline down (NetFails 3 "Failed to fetch") v w0)
      as (_ & _ & _ & Hconn & _).
    apply Hconn. discriminate.
  - destruct (popup_status_check_has_no_deadline (NetFails 3 "Failed to fetch")
                NetSilent v w0) as (_ & _ & _ & _ & Hdisc).
    apply Hdisc; reflexivity.
Defined.

(** * Properties of the settings *)

Import SidebarSettings.

(** Saving writes the two inputs under their keys and nothing else, and
    toggles the panel.  A later [loadSettings] on a page restores each saved
    value that is not empty; a value saved empty is not restored, the input
    keeping what the page put there; and on the page that saved, loading
    changes nothing. *)
Theorem saved_settings_are_restored_unless_empty :
  forall (panel page_default : SettingsPanel) (storage : Storage)
         (net : Net) (w : World),
    let saved := fst (fst (saveSettings panel storage net w)) in
    let panel' := snd (fst (saveSettings panel storage net w)) in
    visible panel' = negb (visible panel) /\
    (forall key, key <> "apiUrl" -> key <> "openaiKey" ->
       saved !! key = storage !! key) /\
    apiUrl (loadSettings saved page_default)
    = (if String.eqb (apiUrl panel) "" then apiUrl page_default else apiUrl panel) /\
    openaiKey (loadSettings saved page_default)
    = (if String.eqb (openaiKey panel) "" then openaiKey page_default
       else openaiKey panel) /\
    visible (loadSettings saved page_default) = visible page_default /\
    loadSettings saved panel' = panel'.
Proof.
  intros panel page_default storage net w saved panel'.
  assert (Hurl : saved !! "apiUrl" = Some (apiUrl panel)).
  { subst saved. cbn [saveSettings fst].
    rewrite lookup_insert_ne by discriminate. apply lookup_insert_eq. }
  assert (Hkey : saved !! "openaiKey" = Some (openaiKey panel)).
  { subst saved. cbn [saveSettings fst]. apply lookup_insert_eq. }
  split; [reflexivity|]. split.
  { intros key H1 H2. subst saved. cbn [saveSettings fst].
    rewrite !lookup_insert_ne by congruence. reflexivity. }
  unfold loadSettings, restored. rewrite Hurl, Hkey.
  subst panel'. cbn [saveSettings fst snd toggleSettings apiUrl openaiKey visible].
  destruct (String.eqb (apiUrl panel) ""), (String.eqb (openaiKey panel) "");
    repeat split; reflexivity.
Qed.
